(** * ARM3 memory manager initialization (ntoskrnl/mm/ARM3/mminit.c)

    A shallow embedding of the Phase 0 initialization routines of the
    ReactOS ARM3 memory manager, on the 32-bit, two-level paging target
    ([_MI_PAGING_LEVELS == 2], [PAGE_SIZE = 4096]):

    - [MiScanMemoryDescriptors], [MiEarlyAllocPages]
    - [MiComputeColorInformation], [MiInitializeColorTables]
    - [MiMapPfnDatabase], [MiBuildPfnDatabaseFromPages],
      [MiBuildPfnDatabaseZeroPage], [MiBuildPfnDatabaseSelf],
      [MiInitializePfnDatabase]
    - the threshold computation of [MiInitializeMemoryEvents]
    - [MmInitializeMemoryLimits]
    - the sizing, bitmap and threshold part of [MiBuildPagedPool]
    - [MiAdjustWorkingSetManagerParameters], [MiNotifyMemoryEvents]
    - the calls of [MiCreateMemoryEvent], [MiDbgDumpMemoryDescriptors]
    - of [MmArmInitSystem]: the tuning of the allocation fragment, of the
      large stack size and of the system size, and the PFN bitmap

    [ULONG], [PFN_NUMBER], [SIZE_T] and [ULONG_PTR] are 32-bit unsigned
    integers: they are modelled as [Z] with the wrap-around written out
    ([ULONG]).  Global variables are fields of explicit state records that
    are threaded through the functions.  Code that can stop the machine
    returns an [Outcome]. *)

From Stdlib Require Import ZArith List Lia Bool Sorted.
From Stdlib Require String.
From stdpp Require Import gmap.
Import String.StringSyntax.
Delimit Scope string_scope with string.

Open Scope Z_scope.

(* ================================================================== *)
(** * Part I: definitions *)
(* ================================================================== *)

(** ** Machine integers *)

(** Truncation of an integer to a 32-bit unsigned value. *)
Definition ULONG (x : Z) : Z := x mod 2 ^ 32.

Definition ULONG_MAX : Z := 0xFFFFFFFF.

(** [(ULONG)-1], the initial value of [MmLowestPhysicalPage] and of
    [NextPage] in [MmInitializeMemoryLimits]. *)
Definition MINUS_ONE : Z := ULONG (-1).

Definition PAGE_SHIFT : Z := 12.
Definition PAGE_SIZE : Z := 4096.
Definition _1KB : Z := 1024.
Definition _1MB : Z := 1024 * _1KB.

(** ** Outcomes of code that may halt the system *)

Inductive BUGCHECK_CODE : Type :=
| INSTALL_MORE_MEMORY.

(** [Returns a]: the function returns normally.
    [BugCheck c p1 p2 p3 p4]: [KeBugCheckEx(c, p1, p2, p3, p4)], which does
    not return.
    [AssertionFailure]: an [ASSERT] whose condition is false, on a build
    where assertions are compiled in.
    [AccessViolation]: a dereference of a null pointer or a store outside
    the allocated buffer. *)
Inductive Outcome (A : Type) : Type :=
| Returns (a : A)
| BugCheck (code : BUGCHECK_CODE) (p1 p2 p3 p4 : Z)
| AssertionFailure
| AccessViolation.

Arguments Returns {A} a.
Arguments BugCheck {A} code p1 p2 p3 p4.
Arguments AssertionFailure {A}.
Arguments AccessViolation {A}.

Definition obind {A B : Type} (m : Outcome A) (f : A -> Outcome B) : Outcome B :=
  match m with
  | Returns a => f a
  | BugCheck c p1 p2 p3 p4 => BugCheck c p1 p2 p3 p4
  | AssertionFailure => AssertionFailure
  | AccessViolation => AccessViolation
  end.

Notation "'do' x <- m ; k" := (obind m (fun x => k))
  (at level 10, x name, m at level 100, k at level 200).

(** [ASSERT(cond)].  The macro comes from a header that is not part of
    this file: on a checked build ([checked = true]) a false condition
    stops in [RtlAssert], on a free build the macro expands to nothing. *)
Definition ASSERT (checked : bool) (cond : bool) : Outcome unit :=
  if checked && negb cond then AssertionFailure else Returns tt.

(** ** Loader memory descriptors *)

(** [TYPE_OF_MEMORY], in the order of the assignments in
    [MiScanMemoryDescriptors] (and of the [MemType] table of
    [MiDbgDumpMemoryDescriptors]). *)
Inductive TYPE_OF_MEMORY : Type :=
| LoaderExceptionBlock
| LoaderSystemBlock
| LoaderFree
| LoaderBad
| LoaderLoadedProgram
| LoaderFirmwareTemporary
| LoaderFirmwarePermanent
| LoaderOsloaderHeap
| LoaderOsloaderStack
| LoaderSystemCode
| LoaderHalCode
| LoaderBootDriver
| LoaderConsoleInDriver
| LoaderConsoleOutDriver
| LoaderStartupDpcStack
| LoaderStartupKernelStack
| LoaderStartupPanicStack
| LoaderStartupPcrPage
| LoaderStartupPdrPage
| LoaderRegistryData
| LoaderMemoryData
| LoaderNlsData
| LoaderSpecialMemory
| LoaderBBTMemory
| LoaderReserve
| LoaderXIPRom
| LoaderHALCachedMemory
| LoaderLargePageFiller
| LoaderErrorLogMemory.

Definition TYPE_OF_MEMORY_eqb (a b : TYPE_OF_MEMORY) : bool :=
  match a, b with
  | LoaderExceptionBlock, LoaderExceptionBlock
  | LoaderSystemBlock, LoaderSystemBlock
  | LoaderFree, LoaderFree
  | LoaderBad, LoaderBad
  | LoaderLoadedProgram, LoaderLoadedProgram
  | LoaderFirmwareTemporary, LoaderFirmwareTemporary
  | LoaderFirmwarePermanent, LoaderFirmwarePermanent
  | LoaderOsloaderHeap, LoaderOsloaderHeap
  | LoaderOsloaderStack, LoaderOsloaderStack
  | LoaderSystemCode, LoaderSystemCode
  | LoaderHalCode, LoaderHalCode
  | LoaderBootDriver, LoaderBootDriver
  | LoaderConsoleInDriver, LoaderConsoleInDriver
  | LoaderConsoleOutDriver, LoaderConsoleOutDriver
  | LoaderStartupDpcStack, LoaderStartupDpcStack
  | LoaderStartupKernelStack, LoaderStartupKernelStack
  | LoaderStartupPanicStack, LoaderStartupPanicStack
  | LoaderStartupPcrPage, LoaderStartupPcrPage
  | LoaderStartupPdrPage, LoaderStartupPdrPage
  | LoaderRegistryData, LoaderRegistryData
  | LoaderMemoryData, LoaderMemoryData
  | LoaderNlsData, LoaderNlsData
  | LoaderSpecialMemory, LoaderSpecialMemory
  | LoaderBBTMemory, LoaderBBTMemory
  | LoaderReserve, LoaderReserve
  | LoaderXIPRom, LoaderXIPRom
  | LoaderHALCachedMemory, LoaderHALCachedMemory
  | LoaderLargePageFiller, LoaderLargePageFiller
  | LoaderErrorLogMemory, LoaderErrorLogMemory => true
  | _, _ => false
  end.

(** [MMLISTS] values used by this file.  The enumeration is declared in a
    header; the file itself asserts [FreePageList == 1]. *)
Definition ZeroedPageList : Z := 0.
Definition FreePageList : Z := 1.
Definition BadPageList : Z := 5.
Definition ActiveAndValid : Z := 6.

(** The [LocationByMemoryType] table as [MiScanMemoryDescriptors] fills it
    on entry; [-1] marks memory that is not part of the PFN database. *)
Definition LocationByMemoryType (t : TYPE_OF_MEMORY) : Z :=
  match t with
  | LoaderExceptionBlock => ActiveAndValid
  | LoaderSystemBlock => ActiveAndValid
  | LoaderFree => FreePageList
  | LoaderBad => BadPageList
  | LoaderLoadedProgram => FreePageList
  | LoaderFirmwareTemporary => FreePageList
  | LoaderFirmwarePermanent => -1
  | LoaderOsloaderHeap => ActiveAndValid
  | LoaderOsloaderStack => FreePageList
  | LoaderSystemCode => ActiveAndValid
  | LoaderHalCode => ActiveAndValid
  | LoaderBootDriver => ActiveAndValid
  | LoaderConsoleInDriver => ActiveAndValid
  | LoaderConsoleOutDriver => ActiveAndValid
  | LoaderStartupDpcStack => ActiveAndValid
  | LoaderStartupKernelStack => ActiveAndValid
  | LoaderStartupPanicStack => ActiveAndValid
  | LoaderStartupPcrPage => ActiveAndValid
  | LoaderStartupPdrPage => ActiveAndValid
  | LoaderRegistryData => ActiveAndValid
  | LoaderMemoryData => ActiveAndValid
  | LoaderNlsData => ActiveAndValid
  | LoaderSpecialMemory => -1
  | LoaderBBTMemory => -1
  | LoaderReserve => ActiveAndValid
  | LoaderXIPRom => ActiveAndValid
  | LoaderHALCachedMemory => ActiveAndValid
  | LoaderLargePageFiller => ActiveAndValid
  | LoaderErrorLogMemory => ActiveAndValid
  end.

Definition MiIsMemoryTypeInDatabase (t : TYPE_OF_MEMORY) : bool :=
  negb (LocationByMemoryType t =? -1).

Definition MiIsMemoryTypeFree (t : TYPE_OF_MEMORY) : bool :=
  LocationByMemoryType t =? FreePageList.

Record MEMORY_ALLOCATION_DESCRIPTOR : Type := MkDescriptor {
  MemoryType : TYPE_OF_MEMORY;
  BasePage : Z;
  PageCount : Z
}.

(** The loader block's [MemoryDescriptorListHead] list, in list order.  A
    [PMEMORY_ALLOCATION_DESCRIPTOR] is the position of the descriptor in
    this list ([None] is the null pointer). *)
Definition LOADER_PARAMETER_BLOCK : Type := list MEMORY_ALLOCATION_DESCRIPTOR.

Definition Deref (LoaderBlock : LOADER_PARAMETER_BLOCK) (p : option nat)
  : option MEMORY_ALLOCATION_DESCRIPTOR :=
  match p with
  | Some i => nth_error LoaderBlock i
  | None => None
  end.

(** ** Global variables of the physical memory scan and of the early
       allocator *)

Record MM_GLOBALS : Type := MkGlobals {
  MiNumberDescriptors : Z;
  MmNumberOfPhysicalPages : Z;
  MmLowestPhysicalPage : Z;
  MmHighestPhysicalPage : Z;
  MiNumberOfFreePages : Z;
  MiEarlyAllocCount : Z;
  MiEarlyAllocBase : Z;
  MxFreeDescriptor : option nat;
  MxOldFreeDescriptor : MEMORY_ALLOCATION_DESCRIPTOR
}.

(** The values the globals are initialized with in the file:
    [MmLowestPhysicalPage = -1], the others zero. *)
Definition InitialGlobals : MM_GLOBALS :=
  {| MiNumberDescriptors := 0;
     MmNumberOfPhysicalPages := 0;
     MmLowestPhysicalPage := MINUS_ONE;
     MmHighestPhysicalPage := 0;
     MiNumberOfFreePages := 0;
     MiEarlyAllocCount := 0;
     MiEarlyAllocBase := 0;
     MxFreeDescriptor := None;
     MxOldFreeDescriptor := MkDescriptor LoaderExceptionBlock 0 0 |}.

(** ** MiScanMemoryDescriptors *)

(** One iteration of the loop, for the descriptor at position [p]. *)
Definition MiScanDescriptor (p : nat) (MdBlock : MEMORY_ALLOCATION_DESCRIPTOR)
    (g : MM_GLOBALS) : MM_GLOBALS :=
  (* Count descriptor *)
  let n := ULONG (MiNumberDescriptors g + 1) in
  (* Skip memory that is not part of the database *)
  if negb (MiIsMemoryTypeInDatabase (MemoryType MdBlock)) then
    MkGlobals n (MmNumberOfPhysicalPages g) (MmLowestPhysicalPage g)
      (MmHighestPhysicalPage g) (MiNumberOfFreePages g) (MiEarlyAllocCount g)
      (MiEarlyAllocBase g) (MxFreeDescriptor g) (MxOldFreeDescriptor g)
  else
    (* Check if BURNMEM was used *)
    let total :=
      if negb (TYPE_OF_MEMORY_eqb (MemoryType MdBlock) LoaderBad)
      then ULONG (MmNumberOfPhysicalPages g + PageCount MdBlock)
      else MmNumberOfPhysicalPages g in
    (* Update the lowest and highest page *)
    let lowest := Z.min (MmLowestPhysicalPage g) (BasePage MdBlock) in
    let highest := Z.max (MmHighestPhysicalPage g)
                         (ULONG (BasePage MdBlock + PageCount MdBlock - 1)) in
    (* Check if this is free memory *)
    if MiIsMemoryTypeFree (MemoryType MdBlock) then
      let free := ULONG (MiNumberOfFreePages g + PageCount MdBlock) in
      (* Check if this is the largest memory descriptor *)
      if PageCount MdBlock >? MiEarlyAllocCount g then
        MkGlobals n total lowest highest free (PageCount MdBlock)
          (MiEarlyAllocBase g) (Some p) (MxOldFreeDescriptor g)
      else
        MkGlobals n total lowest highest free (MiEarlyAllocCount g)
          (MiEarlyAllocBase g) (MxFreeDescriptor g) (MxOldFreeDescriptor g)
    else
      MkGlobals n total lowest highest (MiNumberOfFreePages g)
        (MiEarlyAllocCount g) (MiEarlyAllocBase g) (MxFreeDescriptor g)
        (MxOldFreeDescriptor g).

(** The loop over the descriptors; [p] is the position of the head of
    [l] in the loader block. *)
Fixpoint MiScanLoop (p : nat) (l : list MEMORY_ALLOCATION_DESCRIPTOR)
    (g : MM_GLOBALS) : MM_GLOBALS :=
  match l with
  | [] => g
  | MdBlock :: l' => MiScanLoop (S p) l' (MiScanDescriptor p MdBlock g)
  end.

(** After the loop the function copies [*MxFreeDescriptor] into
    [MxOldFreeDescriptor] and reads [MxFreeDescriptor->BasePage]: with no
    descriptor selected the pointer is still null. *)
Definition MiScanMemoryDescriptors (LoaderBlock : LOADER_PARAMETER_BLOCK)
    (g : MM_GLOBALS) : Outcome MM_GLOBALS :=
  let g := MiScanLoop 0 LoaderBlock g in
  match Deref LoaderBlock (MxFreeDescriptor g) with
  | None => AccessViolation
  | Some d =>
      Returns (MkGlobals (MiNumberDescriptors g) (MmNumberOfPhysicalPages g)
                 (MmLowestPhysicalPage g) (MmHighestPhysicalPage g)
                 (MiNumberOfFreePages g) (MiEarlyAllocCount g)
                 (BasePage d) (MxFreeDescriptor g) d)
  end.

(** ** MiEarlyAllocPages *)

Definition MiEarlyAllocPages (LoaderBlock : LOADER_PARAMETER_BLOCK)
    (Count : Z) (g : MM_GLOBALS) : Outcome (Z * MM_GLOBALS) :=
  (* Make sure we have enough pages *)
  if Count >? MiEarlyAllocCount g then
    (* Crash the system *)
    match Deref LoaderBlock (MxFreeDescriptor g) with
    | None => AccessViolation
    | Some d =>
        BugCheck INSTALL_MORE_MEMORY
                 (MmNumberOfPhysicalPages g)
                 (MiEarlyAllocCount g)
                 (PageCount d)
                 Count
    end
  else
    (* Use our lowest usable free pages *)
    let Pfn := MiEarlyAllocBase g in
    Returns (Pfn,
             MkGlobals (MiNumberDescriptors g) (MmNumberOfPhysicalPages g)
               (MmLowestPhysicalPage g) (MmHighestPhysicalPage g)
               (MiNumberOfFreePages g)
               (ULONG (MiEarlyAllocCount g - Count))
               (ULONG (MiEarlyAllocBase g + Count))
               (MxFreeDescriptor g) (MxOldFreeDescriptor g)).

(** A caller that performs the allocations [ns] one after the other and
    collects the returned page numbers. *)
Fixpoint EarlyAllocSequence (LoaderBlock : LOADER_PARAMETER_BLOCK)
    (ns : list Z) (g : MM_GLOBALS) : Outcome (list Z * MM_GLOBALS) :=
  match ns with
  | [] => Returns ([], g)
  | n :: ns' =>
      do r <- MiEarlyAllocPages LoaderBlock n g;
      do rs <- EarlyAllocSequence LoaderBlock ns' (snd r);
      Returns (fst r :: fst rs, snd rs)
  end.

(** ** MiComputeColorInformation *)

(** [MI_MIN_SECONDARY_COLORS], [MI_SECONDARY_COLORS] (the default) and
    [MI_MAX_SECONDARY_COLORS] are defined in a header; the function is
    modelled for arbitrary values of the three constants. *)
Record COLOR_LIMITS : Type := MkColorLimits {
  MI_MIN_SECONDARY_COLORS : Z;
  MI_SECONDARY_COLORS : Z;
  MI_MAX_SECONDARY_COLORS : Z
}.

(** [Preset] is the value of [MmSecondaryColors] on entry (a registry
    setting, zero when there is none); the two cache values are read from
    the processor control region.  The result is the pair
    [(MmSecondaryColors, MmSecondaryColorMask)]. *)
Definition MiComputeColorInformation (K : COLOR_LIMITS)
    (SecondLevelCacheSize SecondLevelCacheAssociativity : Z) (Preset : Z)
    : Z * Z :=
  (* Check if no setting was provided already *)
  let c :=
    if Preset =? 0 then
      let L2Associativity := SecondLevelCacheAssociativity in
      (* The number of colors is the number of cache bytes by set/way *)
      let c := SecondLevelCacheSize in
      if negb (L2Associativity =? 0) then c / L2Associativity else c
    else Preset in
  (* Now convert cache bytes into pages *)
  let c := Z.shiftr c PAGE_SHIFT in
  let c :=
    if c =? 0 then
      (* If there was no cache data from the KPCR, use the default colors *)
      MI_SECONDARY_COLORS K
    else
      (* Otherwise, make sure there aren't too many colors *)
      let c := if c >? MI_MAX_SECONDARY_COLORS K
               then MI_MAX_SECONDARY_COLORS K else c in
      (* Make sure there aren't too little colors *)
      let c := if c <? MI_MIN_SECONDARY_COLORS K
               then MI_SECONDARY_COLORS K else c in
      (* Finally make sure the colors are a power of two *)
      if negb (Z.land c (ULONG (c - 1)) =? 0)
      then MI_SECONDARY_COLORS K else c in
  (* Compute the mask and store it *)
  (c, ULONG (c - 1)).

(** ** MiInitializeMemoryEvents: the memory thresholds *)

(** The threshold computation that opens [MiInitializeMemoryEvents].
    [Low] and [High] are the values of [MmLowMemoryThreshold] and
    [MmHighMemoryThreshold] on entry (registry settings in megabytes, zero
    when there is none); the result is the pair of thresholds, in pages,
    with which the function goes on to create the events. *)
Definition MiInitializeMemoryEvents (checked : bool)
    (MmPlentyFreePages NumberOfPhysicalPages : Z) (Low High : Z)
    : Outcome (Z * Z) :=
  let low :=
    (* Check if we have a registry setting *)
    if negb (Low =? 0) then
      (* Convert it to pages *)
      ULONG (Low * (_1MB / PAGE_SIZE))
    else
      let low := MmPlentyFreePages in
      let low :=
        (* More than one GB of memory? *)
        if NumberOfPhysicalPages >? 0x40000 then
          (* Start at 32MB, and add another 16MB for each GB *)
          let low := (32 * _1MB) / PAGE_SIZE in
          ULONG (low + Z.shiftr (ULONG (NumberOfPhysicalPages - 0x40000)) 7)
        else if NumberOfPhysicalPages >? 0x8000 then
          (* For systems with > 128MB RAM, add another 4MB for each 128MB *)
          ULONG (low + Z.shiftr (ULONG (NumberOfPhysicalPages - 0x8000)) 5)
        else low in
      (* Don't let the minimum threshold go past 64MB *)
      Z.min low ((64 * _1MB) / PAGE_SIZE) in
  do high <-
    (* Check if we have a registry setting *)
    (if negb (High =? 0) then
       (* Convert it into pages *)
       Returns (ULONG (High * (_1MB / PAGE_SIZE)))
     else
       (* Otherwise, the default is three times the low memory threshold *)
       let high := ULONG (3 * low) in
       do _ <- ASSERT checked (high >? low);
       Returns high);
  (* Make sure high threshold is actually higher than the low *)
  let high := Z.max high low in
  Returns (low, high).

(** ** MmInitializeMemoryLimits *)

Record PHYSICAL_MEMORY_RUN : Type := MkRun {
  RunBasePage : Z;
  RunPageCount : Z
}.

(** [Run] is the array that follows the two counters; only its first
    [NumberOfRuns] elements are meaningful. *)
Record PHYSICAL_MEMORY_DESCRIPTOR : Type := MkPhysicalMemory {
  NumberOfRuns : Z;
  NumberOfPages : Z;
  Run : list PHYSICAL_MEMORY_RUN
}.

(** Local variables of the loop: the run counter, the next expected page,
    the running total and the contents of [Buffer->Run]. *)
Record LIMITS_LOOP : Type := MkLimitsLoop {
  LoopRun : Z;
  LoopNextPage : Z;
  LoopPageCount : Z;
  LoopBuffer : list PHYSICAL_MEMORY_RUN
}.

(** A store to, or an update of, [Buffer->Run[i]]; the buffer holds
    [length buf] runs. *)
Definition RunStore (buf : list PHYSICAL_MEMORY_RUN) (i : Z)
    (f : PHYSICAL_MEMORY_RUN -> PHYSICAL_MEMORY_RUN)
    : Outcome (list PHYSICAL_MEMORY_RUN) :=
  if (0 <=? i) && (i <? Z.of_nat (length buf)) then
    match buf !! Z.to_nat i with
    | Some r => Returns (<[Z.to_nat i := f r]> buf)
    | None => AccessViolation
    end
  else AccessViolation.

(** One iteration of the loop.  [IncludeType] is the caller's array of
    booleans, indexed by memory type; every [TYPE_OF_MEMORY] value is below
    [LoaderMaximum]. *)
Definition MmLimitsDescriptor (checked : bool)
    (IncludeType : TYPE_OF_MEMORY -> bool)
    (MdBlock : MEMORY_ALLOCATION_DESCRIPTOR) (s : LIMITS_LOOP)
    : Outcome LIMITS_LOOP :=
  if IncludeType (MemoryType MdBlock) then
    (* Add this to our running total *)
    let total := ULONG (LoopPageCount s + PageCount MdBlock) in
    (* Check if the next page is described by the next descriptor *)
    if BasePage MdBlock =? LoopNextPage s then
      (* Combine it into the same physical run *)
      do _ <- ASSERT checked (negb (PageCount MdBlock =? 0));
      do buf <- RunStore (LoopBuffer s) (ULONG (LoopRun s - 1))
                  (fun r => MkRun (RunBasePage r)
                              (ULONG (RunPageCount r + PageCount MdBlock)));
      Returns (MkLimitsLoop (LoopRun s)
                 (ULONG (LoopNextPage s + PageCount MdBlock)) total buf)
    else
      (* Otherwise just duplicate the descriptor's contents *)
      do buf <- RunStore (LoopBuffer s) (LoopRun s)
                  (fun _ => MkRun (BasePage MdBlock) (PageCount MdBlock));
      Returns (MkLimitsLoop (ULONG (LoopRun s + 1))
                 (ULONG (BasePage MdBlock + PageCount MdBlock)) total buf)
  else Returns s.

Fixpoint MmLimitsLoop (checked : bool) (IncludeType : TYPE_OF_MEMORY -> bool)
    (l : list MEMORY_ALLOCATION_DESCRIPTOR) (s : LIMITS_LOOP)
    : Outcome LIMITS_LOOP :=
  match l with
  | [] => Returns s
  | MdBlock :: l' =>
      do s' <- MmLimitsDescriptor checked IncludeType MdBlock s;
      MmLimitsLoop checked IncludeType l' s'
  end.

(** [ExAllocatePoolWithTag] is the pool allocator's: [Alloc1] and [Alloc2]
    tell whether the first and the second allocation succeed, [Pool] is
    the run that fresh pool memory holds before it is written.  The result
    is [None] when the function returns [NULL]. *)
Definition MmInitializeMemoryLimits (checked : bool) (Alloc1 Alloc2 : bool)
    (Pool : PHYSICAL_MEMORY_RUN) (NumberDescriptors : Z)
    (LoaderBlock : LOADER_PARAMETER_BLOCK)
    (IncludeType : TYPE_OF_MEMORY -> bool)
    : Outcome (option PHYSICAL_MEMORY_DESCRIPTOR) :=
  (* Allocate the maximum we'll ever need *)
  if negb Alloc1 then Returns None else
  let Buffer := replicate (Z.to_nat NumberDescriptors) Pool in
  (* Now loop through the descriptors again *)
  do s <- MmLimitsLoop checked IncludeType LoaderBlock
            (MkLimitsLoop 0 MINUS_ONE 0 Buffer);
  (* We should not have been able to go past our initial estimate *)
  do _ <- ASSERT checked (LoopRun s <=? NumberDescriptors);
  (* Our guess was probably exaggerated... *)
  let Buffer :=
    if (NumberDescriptors >? LoopRun s) && Alloc2
    then take (Z.to_nat (LoopRun s)) (LoopBuffer s)
    else LoopBuffer s in
  (* Write the final numbers, and return it *)
  Returns (Some (MkPhysicalMemory (LoopRun s) (LoopPageCount s) Buffer)).

(** The runs of a physical memory block: the first [NumberOfRuns] elements
    of its array. *)
Definition RunsOf (b : PHYSICAL_MEMORY_DESCRIPTOR) : list PHYSICAL_MEMORY_RUN :=
  take (Z.to_nat (NumberOfRuns b)) (Run b).

(** ** MiBuildPagedPool: sizing, bitmaps and thresholds *)

(** The source guarantees "at least 32MB" of paged pool. *)
Definition MI_MIN_INIT_PAGED_POOLSIZE : Z := 32 * _1MB.

Definition BYTES_TO_PAGES (Size : Z) : Z :=
  Z.shiftr Size PAGE_SHIFT
  + (if negb (Z.land Size (PAGE_SIZE - 1) =? 0) then 1 else 0).

(** An [RTL_BITMAP]: the number of bits and the bits of the buffer it
    points to (a whole number of [ULONG]s). *)
Record RTL_BITMAP : Type := MkBitMap {
  SizeOfBitMap : Z;
  Bits : list bool
}.

(** Modelled from the spec: the run-time library's bitmap routines are not
    in this file; they do what the spec says of their calls ("set all bits
    of the allocation map then clear the first 1024 bits; clear all bits of
    the end map").  [RtlInitializeBitMap] attaches a buffer to a header
    without touching the bits. *)
Definition RtlInitializeBitMap (Buffer : list bool) (SizeOfBitMap : Z)
    : RTL_BITMAP :=
  MkBitMap SizeOfBitMap Buffer.

(** Modelled from the spec: sets every bit of the buffer. *)
Definition RtlSetAllBits (b : RTL_BITMAP) : RTL_BITMAP :=
  MkBitMap (SizeOfBitMap b) (map (fun _ => true) (Bits b)).

(** Modelled from the spec: clears every bit of the buffer. *)
Definition RtlClearAllBits (b : RTL_BITMAP) : RTL_BITMAP :=
  MkBitMap (SizeOfBitMap b) (map (fun _ => false) (Bits b)).

(** Modelled from the spec: clears the [Count] bits that start at
    [Start]. *)
Definition RtlClearBits (b : RTL_BITMAP) (Start Count : Z) : RTL_BITMAP :=
  MkBitMap (SizeOfBitMap b)
    (imap (fun i x => if (Start <=? Z.of_nat i) && (Z.of_nat i <? Start + Count)
                      then false else x) (Bits b)).

(** Bit [i] of a bitmap ([false] outside the buffer). *)
Definition RtlTestBit (b : RTL_BITMAP) (i : Z) : bool :=
  if i <? 0 then false else default false (Bits b !! Z.to_nat i).

(** What [MiBuildPagedPool] leaves in the globals this model follows. *)
Record PAGED_POOL : Type := MkPagedPool {
  MmSizeOfPagedPoolInBytes : Z;
  MmSizeOfPagedPoolInPages : Z;
  MmPagedPoolEnd : Z;
  PagedPoolAllocationMap : RTL_BITMAP;
  EndOfPagedPoolBitmap : RTL_BITMAP;
  MiLowPagedPoolThreshold : Z;
  MiHighPagedPoolThreshold : Z
}.

(** A pool allocation of [Size] bytes used as a bitmap: [None] when the
    allocator returns [NULL], else the bits that follow the [RTL_BITMAP]
    header, with whatever values [Fresh] the memory holds. *)
Definition BitMapAllocation (Succeeds : bool) (Fresh : nat -> bool) (Size : Z)
    : option (list bool) :=
  if Succeeds then Some (map Fresh (seq 0 (Z.to_nat ((Size - 8) * 8))))
  else None.

(** The function from the sizing of the pool on.  The page directory
    double mapping, the zeroing of the PDEs, the first paged pool page
    table (a zeroed page whose PFN entry is initialized by the PFN code)
    and the calls to [InitializePool] and [MiInitializeSystemSpaceMap]
    act on page tables and on pool state that this record does not
    hold. *)
Definition MiBuildPagedPool (checked : bool)
    (MmMaximumNonPagedPoolInBytes MmNonPagedSystemStart MmPagedPoolStart : Z)
    (Alloc1 Alloc2 : bool) (Fresh1 Fresh2 : nat -> bool)
    : Outcome PAGED_POOL :=
  (* By default, it should be twice as big as nonpaged pool. *)
  let InBytes := ULONG (2 * MmMaximumNonPagedPoolInBytes) in
  let InBytes :=
    if InBytes >? ULONG (MmNonPagedSystemStart - MmPagedPoolStart)
    then ULONG (MmNonPagedSystemStart - MmPagedPoolStart) else InBytes in
  (* Get the size in pages and make sure paged pool is at least 32MB. *)
  let Size := InBytes in
  let Size := if Size <? MI_MIN_INIT_PAGED_POOLSIZE
              then MI_MIN_INIT_PAGED_POOLSIZE else Size in
  let Size := BYTES_TO_PAGES Size in
  (* Now check how many PTEs will be required for these many pages. *)
  let Size := ULONG (Size + (1024 - 1)) / 1024 in
  (* Recompute the page-aligned size of the paged pool, in bytes and pages. *)
  let InBytes := ULONG (Size * PAGE_SIZE * 1024) in
  let InPages := Z.shiftr InBytes PAGE_SHIFT in
  (* Let's be really sure this doesn't overflow into nonpaged system VA *)
  do _ <- ASSERT checked
            (ULONG (InBytes + MmPagedPoolStart) <=? MmNonPagedSystemStart);
  (* This is where paged pool ends *)
  let PoolEnd := ULONG (ULONG (MmPagedPoolStart + InBytes) - 1) in
  (* We keep track of each page via a bit *)
  let Size := ULONG (Size * 1024) in
  do _ <- ASSERT checked (Size =? InPages);
  let BitMapSize := Size in
  let Size := ULONG (8 + ULONG (ULONG (Size + 31) / 32 * 4)) in
  (* Allocate the allocation bitmap *)
  let Map1 := BitMapAllocation Alloc1 Fresh1 Size in
  do _ <- ASSERT checked (bool_decide (is_Some Map1));
  match Map1 with
  | None => AccessViolation
  | Some Buffer1 =>
      let AllocationMap := RtlInitializeBitMap Buffer1 BitMapSize in
      let AllocationMap := RtlSetAllBits AllocationMap in
      let AllocationMap := RtlClearBits AllocationMap 0 1024 in
      (* We have a second bitmap, which keeps track of where allocations end. *)
      let Map2 := BitMapAllocation Alloc2 Fresh2 Size in
      do _ <- ASSERT checked (bool_decide (is_Some Map2));
      match Map2 with
      | None => AccessViolation
      | Some Buffer2 =>
          let EndMap := RtlInitializeBitMap Buffer2 BitMapSize in
          (* Since no allocations have been made yet, there are no bits set as the end *)
          let EndMap := RtlClearAllBits EndMap in
          (* Default low threshold of 30MB or one fifth of paged pool *)
          let Low := Z.shiftr (30 * _1MB) PAGE_SHIFT in
          let Low := Z.min Low (Size / 5) in
          (* Default high threshold of 60MB or 25% *)
          let High := Z.shiftr (60 * _1MB) PAGE_SHIFT in
          let High := Z.min High (ULONG (Size * 2) / 5) in
          do _ <- ASSERT checked (Low <? High);
          Returns (MkPagedPool InBytes InPages PoolEnd AllocationMap EndMap
                               Low High)
      end
  end.

(** ** Page tables, PFN entries and color tables *)

(** Modelled from the spec: the page-table primitives ("translate virtual
    address to the virtual address of its mapping entry at each paging
    level", its inverse, "extract physical frame index") come from the
    machine-dependent header; they are given for the two-level layout with
    the page tables self-mapped at [PTE_BASE = 0xC0000000], the address the
    source names for [MiSessionImageEnd]. *)
Definition PTE_BASE : Z := 0xC0000000.
Definition PDE_BASE : Z := 0xC0300000.
Definition sizeof_MMPTE : Z := 4.
Definition PDE_PER_PAGE : nat := 1024.
Definition PTE_PER_PAGE : nat := 1024.

Definition MiAddressToPte (x : Z) : Z :=
  ULONG (Z.shiftl (Z.shiftr (ULONG x) 12) 2 + PTE_BASE).
Definition MiAddressToPde (x : Z) : Z :=
  ULONG (Z.shiftl (Z.shiftr (ULONG x) 22) 2 + PDE_BASE).
Definition MiPteToAddress (Pte : Z) : Z := ULONG (Z.shiftl Pte 10).
Definition MiPdeToAddress (Pde : Z) : Z := ULONG (Z.shiftl Pde 20).

(** Sizes of the two structures, from the same headers. *)
Definition sizeof_MMPFN : Z := 24.
Definition sizeof_MMCOLOR_TABLES : Z := 12.

Definition MiNonCached : Z := 0.

(** The fields of [MMPFN] that the file touches.  [u1_Flink] is the
    storage that [u1.Flink] and [u1.WsIndex] share. *)
Record MMPFN : Type := MkPfn {
  u1_Flink : Z;
  PteAddress : Z;
  ShareCount : Z;
  PageLocation : Z;
  CacheAttribute : Z;
  Rom : Z;
  PrototypePte : Z;
  ReferenceCount : Z;
  OriginalPte : Z;
  InPageError : Z;
  PteFrame : Z
}.

(** An entry of a page that has just been zeroed. *)
Definition ZeroPfn : MMPFN := MkPfn 0 0 0 0 0 0 0 0 0 0 0.

Definition set_u1_Flink (v : Z) (e : MMPFN) : MMPFN :=
  MkPfn v (PteAddress e) (ShareCount e) (PageLocation e) (CacheAttribute e)
    (Rom e) (PrototypePte e) (ReferenceCount e) (OriginalPte e)
    (InPageError e) (PteFrame e).
Definition set_PteAddress (v : Z) (e : MMPFN) : MMPFN :=
  MkPfn (u1_Flink e) v (ShareCount e) (PageLocation e) (CacheAttribute e)
    (Rom e) (PrototypePte e) (ReferenceCount e) (OriginalPte e)
    (InPageError e) (PteFrame e).
Definition set_ShareCount (v : Z) (e : MMPFN) : MMPFN :=
  MkPfn (u1_Flink e) (PteAddress e) v (PageLocation e) (CacheAttribute e)
    (Rom e) (PrototypePte e) (ReferenceCount e) (OriginalPte e)
    (InPageError e) (PteFrame e).
Definition set_PageLocation (v : Z) (e : MMPFN) : MMPFN :=
  MkPfn (u1_Flink e) (PteAddress e) (ShareCount e) v (CacheAttribute e)
    (Rom e) (PrototypePte e) (ReferenceCount e) (OriginalPte e)
    (InPageError e) (PteFrame e).
Definition set_CacheAttribute (v : Z) (e : MMPFN) : MMPFN :=
  MkPfn (u1_Flink e) (PteAddress e) (ShareCount e) (PageLocation e) v
    (Rom e) (PrototypePte e) (ReferenceCount e) (OriginalPte e)
    (InPageError e) (PteFrame e).
Definition set_Rom (v : Z) (e : MMPFN) : MMPFN :=
  MkPfn (u1_Flink e) (PteAddress e) (ShareCount e) (PageLocation e)
    (CacheAttribute e) v (PrototypePte e) (ReferenceCount e) (OriginalPte e)
    (InPageError e) (PteFrame e).
Definition set_PrototypePte (v : Z) (e : MMPFN) : MMPFN :=
  MkPfn (u1_Flink e) (PteAddress e) (ShareCount e) (PageLocation e)
    (CacheAttribute e) (Rom e) v (ReferenceCount e) (OriginalPte e)
    (InPageError e) (PteFrame e).
Definition set_ReferenceCount (v : Z) (e : MMPFN) : MMPFN :=
  MkPfn (u1_Flink e) (PteAddress e) (ShareCount e) (PageLocation e)
    (CacheAttribute e) (Rom e) (PrototypePte e) v (OriginalPte e)
    (InPageError e) (PteFrame e).
Definition set_OriginalPte (v : Z) (e : MMPFN) : MMPFN :=
  MkPfn (u1_Flink e) (PteAddress e) (ShareCount e) (PageLocation e)
    (CacheAttribute e) (Rom e) (PrototypePte e) (ReferenceCount e) v
    (InPageError e) (PteFrame e).
Definition set_InPageError (v : Z) (e : MMPFN) : MMPFN :=
  MkPfn (u1_Flink e) (PteAddress e) (ShareCount e) (PageLocation e)
    (CacheAttribute e) (Rom e) (PrototypePte e) (ReferenceCount e)
    (OriginalPte e) v (PteFrame e).
Definition set_PteFrame (v : Z) (e : MMPFN) : MMPFN :=
  MkPfn (u1_Flink e) (PteAddress e) (ShareCount e) (PageLocation e)
    (CacheAttribute e) (Rom e) (PrototypePte e) (ReferenceCount e)
    (OriginalPte e) (InPageError e) v.

Record MMCOLOR_TABLES : Type := MkColorTable {
  Flink : Z;
  Blink : Z;
  Count : Z
}.

(** The "none" value of the list links. *)
Definition LIST_HEAD : Z := 0xFFFFFFFF.

(** The state the PFN database code works on.
    - [PageTables]: the valid page table entries, by the virtual address
      of the entry, with their [PageFrameNumber];
    - [PfnArray]: the entries of [MmPfnDatabase], by page frame index; an
      entry that was never written reads as [ZeroPfn], the content of the
      zeroed page that backs it;
    - [ColorTables]: the elements of [MmFreePagesByColor], by list and
      color. *)
Record MM_PFN_STATE : Type := MkPfnState {
  Globals : MM_GLOBALS;
  MmSecondaryColors : Z;
  MmSecondaryColorMask : Z;
  MmPfnDatabase : Z;
  PageTables : gmap Z Z;
  PfnArray : gmap Z MMPFN;
  ColorTables : gmap (Z * Z) MMCOLOR_TABLES
}.

Definition set_Globals (g : MM_GLOBALS) (st : MM_PFN_STATE) : MM_PFN_STATE :=
  MkPfnState g (MmSecondaryColors st) (MmSecondaryColorMask st)
    (MmPfnDatabase st) (PageTables st) (PfnArray st) (ColorTables st).
Definition set_PageTables (t : gmap Z Z) (st : MM_PFN_STATE) : MM_PFN_STATE :=
  MkPfnState (Globals st) (MmSecondaryColors st) (MmSecondaryColorMask st)
    (MmPfnDatabase st) t (PfnArray st) (ColorTables st).
Definition set_PfnArray (a : gmap Z MMPFN) (st : MM_PFN_STATE) : MM_PFN_STATE :=
  MkPfnState (Globals st) (MmSecondaryColors st) (MmSecondaryColorMask st)
    (MmPfnDatabase st) (PageTables st) a (ColorTables st).
Definition set_ColorTables (c : gmap (Z * Z) MMCOLOR_TABLES)
    (st : MM_PFN_STATE) : MM_PFN_STATE :=
  MkPfnState (Globals st) (MmSecondaryColors st) (MmSecondaryColorMask st)
    (MmPfnDatabase st) (PageTables st) (PfnArray st) c.

(** [PointerPte->u.Hard.Valid] and [PFN_FROM_PTE(PointerPte)]. *)
Definition PteValid (st : MM_PFN_STATE) (PointerPte : Z) : bool :=
  bool_decide (is_Some (PageTables st !! PointerPte)).
Definition PFN_FROM_PTE (st : MM_PFN_STATE) (PointerPte : Z) : Z :=
  default 0 (PageTables st !! PointerPte).

(** [MmIsAddressValid]: the page directory entry and the page table entry
    of the address are valid. *)
Definition MmIsAddressValid (st : MM_PFN_STATE) (VirtualAddress : Z) : bool :=
  PteValid st (MiAddressToPde VirtualAddress)
  && PteValid st (MiAddressToPte VirtualAddress).

(** [&MmPfnDatabase[i]], and the entry itself.  A [PMMPFN] that points into
    the array is identified with the index of the entry. *)
Definition PfnAddress (st : MM_PFN_STATE) (i : Z) : Z :=
  ULONG (MmPfnDatabase st + i * sizeof_MMPFN).
Definition PfnEntry (st : MM_PFN_STATE) (i : Z) : MMPFN :=
  default ZeroPfn (PfnArray st !! i).
Definition PfnUpdate (i : Z) (f : MMPFN -> MMPFN) (st : MM_PFN_STATE)
    : MM_PFN_STATE :=
  set_PfnArray (<[i := f (PfnEntry st i)]> (PfnArray st)) st.

Definition ColorHead (st : MM_PFN_STATE) (List Color : Z) : MMCOLOR_TABLES :=
  default (MkColorTable 0 0 0) (ColorTables st !! (List, Color)).

(** Modelled from the spec: [MiInsertPageInFreeList] belongs to the PFN
    list code, which is not in this file.  Per the spec the frame goes
    "onto the per-color free list" by "LIFO insertion": the color is the
    frame index under the color mask, the frame becomes the head of the
    list of its color and links to the former head, and "a frame on a
    free/zero list has [page_location] in {Free, Zeroed}". *)
Definition MiInsertPageInFreeList (PageFrameIndex : Z) (st : MM_PFN_STATE)
    : MM_PFN_STATE :=
  let Color := Z.land PageFrameIndex (MmSecondaryColorMask st) in
  let Head := ColorHead st FreePageList Color in
  let st := PfnUpdate PageFrameIndex
              (fun e => set_PageLocation FreePageList
                          (set_u1_Flink (Flink Head) e)) st in
  set_ColorTables
    (<[(FreePageList, Color) :=
         MkColorTable PageFrameIndex
           (if Flink Head =? LIST_HEAD then PageFrameIndex else Blink Head)
           (ULONG (Count Head + 1))]> (ColorTables st)) st.

(** The pages of a per-color list, from the head along the forward links,
    for the [Count] elements that the head announces. *)
Fixpoint FreeListWalk (n : nat) (pfns : gmap Z MMPFN) (p : Z) : list Z :=
  match n with
  | O => []
  | S n' =>
      if p =? LIST_HEAD then []
      else p :: FreeListWalk n' pfns (u1_Flink (default ZeroPfn (pfns !! p)))
  end.

Definition PagesByColor (st : MM_PFN_STATE) (List Color : Z) : list Z :=
  FreeListWalk (Z.to_nat (Count (ColorHead st List Color))) (PfnArray st)
               (Flink (ColorHead st List Color)).

(** ** MiMapPfnDatabase *)

(** Number of iterations of [while (PointerPte <= LastPte) ... PointerPte++]. *)
Definition PteSpan (PointerPte LastPte : Z) : nat :=
  if PointerPte <=? LastPte
  then Z.to_nat ((LastPte - PointerPte) / sizeof_MMPTE + 1)
  else O.

(** The loop that backs a range of PTEs with pages of the early allocator
    (the same loop maps the PFN database and the color tables). *)
Fixpoint MiMapPteRange (LoaderBlock : LOADER_PARAMETER_BLOCK) (n : nat)
    (PointerPte : Z) (st : MM_PFN_STATE) : Outcome MM_PFN_STATE :=
  match n with
  | O => Returns st
  | S n' =>
      do st <-
        (* We'll only touch PTEs that aren't already valid *)
        (if negb (PteValid st PointerPte) then
           (* Use the next free page *)
           do r <- MiEarlyAllocPages LoaderBlock 1 (Globals st);
           (* Write out this PTE; zero this page *)
           Returns (set_PageTables (<[PointerPte := fst r]> (PageTables st))
                      (set_Globals (snd r) st))
         else Returns st);
      MiMapPteRange LoaderBlock n' (PointerPte + sizeof_MMPTE) st
  end.

(** [while (PageCount--)] over a free range, from its last page down. *)
Fixpoint MiInsertFreeRange (n : nat) (PageFrameIndex : Z) (st : MM_PFN_STATE)
    : MM_PFN_STATE :=
  match n with
  | O => st
  | S n' =>
      (* Add it to the free list *)
      let st := PfnUpdate PageFrameIndex (set_CacheAttribute MiNonCached) st in
      let st := MiInsertPageInFreeList PageFrameIndex st in
      (* Go to the next page *)
      MiInsertFreeRange n' (ULONG (PageFrameIndex - 1)) st
  end.

(** [while (PageCount--)] over a ROM range, from its first page up. *)
Fixpoint MiMarkRomRange (n : nat) (Pfn1 : Z) (st : MM_PFN_STATE)
    : MM_PFN_STATE :=
  match n with
  | O => st
  | S n' =>
      (* Make it a pseudo-I/O ROM mapping *)
      let st := PfnUpdate Pfn1
        (fun e => set_PteFrame 0 (set_InPageError 0 (set_ReferenceCount 0
                  (set_PrototypePte 1 (set_Rom 1 (set_CacheAttribute MiNonCached
                  (set_PageLocation 0 (set_ShareCount 0 (set_u1_Flink 0
                  (set_PteAddress 0 e)))))))))) st in
      MiMarkRomRange n' (Pfn1 + 1) st
  end.

(** [while (PageCount--)] over a range in use, from its first page up. *)
Fixpoint MiMarkActiveRange (n : nat) (Pfn1 : Z) (st : MM_PFN_STATE)
    : MM_PFN_STATE :=
  match n with
  | O => st
  | S n' =>
      (* Mark it as being in-use *)
      let st := PfnUpdate Pfn1
        (fun e => set_CacheAttribute MiNonCached
                  (set_PageLocation ActiveAndValid (set_ReferenceCount 1
                  (set_ShareCount (ULONG (ShareCount e + 1))
                  (set_PteAddress 0 (set_PteFrame 0 e)))))) st in
      MiMarkActiveRange n' (Pfn1 + 1) st
  end.

(** The body of the descriptor loop, for the descriptor at position [p]. *)
Definition MiMapDescriptor (checked : bool)
    (LoaderBlock : LOADER_PARAMETER_BLOCK) (p : nat)
    (MdBlock : MEMORY_ALLOCATION_DESCRIPTOR) (st : MM_PFN_STATE)
    : Outcome MM_PFN_STATE :=
  (* Skip descriptors that are not part of the database *)
  if negb (MiIsMemoryTypeInDatabase (MemoryType MdBlock)) then Returns st else
  (* Use the descriptor's numbers *)
  let Base := BasePage MdBlock in
  let Pages := PageCount MdBlock in
  (* Get the PTEs for this range *)
  let PointerPte := MiAddressToPte (PfnAddress st Base) in
  let LastPte := MiAddressToPte (ULONG (PfnAddress st (ULONG (Base + Pages)) - 1)) in
  (* Loop them *)
  do st <- MiMapPteRange LoaderBlock (PteSpan PointerPte LastPte) PointerPte st;
  (* Skip the free descriptor, we'll handle it later *)
  if bool_decide (Some p = MxFreeDescriptor (Globals st)) then Returns st else
  do _ <- (if TYPE_OF_MEMORY_eqb (MemoryType MdBlock) LoaderBad
           then ASSERT checked false else Returns tt);
  (* Now check the descriptor type *)
  if MiIsMemoryTypeFree (MemoryType MdBlock) then
    (* Get the last page of this descriptor. Note we loop backwards *)
    let PageFrameIndex := ULONG (BasePage MdBlock + Pages - 1) in
    Returns (MiInsertFreeRange (Z.to_nat Pages) PageFrameIndex st)
  else if TYPE_OF_MEMORY_eqb (MemoryType MdBlock) LoaderXIPRom then
    Returns (MiMarkRomRange (Z.to_nat Pages) (BasePage MdBlock) st)
  else
    Returns (MiMarkActiveRange (Z.to_nat Pages) (BasePage MdBlock) st).

Fixpoint MiMapDescriptors (checked : bool)
    (LoaderBlock : LOADER_PARAMETER_BLOCK) (p : nat)
    (l : list MEMORY_ALLOCATION_DESCRIPTOR) (st : MM_PFN_STATE)
    : Outcome MM_PFN_STATE :=
  match l with
  | [] => Returns st
  | MdBlock :: l' =>
      do st <- MiMapDescriptor checked LoaderBlock p MdBlock st;
      MiMapDescriptors checked LoaderBlock (S p) l' st
  end.

Definition MiMapPfnDatabase (checked : bool)
    (LoaderBlock : LOADER_PARAMETER_BLOCK) (st : MM_PFN_STATE)
    : Outcome MM_PFN_STATE :=
  (* Loop the memory descriptors *)
  do st <- MiMapDescriptors checked LoaderBlock 0 LoaderBlock st;
  (* Now handle the remaininng pages from the free descriptor *)
  let PageFrameIndex :=
    ULONG (MiEarlyAllocBase (Globals st) + MiEarlyAllocCount (Globals st) - 1) in
  let Pages := MiEarlyAllocCount (Globals st) in
  Returns (MiInsertFreeRange (Z.to_nat Pages) PageFrameIndex st).

(** ** MiInitializeColorTables *)

Definition EmptyColorTable : MMCOLOR_TABLES :=
  MkColorTable 0xFFFFFFFF 0xFFFFFFFF 0.

(** [for (i = 0; i < MmSecondaryColors; i++)]: set both free and zero
    lists for each color. *)
Fixpoint MiResetColorTables (n : nat) (i : Z)
    (t : gmap (Z * Z) MMCOLOR_TABLES) : gmap (Z * Z) MMCOLOR_TABLES :=
  match n with
  | O => t
  | S n' =>
      MiResetColorTables n' (i + 1)
        (<[(FreePageList, i) := EmptyColorTable]>
           (<[(ZeroedPageList, i) := EmptyColorTable]> t))
  end.

Definition MiInitializeColorTables (LoaderBlock : LOADER_PARAMETER_BLOCK)
    (st : MM_PFN_STATE) : Outcome MM_PFN_STATE :=
  (* The color table starts after the ARM3 PFN database *)
  let Table :=
    PfnAddress st (ULONG (MmHighestPhysicalPage (Globals st) + 1)) in
  (* Loop the PTEs. We have two color tables for each secondary color *)
  let PointerPte := MiAddressToPte Table in
  let LastPte :=
    MiAddressToPte
      (ULONG (Table
              + ULONG (2 * MmSecondaryColors st * sizeof_MMCOLOR_TABLES) - 1)) in
  do st <- MiMapPteRange LoaderBlock (PteSpan PointerPte LastPte) PointerPte st;
  (* Now loop the lists to set them up *)
  Returns (set_ColorTables
             (MiResetColorTables (Z.to_nat (MmSecondaryColors st)) 0
                                 (ColorTables st)) st).

(** ** MiBuildPfnDatabaseFromPages, for two paging levels *)

Definition MiSetupPfnForPageTable (checked : bool) (PageFrameIndex : Z)
    (PointerPte : Z) (st : MM_PFN_STATE) : Outcome MM_PFN_STATE :=
  (* Check if it's valid memory *)
  let st :=
    if (PageFrameIndex <=? MmHighestPhysicalPage (Globals st))
       && MmIsAddressValid st (PfnAddress st PageFrameIndex)
       && MmIsAddressValid st (PfnAddress st (PageFrameIndex + 1))
    then
      (* Setup the PFN entry *)
      PfnUpdate PageFrameIndex
        (fun e => set_PteFrame (PFN_FROM_PTE st (MiAddressToPte PointerPte))
                  (set_ReferenceCount 1 (set_CacheAttribute MiNonCached
                  (set_PageLocation ActiveAndValid
                  (set_OriginalPte (PFN_FROM_PTE st PointerPte)
                  (set_PteAddress PointerPte
                  (set_ShareCount (ULONG (ShareCount e + 1))
                  (set_u1_Flink 0 e)))))))) st
    else st in
  (* Increase the shared count of the PFN entry for the PDE *)
  let PointerPde := MiAddressToPde (MiPteToAddress PointerPte) in
  let Pfn := PFN_FROM_PTE st PointerPde in
  let IsNull := Pfn >? MmHighestPhysicalPage (Globals st) in
  do _ <- ASSERT checked (negb IsNull);
  if IsNull then AccessViolation
  else Returns (PfnUpdate Pfn
                  (fun e => set_ShareCount (ULONG (ShareCount e + 1)) e) st).

(** Loop all PTEs in this PT. *)
Fixpoint MiWalkPageTable (checked : bool) (n : nat) (PointerPte : Z)
    (st : MM_PFN_STATE) : Outcome MM_PFN_STATE :=
  match n with
  | O => Returns st
  | S n' =>
      do st <-
        (* Skip invalid PTEs *)
        (if negb (PteValid st PointerPte) then Returns st
         else MiSetupPfnForPageTable checked (PFN_FROM_PTE st PointerPte)
                                     PointerPte st);
      MiWalkPageTable checked n' (PointerPte + sizeof_MMPTE) st
  end.

(** Loop all PDEs in this PD. *)
Fixpoint MiWalkPageDirectory (checked : bool) (n : nat) (PointerPde : Z)
    (st : MM_PFN_STATE) : Outcome MM_PFN_STATE :=
  match n with
  | O => Returns st
  | S n' =>
      do st <-
        (* Skip invalid PDEs *)
        (if negb (PteValid st PointerPde) then Returns st
         else
           (* Handle the PFN *)
           do st <- MiSetupPfnForPageTable checked
                      (PFN_FROM_PTE st PointerPde) PointerPde st;
           (* Get starting VA for this PDE *)
           let Address := MiPdeToAddress PointerPde in
           MiWalkPageTable checked PTE_PER_PAGE (MiAddressToPte Address) st);
      MiWalkPageDirectory checked n' (PointerPde + sizeof_MMPTE) st
  end.

Definition MiBuildPfnDatabaseFromPages (checked : bool) (st : MM_PFN_STATE)
    : Outcome MM_PFN_STATE :=
  MiWalkPageDirectory checked PDE_PER_PAGE (MiAddressToPde 0) st.

(** ** MiBuildPfnDatabaseZeroPage *)

Definition MiBuildPfnDatabaseZeroPage (st : MM_PFN_STATE) : MM_PFN_STATE :=
  (* Grab the lowest page and check if it has no real references *)
  let Lowest := MmLowestPhysicalPage (Globals st) in
  if (Lowest =? 0) && (ReferenceCount (PfnEntry st Lowest) =? 0) then
    (* Make it a bogus page to catch errors *)
    let PointerPde := MiAddressToPde 0xFFFFFFFF in
    PfnUpdate Lowest
      (fun e => set_CacheAttribute MiNonCached
                (set_PageLocation ActiveAndValid (set_ReferenceCount 0xFFF0
                (set_ShareCount (ULONG (ShareCount e + 1))
                (set_PteAddress PointerPde
                (set_PteFrame (PFN_FROM_PTE st PointerPde) e)))))) st
  else st.

(** ** MiBuildPfnDatabaseSelf *)

Fixpoint MiMarkPfnDatabasePages (n : nat) (PointerPte : Z) (st : MM_PFN_STATE)
    : MM_PFN_STATE :=
  match n with
  | O => st
  | S n' =>
      let st :=
        (* Make sure the page is valid *)
        if PteValid st PointerPte then
          (* Get the PFN entry and just mark it referenced *)
          PfnUpdate (PFN_FROM_PTE st PointerPte)
            (fun e => set_ReferenceCount 1 (set_ShareCount 1 e)) st
        else st in
      MiMarkPfnDatabasePages n' (PointerPte + sizeof_MMPTE) st
  end.

Definition MiBuildPfnDatabaseSelf (st : MM_PFN_STATE) : MM_PFN_STATE :=
  (* Loop the PFN database page *)
  let PointerPte :=
    MiAddressToPte (PfnAddress st (MmLowestPhysicalPage (Globals st))) in
  let LastPte :=
    MiAddressToPte (PfnAddress st (MmHighestPhysicalPage (Globals st))) in
  MiMarkPfnDatabasePages (PteSpan PointerPte LastPte) PointerPte st.

(** ** MiInitializePfnDatabase *)

Definition MiInitializePfnDatabase (checked : bool)
    (LoaderBlock : LOADER_PARAMETER_BLOCK) (st : MM_PFN_STATE)
    : Outcome MM_PFN_STATE :=
  (* Map the PFN database pages *)
  do st <- MiMapPfnDatabase checked LoaderBlock st;
  (* Initialize the color tables *)
  do st <- MiInitializeColorTables LoaderBlock st;
  (* Scan memory and start setting up PFN entries *)
  do st <- MiBuildPfnDatabaseFromPages checked st;
  (* Add the zero page *)
  let st := MiBuildPfnDatabaseZeroPage st in
  (* Finally add the pages for the PFN database itself *)
  Returns (MiBuildPfnDatabaseSelf st).


(** ** MiAdjustWorkingSetManagerParameters *)

(** [Client] is not read.  The result is the new value of
    [MmPlentyFreePages]. *)
Definition MiAdjustWorkingSetManagerParameters (Client : bool)
    (MmNumberOfPhysicalPages MmPlentyFreePages : Z) : Z :=
  (* Check for a system with around 64MB RAM or more *)
  if MmNumberOfPhysicalPages >=? (63 * _1MB) / PAGE_SIZE then
    (* Double the minimum amount of pages we consider for a "plenty free" scenario *)
    ULONG (MmPlentyFreePages * 2)
  else MmPlentyFreePages.

(** ** MiNotifyMemoryEvents *)

(** Modelled from the spec: the kernel's event routines are not in this
    file.  An event is signaled or not; "set/clear are no-ops if already in
    that state".  A [PKEVENT] is the address of the event, and the state of
    the events is kept by address, so that two pointers to one event share
    its state. *)
Definition KeReadStateEvent (Events : gmap Z bool) (Event : Z) : bool :=
  default false (Events !! Event).

(** Modelled from the spec: signals the event. *)
Definition KeSetEvent (Event : Z) (Events : gmap Z bool) : gmap Z bool :=
  <[Event := true]> Events.

(** Modelled from the spec: resets the event. *)
Definition KeClearEvent (Event : Z) (Events : gmap Z bool) : gmap Z bool :=
  <[Event := false]> Events.

(** [MmAvailablePages] and the two thresholds are globals that the
    function reads; [MiLowMemoryEvent] and [MiHighMemoryEvent] are the
    pointers to the two events.  The result is the state of the events
    after the call. *)
Definition MiNotifyMemoryEvents
    (MmAvailablePages MmLowMemoryThreshold MmHighMemoryThreshold : Z)
    (MiLowMemoryEvent MiHighMemoryEvent : Z) (Events : gmap Z bool)
    : gmap Z bool :=
  (* Are we in a low-memory situation? *)
  if MmAvailablePages <? MmLowMemoryThreshold then
    (* Clear high, set low *)
    let Events := if KeReadStateEvent Events MiHighMemoryEvent
                  then KeClearEvent MiHighMemoryEvent Events else Events in
    if negb (KeReadStateEvent Events MiLowMemoryEvent)
    then KeSetEvent MiLowMemoryEvent Events else Events
  else if MmAvailablePages <? MmHighMemoryThreshold then
    (* We are in between, clear both *)
    let Events := if KeReadStateEvent Events MiHighMemoryEvent
                  then KeClearEvent MiHighMemoryEvent Events else Events in
    if KeReadStateEvent Events MiLowMemoryEvent
    then KeClearEvent MiLowMemoryEvent Events else Events
  else
    (* Clear low, set high *)
    let Events := if KeReadStateEvent Events MiLowMemoryEvent
                  then KeClearEvent MiLowMemoryEvent Events else Events in
    if negb (KeReadStateEvent Events MiHighMemoryEvent)
    then KeSetEvent MiHighMemoryEvent Events else Events.

(** ** MiCreateMemoryEvent *)

(** [NTSTATUS] is a signed 32-bit value; [NT_SUCCESS] and the status code
    are from headers. *)
Definition NT_SUCCESS (Status : Z) : bool := 0 <=? Status.

Definition STATUS_INSUFFICIENT_RESOURCES : Z := 0xC000009A - 2 ^ 32.

(** What the routines that the function calls return: the status of each
    call in the order of the calls, and whether the pool allocation of the
    DACL succeeds. *)
Record CREATE_EVENT_RESULTS : Type := MkCreateEventResults {
  RtlCreateSecurityDescriptor_Status : Z;
  ExAllocatePoolWithTag_Succeeds : bool;
  RtlCreateAcl_Status : Z;
  RtlAddAccessAllowedAce_World_Status : Z;
  RtlAddAccessAllowedAce_Admins_Status : Z;
  RtlAddAccessAllowedAce_System_Status : Z;
  RtlSetDaclSecurityDescriptor_Status : Z;
  ZwCreateEvent_Status : Z;
  ObReferenceObjectByHandle_Status : Z
}.

(** The calls that acquire or release something, as the function makes
    them: the DACL buffer, the handle of the new event, the reference that
    is stored through [Event]. *)
Inductive RESOURCE_CALL : Type :=
| AllocateDacl
| FreeDacl
| OpenEventHandle
| ReferenceEvent
| CloseEventHandle.

(** The result is the returned status and the resource calls made, in
    order. *)
Definition MiCreateMemoryEvent (R : CREATE_EVENT_RESULTS)
    : Z * list RESOURCE_CALL :=
  (* Create the SD *)
  let Status := RtlCreateSecurityDescriptor_Status R in
  if negb (NT_SUCCESS Status) then (Status, []) else
  (* Allocate space for the DACL *)
  if negb (ExAllocatePoolWithTag_Succeeds R)
  then (STATUS_INSUFFICIENT_RESOURCES, []) else
  let Status_Calls :=
    (* Setup the ACL inside it *)
    let Status := RtlCreateAcl_Status R in
    if negb (NT_SUCCESS Status) then (Status, []) else
    (* Add query rights for everyone *)
    let Status := RtlAddAccessAllowedAce_World_Status R in
    if negb (NT_SUCCESS Status) then (Status, []) else
    (* Full rights for the admin *)
    let Status := RtlAddAccessAllowedAce_Admins_Status R in
    if negb (NT_SUCCESS Status) then (Status, []) else
    (* As well as full rights for the system *)
    let Status := RtlAddAccessAllowedAce_System_Status R in
    if negb (NT_SUCCESS Status) then (Status, []) else
    (* Set this DACL inside the SD *)
    let Status := RtlSetDaclSecurityDescriptor_Status R in
    if negb (NT_SUCCESS Status) then (Status, []) else
    (* Create the event *)
    let Status := ZwCreateEvent_Status R in
    (Status, if NT_SUCCESS Status then [OpenEventHandle] else []) in
  (* CleanUp: free the DACL *)
  let Status := fst Status_Calls in
  let Calls := AllocateDacl :: snd Status_Calls ++ [FreeDacl] in
  (* Check if this is the success path *)
  if NT_SUCCESS Status then
    (* Add a reference to the object, then close the handle we had *)
    let Status := ObReferenceObjectByHandle_Status R in
    (Status,
     Calls ++ (if NT_SUCCESS Status then [ReferenceEvent] else [])
           ++ [CloseEventHandle])
  else
    (* Return status *)
    (Status, Calls).

(** ** MiDbgDumpMemoryDescriptors *)

(** The [MemType] table of the function: 26 names. *)
Definition MemType : list String.string :=
  [ "ExceptionBlock    "; "SystemBlock       "; "Free              ";
    "Bad               "; "LoadedProgram     "; "FirmwareTemporary ";
    "FirmwarePermanent "; "OsloaderHeap      "; "OsloaderStack     ";
    "SystemCode        "; "HalCode           "; "BootDriver        ";
    "ConsoleInDriver   "; "ConsoleOutDriver  "; "StartupDpcStack   ";
    "StartupKernelStack"; "StartupPanicStack "; "StartupPcrPage    ";
    "StartupPdrPage    "; "RegistryData      "; "MemoryData        ";
    "NlsData           "; "SpecialMemory     "; "BBTMemory         ";
    "LoaderReserve     "; "LoaderXIPRom      " ]%string.

(** The value of a [TYPE_OF_MEMORY] enumerator: the table gives the first
    26 their positions, and the three types that the file names besides
    are the ones that follow. *)
Definition MemoryTypeIndex (t : TYPE_OF_MEMORY) : nat :=
  match t with
  | LoaderExceptionBlock => 0 | LoaderSystemBlock => 1 | LoaderFree => 2
  | LoaderBad => 3 | LoaderLoadedProgram => 4 | LoaderFirmwareTemporary => 5
  | LoaderFirmwarePermanent => 6 | LoaderOsloaderHeap => 7
  | LoaderOsloaderStack => 8 | LoaderSystemCode => 9 | LoaderHalCode => 10
  | LoaderBootDriver => 11 | LoaderConsoleInDriver => 12
  | LoaderConsoleOutDriver => 13 | LoaderStartupDpcStack => 14
  | LoaderStartupKernelStack => 15 | LoaderStartupPanicStack => 16
  | LoaderStartupPcrPage => 17 | LoaderStartupPdrPage => 18
  | LoaderRegistryData => 19 | LoaderMemoryData => 20 | LoaderNlsData => 21
  | LoaderSpecialMemory => 22 | LoaderBBTMemory => 23 | LoaderReserve => 24
  | LoaderXIPRom => 25 | LoaderHALCachedMemory => 26
  | LoaderLargePageFiller => 27 | LoaderErrorLogMemory => 28
  end%nat.

(** The loop over the descriptors: the lines printed so far (base, length
    and name) and the running total.  [MemType[Md->MemoryType]] past the
    end of the table is a read outside the array. *)
Fixpoint MiDbgDumpLoop (l : list MEMORY_ALLOCATION_DESCRIPTOR)
    (Lines : list (Z * Z * String.string)) (TotalPages : Z)
    : Outcome (list (Z * Z * String.string) * Z) :=
  match l with
  | [] => Returns (Lines, TotalPages)
  | Md :: l' =>
      match nth_error MemType (MemoryTypeIndex (MemoryType Md)) with
      | None => AccessViolation
      | Some Name =>
          MiDbgDumpLoop l' (Lines ++ [(BasePage Md, PageCount Md, Name)])
                        (ULONG (TotalPages + PageCount Md))
      end
  end.

(** The result is what the function prints: the lines of the descriptors,
    the total number of pages and the figure in megabytes. *)
Definition MiDbgDumpMemoryDescriptors (LoaderBlock : LOADER_PARAMETER_BLOCK)
    : Outcome (list (Z * Z * String.string) * Z * Z) :=
  do r <- MiDbgDumpLoop LoaderBlock [] 0;
  let TotalPages := snd r in
  Returns (fst r, TotalPages, ULONG (TotalPages * PAGE_SIZE) / 1024 / 1024).

(** ** MmArmInitSystem: tuning of the Phase 0 parameters *)

Definition _1GB : Z := 1024 * _1MB.

(** [ROUND_TO_PAGES] and [PAGE_ROUND_UP] come from headers: both add
    [PAGE_SIZE - 1] and clear the low bits, in 32-bit arithmetic. *)
Definition ROUND_TO_PAGES (Size : Z) : Z :=
  Z.land (ULONG (Size + (PAGE_SIZE - 1))) (ULONG (Z.lnot (PAGE_SIZE - 1))).

Definition PAGE_ROUND_UP (x : Z) : Z :=
  Z.land (ULONG (x + (PAGE_SIZE - 1))) (ULONG (Z.lnot (PAGE_SIZE - 1))).

(** [MI_ALLOCATION_FRAGMENT], [MI_MIN_ALLOCATION_FRAGMENT] and
    [MI_MAX_ALLOCATION_FRAGMENT] are defined in a header; the file documents
    64KB, 4KB and 2MB. *)
Record FRAGMENT_LIMITS : Type := MkFragmentLimits {
  MI_ALLOCATION_FRAGMENT : Z;
  MI_MIN_ALLOCATION_FRAGMENT : Z;
  MI_MAX_ALLOCATION_FRAGMENT : Z
}.

(** The allocation fragment: [Fragment] is the value of
    [MmAllocationFragment] on entry (the registry setting, in KB, zero when
    there is none), the result its final value. *)
Definition MmArmInitSystem_AllocationFragment (K : FRAGMENT_LIMITS)
    (MmNumberOfPhysicalPages Fragment : Z) : Z :=
  (* Has the allocation fragment been setup? *)
  if Fragment =? 0 then
    (* Use the default value *)
    if MmNumberOfPhysicalPages <? (256 * _1MB) / PAGE_SIZE then
      (* On memory systems with less than 256MB, divide by 4 *)
      MI_ALLOCATION_FRAGMENT K / 4
    else if MmNumberOfPhysicalPages <? _1GB / PAGE_SIZE then
      (* On systems with less than 1GB, divide by 2 *)
      MI_ALLOCATION_FRAGMENT K / 2
    else MI_ALLOCATION_FRAGMENT K
  else
    (* Convert from 1KB fragments to pages *)
    let f := ULONG (Fragment * _1KB) in
    let f := ROUND_TO_PAGES f in
    (* Don't let it past the maximum *)
    let f := Z.min f (MI_MAX_ALLOCATION_FRAGMENT K) in
    (* Don't let it too small either *)
    Z.max f (MI_MIN_ALLOCATION_FRAGMENT K).

(** The large kernel stack size: [Size] is the value of [MmLargeStackSize]
    on entry (the registry setting, in KB), the result its final value in
    bytes.  [KERNEL_STACK_SIZE] and [KERNEL_LARGE_STACK_SIZE] are defined in
    a header. *)
Definition MmArmInitSystem_LargeStackSize (checked : bool)
    (KERNEL_STACK_SIZE KERNEL_LARGE_STACK_SIZE : Z) (Size : Z) : Outcome Z :=
  (* Check for kernel stack size that's too big *)
  if Size >? KERNEL_LARGE_STACK_SIZE / _1KB then
    (* Sanitize to default value *)
    Returns KERNEL_LARGE_STACK_SIZE
  else
    (* Take the registry setting, and convert it into bytes *)
    let s := ULONG (Size * _1KB) in
    (* Now align it to a page boundary *)
    let s := PAGE_ROUND_UP s in
    (* Sanity checks *)
    do _ <- ASSERT checked (s <=? KERNEL_LARGE_STACK_SIZE);
    do _ <- ASSERT checked (Z.land s (PAGE_SIZE - 1) =? 0);
    (* Make sure it's not too low *)
    Returns (if s <? KERNEL_STACK_SIZE then KERNEL_STACK_SIZE else s).

Inductive MM_SYSTEMSIZE : Type :=
| MmSmallSystem
| MmMediumSystem
| MmLargeSystem.

(** The system size and the minimum of the system cache working set.
    [CacheWsMinimum] is the value of [MmSystemCacheWsMinimum] on entry,
    [IsWinNt] tells whether [MmProductType] is the workstation tag. *)
Definition MmArmInitSystem_SystemSize (MmNumberOfPhysicalPages : Z)
    (IsWinNt : bool) (CacheWsMinimum : Z) : MM_SYSTEMSIZE * Z :=
  (* Check how many pages the system has *)
  let '(size, ws) :=
    if MmNumberOfPhysicalPages <=? (13 * _1MB) / PAGE_SIZE then
      (* Set small system *)
      (MmSmallSystem, CacheWsMinimum)
    else if MmNumberOfPhysicalPages <=? (19 * _1MB) / PAGE_SIZE then
      (* Set small system and add 100 pages for the cache *)
      (MmSmallSystem, ULONG (CacheWsMinimum + 100))
    else
      (* Set medium system and add 400 pages for the cache *)
      (MmMediumSystem, ULONG (CacheWsMinimum + 400)) in
  (* Check for less than 24MB: no more than 32 pages *)
  let ws := if MmNumberOfPhysicalPages <? (24 * _1MB) / PAGE_SIZE
            then 32 else ws in
  (* Check for more than 32MB *)
  let size :=
    if MmNumberOfPhysicalPages >=? (32 * _1MB) / PAGE_SIZE then
      (* Check for product type being "Wi" for WinNT *)
      if IsWinNt then MmLargeSystem
      else
        (* For servers, we need 64MB to consider this as being large *)
        if MmNumberOfPhysicalPages >=? (64 * _1MB) / PAGE_SIZE
        then MmLargeSystem else size
    else size in
  (* Check for more than 33 MB: add another 500 pages to the cache *)
  let ws := if MmNumberOfPhysicalPages >? (33 * _1MB) / PAGE_SIZE
            then ULONG (ws + 500) else ws in
  (size, ws).

(** ** MmArmInitSystem: the PFN bitmap *)

(** The exclusions of [MmArmInitSystem]: memory that is not considered
    RAM. *)
Definition MmArmInitSystem_IncludeType (t : TYPE_OF_MEMORY) : bool :=
  match t with
  | LoaderBad | LoaderFirmwarePermanent | LoaderSpecialMemory
  | LoaderBBTMemory => false
  | _ => true
  end.

(** Modelled from the spec: [RtlSetBits] is the counterpart of
    [RtlClearBits] in the run-time library; it sets the [Count] bits that
    start at [Start] (the spec's "set of PPNs backed by real memory
    ([MiPfnBitMap])"). *)
Definition RtlSetBits (b : RTL_BITMAP) (Start Count : Z) : RTL_BITMAP :=
  MkBitMap (SizeOfBitMap b)
    (imap (fun i x => if (Start <=? Z.of_nat i) && (Z.of_nat i <? Start + Count)
                      then true else x) (Bits b)).

(** [for (i = 0; i < MmPhysicalMemoryBlock->NumberOfRuns; i++)]: loop
    physical memory runs. *)
Fixpoint MiSetPfnBits (n : nat) (i : Z) (Runs : list PHYSICAL_MEMORY_RUN)
    (b : RTL_BITMAP) : Outcome RTL_BITMAP :=
  match n with
  | O => Returns b
  | S n' =>
      (* Get the run *)
      match Runs !! Z.to_nat i with
      | None => AccessViolation
      | Some r =>
          let b :=
            (* Make sure it has pages inside it *)
            if negb (RunPageCount r =? 0) then
              (* Set the bits in the PFN bitmap *)
              RtlSetBits b (RunBasePage r) (RunPageCount r)
            else b in
          MiSetPfnBits n' (i + 1) Runs b
      end
  end.

(** The part of [MmArmInitSystem] that builds [MiPfnBitMap] from the
    physical memory block that [MmInitializeMemoryLimits] returned ([None]
    for [NULL]).  [Alloc] tells whether the pool allocation of the buffer
    succeeds, [Fresh] what the memory holds. *)
Definition MmArmInitSystem_PfnBitMap (Alloc : bool) (Fresh : nat -> bool)
    (g : MM_GLOBALS) (MmPhysicalMemoryBlock : option PHYSICAL_MEMORY_DESCRIPTOR)
    : Outcome RTL_BITMAP :=
  (* Allocate enough buffer for the PFN bitmap, aligned up to a 32-bit boundary *)
  let Size :=
    ULONG (ULONG (ULONG (MmHighestPhysicalPage g + 1) + 31) / 32 * 4) in
  if negb Alloc then
    (* This is critical *)
    BugCheck INSTALL_MORE_MEMORY (MmNumberOfPhysicalPages g)
             (MmLowestPhysicalPage g) (MmHighestPhysicalPage g) 0x101
  else
    let Bitmap := map Fresh (seq 0 (Z.to_nat (Size * 8))) in
    (* Initialize it and clear all the bits to begin with *)
    let b := RtlInitializeBitMap Bitmap (ULONG (MmHighestPhysicalPage g + 1)) in
    let b := RtlClearAllBits b in
    (* Loop physical memory runs *)
    match MmPhysicalMemoryBlock with
    | None => AccessViolation
    | Some Block =>
        MiSetPfnBits (Z.to_nat (NumberOfRuns Block)) 0 (Run Block) b
    end.

(** ** Vocabulary of the statements *)

(** The descriptors of a list that belong to the PFN database, the free
    ones among them, and the ones that are not bad memory. *)
Definition InDatabase (l : list MEMORY_ALLOCATION_DESCRIPTOR)
    : list MEMORY_ALLOCATION_DESCRIPTOR :=
  List.filter (fun d => MiIsMemoryTypeInDatabase (MemoryType d)) l.

Definition NotBad (d : MEMORY_ALLOCATION_DESCRIPTOR) : bool :=
  negb (TYPE_OF_MEMORY_eqb (MemoryType d) LoaderBad).

Definition SumPageCount (l : list MEMORY_ALLOCATION_DESCRIPTOR) : Z :=
  fold_right (fun d acc => PageCount d + acc) 0 l.

Definition LastPage (d : MEMORY_ALLOCATION_DESCRIPTOR) : Z :=
  BasePage d + PageCount d - 1.

(** A descriptor of a nonempty range of 32-bit page numbers. *)
Definition ValidDescriptor (d : MEMORY_ALLOCATION_DESCRIPTOR) : Prop :=
  0 <= BasePage d /\ 0 < PageCount d /\ BasePage d + PageCount d <= 2 ^ 32.

Definition IsMinimum (m : Z) (l : list Z) : Prop :=
  In m l /\ Forall (fun x => m <= x) l.

Definition IsMaximum (m : Z) (l : list Z) : Prop :=
  In m l /\ Forall (fun x => x <= m) l.

(** The first pages of consecutive ranges of sizes [ns] laid out from
    [base] on, each range starting where the previous one ends. *)
Fixpoint ConsecutiveBases (base : Z) (ns : list Z) : list Z :=
  match ns with
  | [] => []
  | n :: ns' => base :: ConsecutiveBases (base + n) ns'
  end.

Definition SumZ (ns : list Z) : Z := fold_right Z.add 0 ns.

Definition IsPowerOfTwo (x : Z) : Prop := exists k, 0 <= k /\ x = 2 ^ k.

(** The raw number of colors: the cache bytes per set/way (or the preset
    value), in pages. *)
Definition RawColors (SecondLevelCacheSize SecondLevelCacheAssociativity
                      Preset : Z) : Z :=
  if Preset =? 0 then
    if SecondLevelCacheAssociativity =? 0
    then SecondLevelCacheSize / PAGE_SIZE
    else SecondLevelCacheSize / SecondLevelCacheAssociativity / PAGE_SIZE
  else Preset / PAGE_SIZE.

(** The virtual address window of paged pool, from [MmPagedPoolStart] up
    to [MmNonPagedSystemStart]: a whole number of page tables (4 MiB
    each), at least the 32 MiB minimum. *)
Definition PagedPoolWindow (MmNonPagedSystemStart MmPagedPoolStart : Z) : Prop :=
  0 <= MmPagedPoolStart /\ MmNonPagedSystemStart < 2 ^ 32
  /\ exists k, 8 <= k <= 1023
               /\ MmNonPagedSystemStart - MmPagedPoolStart = k * 0x400000.

(** The descriptors that the caller's [IncludeType] array selects. *)
Definition Included (IncludeType : TYPE_OF_MEMORY -> bool)
    (l : list MEMORY_ALLOCATION_DESCRIPTOR)
    : list MEMORY_ALLOCATION_DESCRIPTOR :=
  List.filter (fun d => IncludeType (MemoryType d)) l.

(** A descriptor of a nonempty range that ends below the last 32-bit page
    number. *)
Definition ValidRange (d : MEMORY_ALLOCATION_DESCRIPTOR) : Prop :=
  0 < PageCount d /\ BasePage d + PageCount d < 2 ^ 32.

(** Descriptors in ascending order without overlap: each one starts at or
    after the end of the one before, the first at or after [e]. *)
Fixpoint AscendingFrom (e : Z) (l : list MEMORY_ALLOCATION_DESCRIPTOR)
    : Prop :=
  match l with
  | [] => True
  | d :: l' => e <= BasePage d /\ AscendingFrom (BasePage d + PageCount d) l'
  end.

Definition RunEnd (r : PHYSICAL_MEMORY_RUN) : Z :=
  RunBasePage r + RunPageCount r.

(** Runs sorted by base and maximal: every run is nonempty and ends
    strictly before the next one starts, so that no two runs touch or
    overlap.  The first run starts at or after [e]. *)
Fixpoint RunsSortedMaximalFrom (e : Z) (runs : list PHYSICAL_MEMORY_RUN)
    : Prop :=
  match runs with
  | [] => True
  | r :: runs' =>
      e <= RunBasePage r /\ 0 < RunPageCount r
      /\ RunsSortedMaximalFrom (RunEnd r + 1) runs'
  end.

Definition RunsSortedMaximal (runs : list PHYSICAL_MEMORY_RUN) : Prop :=
  RunsSortedMaximalFrom 0 runs.

Definition PageInRuns (x : Z) (runs : list PHYSICAL_MEMORY_RUN) : Prop :=
  exists r, In r runs /\ RunBasePage r <= x < RunEnd r.

Definition PageInDescriptors (x : Z) (l : list MEMORY_ALLOCATION_DESCRIPTOR)
    : Prop :=
  exists d, In d l /\ BasePage d <= x < BasePage d + PageCount d.

(** The runs that a left-to-right pass makes of a list of descriptors,
    [cur] being the run under construction: a descriptor that starts where
    [cur] ends extends it, any other descriptor closes it and opens a new
    run. *)
Fixpoint CoalesceFrom (cur : PHYSICAL_MEMORY_RUN)
    (l : list MEMORY_ALLOCATION_DESCRIPTOR) : list PHYSICAL_MEMORY_RUN :=
  match l with
  | [] => [cur]
  | d :: l' =>
      if BasePage d =? RunEnd cur
      then CoalesceFrom (MkRun (RunBasePage cur) (RunPageCount cur + PageCount d)) l'
      else cur :: CoalesceFrom (MkRun (BasePage d) (PageCount d)) l'
  end.

Definition Coalesce (l : list MEMORY_ALLOCATION_DESCRIPTOR)
    : list PHYSICAL_MEMORY_RUN :=
  match l with
  | [] => []
  | d :: l' => CoalesceFrom (MkRun (BasePage d) (PageCount d)) l'
  end.

(** The pages of a list that have color [c] under the color mask. *)
Definition ColorFilter (mask c : Z) (pages : list Z) : list Z :=
  List.filter (fun p => Z.land p mask =? c) pages.

(** The pages of a descriptor, in ascending order. *)
Definition PagesOf (d : MEMORY_ALLOCATION_DESCRIPTOR) : list Z :=
  seqZ (BasePage d) (PageCount d).

Definition PageOf (x : Z) (d : MEMORY_ALLOCATION_DESCRIPTOR) : Prop :=
  BasePage d <= x < BasePage d + PageCount d.

(** The descriptors of [l] (whose head is at position [p]) that
    [MiMapPfnDatabase] puts on the free lists: the free ones, the
    bootstrap descriptor [boot] excepted. *)
Fixpoint FreeBlocksFrom (p : nat) (boot : option nat)
    (l : list MEMORY_ALLOCATION_DESCRIPTOR)
    : list MEMORY_ALLOCATION_DESCRIPTOR :=
  match l with
  | [] => []
  | d :: l' =>
      if MiIsMemoryTypeFree (MemoryType d)
         && negb (bool_decide (Some p = boot))
      then d :: FreeBlocksFrom (S p) boot l'
      else FreeBlocksFrom (S p) boot l'
  end.

(** A list of pages holds blocks that went in one after the other, each
    block in ascending order, the last block first. *)
Definition StackOfBlocks (blocks : list (list Z)) : list Z :=
  concat (rev blocks).

(** Descriptors at different positions of the list share no page. *)
Definition DisjointDescriptors (l : list MEMORY_ALLOCATION_DESCRIPTOR)
    : Prop :=
  forall (i j : nat) di dj x,
    i <> j -> nth_error l i = Some di -> nth_error l j = Some dj ->
    PageOf x di -> PageOf x dj -> False.

(** The PTEs that back the PFN entries of a descriptor, as the mapping
    loop of [MiMapPfnDatabase] visits them, and their number over the
    descriptors that are in the database. *)
Definition DescriptorPteSpan (st : MM_PFN_STATE)
    (d : MEMORY_ALLOCATION_DESCRIPTOR) : nat :=
  PteSpan (MiAddressToPte (PfnAddress st (BasePage d)))
          (MiAddressToPte
             (ULONG (PfnAddress st (ULONG (BasePage d + PageCount d)) - 1))).

Definition TotalPteSpan (st : MM_PFN_STATE)
    (l : list MEMORY_ALLOCATION_DESCRIPTOR) : Z :=
  fold_right (fun d acc => Z.of_nat (DescriptorPteSpan st d) + acc) 0
             (InDatabase l).

(** The free list of a color is the chain [l] from the link [p] on. *)
Fixpoint Chain (pfns : gmap Z MMPFN) (p : Z) (l : list Z) : Prop :=
  match l with
  | [] => True
  | x :: l' =>
      p = x /\ x <> LIST_HEAD
      /\ Chain pfns (u1_Flink (default ZeroPfn (pfns !! x))) l'
  end.

(** The free lists of all colors hold the pages [pages]: the head of
    color [c] counts and chains the pages of [pages] that have color
    [c]. *)
Definition FreeListsHold (st : MM_PFN_STATE) (pages : list Z) : Prop :=
  forall c,
    Count (ColorHead st FreePageList c)
    = Z.of_nat (length (ColorFilter (MmSecondaryColorMask st) c pages))
    /\ Chain (PfnArray st) (Flink (ColorHead st FreePageList c))
             (ColorFilter (MmSecondaryColorMask st) c pages).

(** [st'] differs from [st] in the PFN array and the color tables
    only. *)
Definition SameMachine (st st' : MM_PFN_STATE) : Prop :=
  Globals st' = Globals st
  /\ MmSecondaryColors st' = MmSecondaryColors st
  /\ MmSecondaryColorMask st' = MmSecondaryColorMask st
  /\ MmPfnDatabase st' = MmPfnDatabase st
  /\ PageTables st' = PageTables st.

(** [st'] differs from [st] in the page tables and in the early
    allocator only, which has handed out pages from its base on. *)
Definition AllocatedFrom (st st' : MM_PFN_STATE) : Prop :=
  PfnArray st' = PfnArray st
  /\ ColorTables st' = ColorTables st
  /\ MmSecondaryColors st' = MmSecondaryColors st
  /\ MmSecondaryColorMask st' = MmSecondaryColorMask st
  /\ MmPfnDatabase st' = MmPfnDatabase st
  /\ MxFreeDescriptor (Globals st') = MxFreeDescriptor (Globals st)
  /\ MiEarlyAllocBase (Globals st') + MiEarlyAllocCount (Globals st')
     = MiEarlyAllocBase (Globals st) + MiEarlyAllocCount (Globals st)
  /\ 0 <= MiEarlyAllocCount (Globals st') <= MiEarlyAllocCount (Globals st).

(** A descriptor of a range of pages below the last 32-bit page
    number. *)
Definition ValidPages (d : MEMORY_ALLOCATION_DESCRIPTOR) : Prop :=
  0 <= BasePage d /\ 0 <= PageCount d /\ BasePage d + PageCount d < 2 ^ 32.

(** From [st] to [st'] the colors, the address of the PFN database and
    the bootstrap descriptor are the same, and the early allocator has
    moved its base up by what it has handed out. *)
Definition AllocatorAdvanced (st st' : MM_PFN_STATE) : Prop :=
  MmSecondaryColors st' = MmSecondaryColors st
  /\ MmSecondaryColorMask st' = MmSecondaryColorMask st
  /\ MmPfnDatabase st' = MmPfnDatabase st
  /\ MxFreeDescriptor (Globals st') = MxFreeDescriptor (Globals st)
  /\ MiEarlyAllocBase (Globals st') + MiEarlyAllocCount (Globals st')
     = MiEarlyAllocBase (Globals st) + MiEarlyAllocCount (Globals st)
  /\ 0 <= MiEarlyAllocCount (Globals st') <= MiEarlyAllocCount (Globals st).

(** The bootstrap descriptor: the selected position always names a
    descriptor of the list whose page count is [MiEarlyAllocCount]. *)
Definition BootstrapSelected (l : list MEMORY_ALLOCATION_DESCRIPTOR)
    (g : MM_GLOBALS) : Prop :=
  exists i d, MxFreeDescriptor g = Some i /\ nth_error l i = Some d
              /\ PageCount d = MiEarlyAllocCount g
              /\ MiIsMemoryTypeFree (MemoryType d) = true.

(** The descriptors of free kind. *)
Definition FreeDescriptors (l : list MEMORY_ALLOCATION_DESCRIPTOR)
    : list MEMORY_ALLOCATION_DESCRIPTOR :=
  List.filter (fun d => MiIsMemoryTypeFree (MemoryType d)) l.

(** The invariant of the scan's search for the bootstrap descriptor over
    the part [l] of the list it has visited: [MiEarlyAllocCount] bounds the
    page count of every free descriptor of [l], and a selected descriptor
    is a free one with that many pages, more than every free descriptor
    before it. *)
Definition LargestFreeSoFar (l : list MEMORY_ALLOCATION_DESCRIPTOR)
    (g : MM_GLOBALS) : Prop :=
  0 <= MiEarlyAllocCount g
  /\ (forall j dj, nth_error l j = Some dj ->
        MiIsMemoryTypeFree (MemoryType dj) = true ->
        PageCount dj <= MiEarlyAllocCount g)
  /\ (forall i, MxFreeDescriptor g = Some i ->
        exists d, nth_error l i = Some d
          /\ MiIsMemoryTypeFree (MemoryType d) = true
          /\ PageCount d = MiEarlyAllocCount g
          /\ 0 < PageCount d
          /\ forall j dj, (j < i)%nat -> nth_error l j = Some dj ->
               MiIsMemoryTypeFree (MemoryType dj) = true ->
               PageCount dj < PageCount d).

(** Some descriptor of free kind has at least one page. *)
Definition HasUsableFreeMemory (l : list MEMORY_ALLOCATION_DESCRIPTOR) : bool :=
  existsb (fun d => MiIsMemoryTypeFree (MemoryType d) && (0 <? PageCount d)) l.

(** The PTEs that are not valid among the [n] entries from [PointerPte]
    on. *)
Fixpoint InvalidPtes (t : gmap Z Z) (n : nat) (PointerPte : Z) : Z :=
  match n with
  | O => 0
  | S n' =>
      (if bool_decide (is_Some (t !! PointerPte)) then 0 else 1)
      + InvalidPtes t n' (PointerPte + sizeof_MMPTE)
  end.




(** The low memory threshold without registry settings, on a system whose
    [MmPlentyFreePages] is the initial 400 as
    [MiAdjustWorkingSetManagerParameters] leaves it. *)
Definition DefaultLowMemoryThreshold (Pages : Z) : Z :=
  Z.min (if Pages >? 0x40000 then 8192 + (Pages - 0x40000) / 128
         else if Pages >? 0x8000 then 800 + (Pages - 0x8000) / 32
         else if Pages >=? 16128 then 800 else 400)
        16384.

Definition RESOURCE_CALL_eqb (a b : RESOURCE_CALL) : bool :=
  match a, b with
  | AllocateDacl, AllocateDacl | FreeDacl, FreeDacl
  | OpenEventHandle, OpenEventHandle | ReferenceEvent, ReferenceEvent
  | CloseEventHandle, CloseEventHandle => true
  | _, _ => false
  end.

(** How often a call occurs in a sequence of calls. *)
Definition CountCalls (c : RESOURCE_CALL) (l : list RESOURCE_CALL) : nat :=
  length (List.filter (RESOURCE_CALL_eqb c) l).

(** Every call of the function succeeds. *)
Definition AllSucceed (R : CREATE_EVENT_RESULTS) : bool :=
  NT_SUCCESS (RtlCreateSecurityDescriptor_Status R)
  && ExAllocatePoolWithTag_Succeeds R
  && NT_SUCCESS (RtlCreateAcl_Status R)
  && NT_SUCCESS (RtlAddAccessAllowedAce_World_Status R)
  && NT_SUCCESS (RtlAddAccessAllowedAce_Admins_Status R)
  && NT_SUCCESS (RtlAddAccessAllowedAce_System_Status R)
  && NT_SUCCESS (RtlSetDaclSecurityDescriptor_Status R)
  && NT_SUCCESS (ZwCreateEvent_Status R)
  && NT_SUCCESS (ObReferenceObjectByHandle_Status R).

(** Page [p] lies in the run [r]. *)
Definition InRunB (p : Z) (r : PHYSICAL_MEMORY_RUN) : bool :=
  (RunBasePage r <=? p) && (p <? RunBasePage r + RunPageCount r).

(** No run starts where the run before it in the array ends. *)
Fixpoint NoAdjacentRuns (runs : list PHYSICAL_MEMORY_RUN) : Prop :=
  match runs with
  | [] => True
  | r :: runs' =>
      match runs' with
      | [] => True
      | r' :: _ => RunBasePage r' <> RunEnd r
      end /\ NoAdjacentRuns runs'
  end.

(** The types that have a name in the table. *)
Definition HasTypeName (t : TYPE_OF_MEMORY) : bool :=
  match t with
  | LoaderHALCachedMemory | LoaderLargePageFiller | LoaderErrorLogMemory =>
      false
  | _ => true
  end.

(** ** Sample inputs *)

(** A loader block with free, bad and boot driver memory and a firmware
    range that is not in the database. *)
Definition SampleLoaderBlock : LOADER_PARAMETER_BLOCK :=
  [ MkDescriptor LoaderFirmwarePermanent 0 1;
    MkDescriptor LoaderFree 1 0x9F;
    MkDescriptor LoaderBad 0xA0 0x10;
    MkDescriptor LoaderBootDriver 0x100 0x40;
    MkDescriptor LoaderFree 0x140 0x1000 ].

(** The "bad RAM" scenario: one bad page between two free ranges. *)
Definition BadRamLoaderBlock : LOADER_PARAMETER_BLOCK :=
  [ MkDescriptor LoaderFree 0 0x1000;
    MkDescriptor LoaderBad 0x1000 1;
    MkDescriptor LoaderFree 0x1001 0x1000 ].

(** The globals after the scan of [BadRamLoaderBlock], and a state with
    32 colors, the PFN database at 0xB0000000, nothing mapped yet. *)
Definition BadRamGlobals : MM_GLOBALS :=
  MkGlobals 3 0x2000 0 0x2000 0x2000 0x1000 0 (Some 0%nat)
            (MkDescriptor LoaderFree 0 0x1000).

Definition BadRamState : MM_PFN_STATE :=
  MkPfnState BadRamGlobals 32 31 0xB0000000 ∅ ∅ ∅.

(** Two pages of loader data (the page directory in frame 8, the page
    table of the PFN database region in frame 9), two small free ranges
    and the bootstrap range. *)
Definition TwoFreeBlocks : LOADER_PARAMETER_BLOCK :=
  [ MkDescriptor LoaderMemoryData 8 2;
    MkDescriptor LoaderFree 0x10 2;
    MkDescriptor LoaderFree 0x20 2;
    MkDescriptor LoaderFree 0x100 8 ].

Definition TwoFreeBlocksGlobals : MM_GLOBALS :=
  MkGlobals 4 14 8 0x107 12 8 0x100 (Some 3%nat)
            (MkDescriptor LoaderFree 0x100 8).

(** The page directory maps itself (PDE at 0xC0300C00) and the page table
    of the PFN database region (PDE at 0xC0300B00). *)
Definition BootPageTables : gmap Z Z :=
  <[0xC0300C00 := 8]> (<[0xC0300B00 := 9]> ∅).

(** Two colors, the PFN database at 0xB0000000, no PFN entry written and
    no color table element written yet. *)
Definition TwoFreeBlocksState : MM_PFN_STATE :=
  MkPfnState TwoFreeBlocksGlobals 2 1 0xB0000000 BootPageTables ∅ ∅.

(* ================================================================== *)
(** * Part II: properties *)
(* ================================================================== *)

(** ** Machine arithmetic *)

(** Linear arithmetic with divisions by constants. *)
Ltac lia_div := Z.div_mod_to_equations; lia.

Lemma ULONG_range (x : Z) : 0 <= ULONG x < 2 ^ 32.
Proof. unfold ULONG. apply Z.mod_pos_bound. lia. Qed.

Lemma ULONG_small (x : Z) : 0 <= x < 2 ^ 32 -> ULONG x = x.
Proof. intros H. unfold ULONG. apply Z.mod_small. exact H. Qed.

Lemma ULONG_add_l (a b : Z) : ULONG (ULONG a + b) = ULONG (a + b).
Proof. unfold ULONG. apply Zplus_mod_idemp_l. Qed.

Lemma ULONG_idem (x : Z) : ULONG (ULONG x) = ULONG x.
Proof. unfold ULONG. apply Zmod_mod. Qed.

Lemma TYPE_OF_MEMORY_eqb_eq (a b : TYPE_OF_MEMORY) :
  TYPE_OF_MEMORY_eqb a b = true <-> a = b.
Proof.
  split.
  - destruct a, b; simpl; intros H; try reflexivity; discriminate H.
  - intros ->. destruct b; reflexivity.
Qed.

Lemma Bad_is_in_database : MiIsMemoryTypeInDatabase LoaderBad = true.
Proof. reflexivity. Qed.

Lemma Free_is_in_database (t : TYPE_OF_MEMORY) :
  MiIsMemoryTypeFree t = true -> MiIsMemoryTypeInDatabase t = true.
Proof. destruct t; simpl; intros H; try reflexivity; discriminate H. Qed.

Lemma Free_is_not_bad (t : TYPE_OF_MEMORY) :
  MiIsMemoryTypeFree t = true -> TYPE_OF_MEMORY_eqb t LoaderBad = false.
Proof. destruct t; simpl; intros H; try reflexivity; discriminate H. Qed.

(** ** The memory descriptor scan *)

(** What one iteration does to each of the three counters. *)
Lemma MiScanDescriptor_total p d g :
  MmNumberOfPhysicalPages (MiScanDescriptor p d g) =
  if MiIsMemoryTypeInDatabase (MemoryType d) && NotBad d
  then ULONG (MmNumberOfPhysicalPages g + PageCount d)
  else MmNumberOfPhysicalPages g.
Proof.
  unfold MiScanDescriptor, NotBad.
  destruct (MiIsMemoryTypeInDatabase (MemoryType d)); simpl; [|reflexivity].
  destruct (MiIsMemoryTypeFree (MemoryType d));
    [destruct (PageCount d >? MiEarlyAllocCount g)|]; reflexivity.
Qed.

Lemma MiScanDescriptor_lowest p d g :
  MmLowestPhysicalPage (MiScanDescriptor p d g) =
  if MiIsMemoryTypeInDatabase (MemoryType d)
  then Z.min (MmLowestPhysicalPage g) (BasePage d)
  else MmLowestPhysicalPage g.
Proof.
  unfold MiScanDescriptor.
  destruct (MiIsMemoryTypeInDatabase (MemoryType d)); simpl; [|reflexivity].
  destruct (MiIsMemoryTypeFree (MemoryType d));
    [destruct (PageCount d >? MiEarlyAllocCount g)|]; reflexivity.
Qed.

Lemma MiScanDescriptor_highest p d g :
  MmHighestPhysicalPage (MiScanDescriptor p d g) =
  if MiIsMemoryTypeInDatabase (MemoryType d)
  then Z.max (MmHighestPhysicalPage g) (ULONG (BasePage d + PageCount d - 1))
  else MmHighestPhysicalPage g.
Proof.
  unfold MiScanDescriptor.
  destruct (MiIsMemoryTypeInDatabase (MemoryType d)); simpl; [|reflexivity].
  destruct (MiIsMemoryTypeFree (MemoryType d));
    [destruct (PageCount d >? MiEarlyAllocCount g)|]; reflexivity.
Qed.

Lemma MiScanDescriptor_selected p d g :
  MxFreeDescriptor (MiScanDescriptor p d g) = MxFreeDescriptor g
  /\ MiEarlyAllocCount (MiScanDescriptor p d g) = MiEarlyAllocCount g
  \/ MxFreeDescriptor (MiScanDescriptor p d g) = Some p
     /\ MiEarlyAllocCount (MiScanDescriptor p d g) = PageCount d
     /\ MiIsMemoryTypeFree (MemoryType d) = true
     /\ MiEarlyAllocCount g < PageCount d.
Proof.
  unfold MiScanDescriptor.
  destruct (MiIsMemoryTypeInDatabase (MemoryType d)); simpl; [|auto].
  destruct (MiIsMemoryTypeFree (MemoryType d)) eqn:Hf; [|auto].
  destruct (PageCount d >? MiEarlyAllocCount g) eqn:Hc; simpl; [|auto].
  right. repeat split. lia.
Qed.

Lemma MiScanDescriptor_count_mono p d g :
  MiEarlyAllocCount g <= MiEarlyAllocCount (MiScanDescriptor p d g).
Proof.
  destruct (MiScanDescriptor_selected p d g) as [[_ ->]|(_ & -> & _ & H)]; lia.
Qed.

Lemma MiScanLoop_count_mono l : forall p g,
  MiEarlyAllocCount g <= MiEarlyAllocCount (MiScanLoop p l g).
Proof.
  induction l as [|d l IH]; intros p g; simpl; [lia|].
  pose proof (MiScanDescriptor_count_mono p d g).
  pose proof (IH (S p) (MiScanDescriptor p d g)). lia.
Qed.

(** The selection made by the loop over the suffix [l] of the block
    [pre ++ l]. *)
Lemma MiScanLoop_selected l : forall pre g,
  BootstrapSelected (pre ++ l) g ->
  BootstrapSelected (pre ++ l) (MiScanLoop (length pre) l g).
Proof.
  induction l as [|d l IH]; intros pre g Hsel; simpl; [exact Hsel|].
  replace (pre ++ d :: l) with ((pre ++ [d]) ++ l) in *
    by (rewrite <- app_assoc; reflexivity).
  replace (S (length pre)) with (length (pre ++ [d]))
    by (rewrite length_app; simpl; lia).
  apply IH.
  destruct (MiScanDescriptor_selected (length pre) d g)
    as [[Hp Hc]|(Hp & Hc & Hf & _)].
  - destruct Hsel as (i & d' & Hi & Hn & Hpc & Hfree).
    exists i, d'. rewrite Hp, Hc. auto.
  - exists (length pre), d. rewrite Hp, Hc. repeat split; auto.
    rewrite <- app_assoc. simpl.
    rewrite nth_error_app2 by lia.
    replace (length pre - length pre)%nat with O by lia. reflexivity.
Qed.

Lemma MiScanLoop_selects l : forall pre g d,
  In d l -> MiIsMemoryTypeFree (MemoryType d) = true ->
  MiEarlyAllocCount g < PageCount d \/ BootstrapSelected (pre ++ l) g ->
  BootstrapSelected (pre ++ l) (MiScanLoop (length pre) l g).
Proof.
  induction l as [|d0 l IH]; intros pre g d Hin Hfree Hg; [destruct Hin|].
  simpl.
  replace (pre ++ d0 :: l) with ((pre ++ [d0]) ++ l) in *
    by (rewrite <- app_assoc; reflexivity).
  replace (S (length pre)) with (length (pre ++ [d0]))
    by (rewrite length_app; simpl; lia).
  assert (Hnth : nth_error ((pre ++ [d0]) ++ l) (length pre) = Some d0).
  { rewrite <- app_assoc. simpl. rewrite nth_error_app2 by lia.
    replace (length pre - length pre)%nat with O by lia. reflexivity. }
  assert (Hstep : BootstrapSelected ((pre ++ [d0]) ++ l) g ->
                  BootstrapSelected ((pre ++ [d0]) ++ l)
                                    (MiScanDescriptor (length pre) d0 g)).
  { intros (i & d' & Hi & Hn & Hpc & Hfr).
    destruct (MiScanDescriptor_selected (length pre) d0 g)
      as [[Hp Hc]|(Hp & Hc & Hf & _)].
    - exists i, d'. rewrite Hp, Hc. auto.
    - exists (length pre), d0. rewrite Hp, Hc. auto. }
  destruct Hin as [->|Hin].
  - apply MiScanLoop_selected.
    destruct Hg as [Hlt|Hsel]; [|auto].
    exists (length pre), d. unfold MiScanDescriptor.
    rewrite (Free_is_in_database _ Hfree), Hfree. simpl.
    replace (PageCount d >? MiEarlyAllocCount g) with true
      by (symmetry; apply Z.gtb_lt; lia).
    simpl. auto.
  - apply (IH (pre ++ [d0]) _ d Hin Hfree).
    destruct Hg as [Hlt|Hsel]; [|right; auto].
    destruct (MiScanDescriptor_selected (length pre) d0 g)
      as [[Hp Hc]|(Hp & Hc & Hf & Hlt')].
    + left. rewrite Hc. exact Hlt.
    + right. exists (length pre), d0. rewrite Hp, Hc. auto.
Qed.

Lemma SumPageCount_nonneg l :
  Forall ValidDescriptor l -> 0 <= SumPageCount l.
Proof.
  induction 1 as [|d l Hd _ IH]; simpl; [lia|].
  destruct Hd as (_ & Hc & _). lia.
Qed.

Lemma Forall_filter_valid (f : MEMORY_ALLOCATION_DESCRIPTOR -> bool) l :
  Forall ValidDescriptor l -> Forall ValidDescriptor (List.filter f l).
Proof.
  induction 1 as [|d l Hd _ IH]; simpl; [constructor|].
  destruct (f d); [constructor|]; assumption.
Qed.

Lemma MiScanLoop_total l : forall p g,
  Forall ValidDescriptor l ->
  0 <= MmNumberOfPhysicalPages g ->
  MmNumberOfPhysicalPages g
    + SumPageCount (List.filter NotBad (InDatabase l)) < 2 ^ 32 ->
  MmNumberOfPhysicalPages (MiScanLoop p l g) =
  MmNumberOfPhysicalPages g + SumPageCount (List.filter NotBad (InDatabase l)).
Proof.
  induction l as [|d l IH]; intros p g Hv H0 Hsum; simpl in *; [lia|].
  inversion Hv as [|? ? Hd Hl]; subst.
  pose proof (SumPageCount_nonneg _
                (Forall_filter_valid NotBad _
                   (Forall_filter_valid
                      (fun d => MiIsMemoryTypeInDatabase (MemoryType d)) _ Hl)))
    as Hrest.
  fold (InDatabase l) in *.
  destruct Hd as (_ & Hc & _).
  pose proof (MiScanDescriptor_total p d g) as Ht.
  destruct (MiIsMemoryTypeInDatabase (MemoryType d)); simpl in *.
  - destruct (NotBad d); simpl in *.
    + rewrite ULONG_small in Ht by lia.
      rewrite IH; try assumption; rewrite Ht; lia.
    + rewrite IH; try assumption; rewrite Ht; lia.
  - rewrite IH; try assumption; rewrite Ht; lia.
Qed.

Lemma MiScanLoop_lowest l : forall p g,
  let m := MmLowestPhysicalPage (MiScanLoop p l g) in
  m <= MmLowestPhysicalPage g
  /\ Forall (fun x => m <= x) (map BasePage (InDatabase l))
  /\ (m = MmLowestPhysicalPage g \/ In m (map BasePage (InDatabase l))).
Proof.
  induction l as [|d l IH]; intros p g; simpl.
  - repeat split; [lia|constructor|auto].
  - specialize (IH (S p) (MiScanDescriptor p d g)). simpl in IH.
    destruct IH as (Hle & Hall & Hin).
    rewrite MiScanDescriptor_lowest in Hle, Hin.
    fold (InDatabase l) in *.
    destruct (MiIsMemoryTypeInDatabase (MemoryType d)); simpl.
    + repeat split.
      * lia.
      * constructor; [lia|exact Hall].
      * destruct Hin as [Heq|Hin]; [|auto].
        destruct (Z.min_spec (MmLowestPhysicalPage g) (BasePage d))
          as [[_ Hm]|[_ Hm]]; rewrite Hm in Heq; auto.
    + repeat split; auto.
Qed.

Lemma MiScanLoop_highest l : forall p g,
  Forall ValidDescriptor l ->
  let m := MmHighestPhysicalPage (MiScanLoop p l g) in
  MmHighestPhysicalPage g <= m
  /\ Forall (fun x => x <= m) (map LastPage (InDatabase l))
  /\ (m = MmHighestPhysicalPage g \/ In m (map LastPage (InDatabase l))).
Proof.
  induction l as [|d l IH]; intros p g Hv; simpl.
  - repeat split; [lia|constructor|auto].
  - inversion Hv as [|? ? Hd Hl]; subst.
    specialize (IH (S p) (MiScanDescriptor p d g) Hl). simpl in IH.
    destruct IH as (Hle & Hall & Hin).
    rewrite MiScanDescriptor_highest in Hle, Hin.
    fold (InDatabase l) in *.
    destruct Hd as (Hb & Hc & Hbc).
    rewrite ULONG_small in Hle, Hin by lia.
    destruct (MiIsMemoryTypeInDatabase (MemoryType d)); simpl.
    + repeat split.
      * lia.
      * constructor; [unfold LastPage; lia|exact Hall].
      * destruct Hin as [Heq|Hin]; [|auto].
        destruct (Z.max_spec (MmHighestPhysicalPage g)
                             (BasePage d + PageCount d - 1))
          as [[_ Hm]|[_ Hm]]; rewrite Hm in Heq; auto.
    + repeat split; auto.
Qed.

Lemma InDatabase_In d l :
  In d l -> MiIsMemoryTypeInDatabase (MemoryType d) = true ->
  In d (InDatabase l).
Proof. intros Hin Hdb. apply filter_In. auto. Qed.

(** C2.  For a loader block of valid descriptors with at least one free
    descriptor and a page total that fits in a [PFN_NUMBER], the scan
    returns with [MmNumberOfPhysicalPages] equal to the sum of the page
    counts of the descriptors that are in the database and not bad, with
    [MmLowestPhysicalPage] the least base page and [MmHighestPhysicalPage]
    the greatest last page of the descriptors that are in the database,
    bad ones included. *)
Theorem MiScanMemoryDescriptors_totals (LoaderBlock : LOADER_PARAMETER_BLOCK) :
  Forall ValidDescriptor LoaderBlock ->
  SumPageCount (List.filter NotBad (InDatabase LoaderBlock)) < 2 ^ 32 ->
  (exists d, In d LoaderBlock /\ MiIsMemoryTypeFree (MemoryType d) = true) ->
  exists g,
    MiScanMemoryDescriptors LoaderBlock InitialGlobals = Returns g
    /\ MmNumberOfPhysicalPages g =
       SumPageCount (List.filter NotBad (InDatabase LoaderBlock))
    /\ IsMinimum (MmLowestPhysicalPage g)
                 (map BasePage (InDatabase LoaderBlock))
    /\ IsMaximum (MmHighestPhysicalPage g)
                 (map LastPage (InDatabase LoaderBlock))
    /\ (forall d, In d LoaderBlock -> MemoryType d = LoaderBad ->
          In d (InDatabase LoaderBlock)
          /\ ~ In d (List.filter NotBad (InDatabase LoaderBlock))).
Proof.
  intros Hv Hsum (d & Hin & Hfree).
  assert (Hsel : BootstrapSelected LoaderBlock
                   (MiScanLoop 0 LoaderBlock InitialGlobals)).
  { apply (MiScanLoop_selects LoaderBlock [] InitialGlobals d Hin Hfree).
    left. simpl. rewrite List.Forall_forall in Hv. destruct (Hv d Hin). lia. }
  destruct Hsel as (i & d' & Hi & Hn & _).
  unfold MiScanMemoryDescriptors. rewrite Hi. simpl. rewrite Hn.
  eexists. split; [reflexivity|]. simpl.
  assert (Hdb : In d (InDatabase LoaderBlock))
    by (apply InDatabase_In; auto using Free_is_in_database).
  assert (Hdv : ValidDescriptor d) by (rewrite List.Forall_forall in Hv; auto).
  assert (Hvdb : Forall ValidDescriptor (InDatabase LoaderBlock))
    by (apply Forall_filter_valid; exact Hv).
  split; [|split; [|split]].
  - rewrite MiScanLoop_total; simpl; auto; lia.
  - destruct (MiScanLoop_lowest LoaderBlock 0%nat InitialGlobals)
      as (Hle & Hall & Hor).
    split; [|exact Hall].
    destruct Hor as [Heq|Hor]; [|exact Hor].
    rewrite Heq in *. simpl in *.
    rewrite List.Forall_forall in Hall.
    pose proof (Hall _ (in_map BasePage _ _ Hdb)) as Hb.
    destruct Hdv as (? & ? & ?).
    assert (BasePage d = MINUS_ONE)
      by (change MINUS_ONE with 4294967295 in *;
          change (2 ^ 32) with 4294967296 in *; lia).
    rewrite <- H2. apply in_map. exact Hdb.
  - destruct (MiScanLoop_highest LoaderBlock 0%nat InitialGlobals Hv)
      as (Hle & Hall & Hor).
    split; [|exact Hall].
    destruct Hor as [Heq|Hor]; [|exact Hor].
    rewrite Heq in *. simpl in *.
    rewrite List.Forall_forall in Hall.
    pose proof (Hall _ (in_map LastPage _ _ Hdb)) as Hb.
    destruct Hdv as (? & ? & ?).
    assert (LastPage d = 0) by (unfold LastPage in *; lia).
    rewrite <- H2. apply in_map. exact Hdb.
  - intros b Hb Hbad. split.
    + apply InDatabase_In; [exact Hb|]. rewrite Hbad. reflexivity.
    + intros Hc. apply filter_In in Hc. destruct Hc as [_ Hc].
      unfold NotBad in Hc. rewrite Hbad in Hc. discriminate Hc.
Qed.

Lemma MiScanMemoryDescriptors_totals_witness :
  exists g,
    MiScanMemoryDescriptors SampleLoaderBlock InitialGlobals = Returns g
    /\ MmNumberOfPhysicalPages g = 0x9F + 0x40 + 0x1000
    /\ MmLowestPhysicalPage g = 1
    /\ MmHighestPhysicalPage g = 0x113F.
Proof.
  destruct (MiScanMemoryDescriptors_totals SampleLoaderBlock)
    as (g & Hg & Ht & _).
  - repeat constructor; simpl; lia.
  - vm_compute. reflexivity.
  - exists (MkDescriptor LoaderFree 1 0x9F). split; [simpl; auto|reflexivity].
  - exists g. split; [exact Hg|].
    vm_compute in Hg. injection Hg as <-. vm_compute. auto.
Defined.

Lemma MiScanLoop_selected_or_null l : forall pre g,
  MxFreeDescriptor g = None \/ BootstrapSelected (pre ++ l) g ->
  MxFreeDescriptor (MiScanLoop (length pre) l g) = None
  \/ BootstrapSelected (pre ++ l) (MiScanLoop (length pre) l g).
Proof.
  induction l as [|d l IH]; intros pre g Hg; simpl; [exact Hg|].
  replace (pre ++ d :: l) with ((pre ++ [d]) ++ l) in *
    by (rewrite <- app_assoc; reflexivity).
  replace (S (length pre)) with (length (pre ++ [d]))
    by (rewrite length_app; simpl; lia).
  apply IH.
  destruct (MiScanDescriptor_selected (length pre) d g)
    as [[Hp Hc]|(Hp & Hc & Hf & _)].
  - destruct Hg as [Hn|(i & d' & Hi & Hn & Hpc & Hfree)].
    + left. rewrite Hp. exact Hn.
    + right. exists i, d'. rewrite Hp, Hc. auto.
  - right. exists (length pre), d. rewrite Hp, Hc. repeat split; auto.
    rewrite <- app_assoc. simpl.
    rewrite nth_error_app2 by lia.
    replace (length pre - length pre)%nat with O by lia. reflexivity.
Qed.

(** When the scan returns, [MxFreeDescriptor] points to a free descriptor
    of the list, [MxOldFreeDescriptor] is a copy of it, and the early
    allocator covers exactly its pages. *)
Lemma MiScanMemoryDescriptors_snapshot (LoaderBlock : LOADER_PARAMETER_BLOCK)
    (g : MM_GLOBALS) :
  MiScanMemoryDescriptors LoaderBlock InitialGlobals = Returns g ->
  Deref LoaderBlock (MxFreeDescriptor g) = Some (MxOldFreeDescriptor g)
  /\ MiIsMemoryTypeFree (MemoryType (MxOldFreeDescriptor g)) = true
  /\ MiEarlyAllocBase g = BasePage (MxOldFreeDescriptor g)
  /\ MiEarlyAllocCount g = PageCount (MxOldFreeDescriptor g).
Proof.
  unfold MiScanMemoryDescriptors. intros H.
  destruct (MiScanLoop_selected_or_null LoaderBlock [] InitialGlobals)
    as [Hn|(i & d & Hi & Hd & Hc & Hf)]; [left; reflexivity| |];
    simpl in *.
  - rewrite Hn in H. discriminate H.
  - rewrite Hi in H. simpl in H. rewrite Hd in H. injection H as <-.
    simpl. auto.
Qed.

(** Without a free descriptor (of nonzero size) the loop selects nothing. *)
Lemma MiScanLoop_selects_nothing l : forall p g,
  MxFreeDescriptor g = None -> MiEarlyAllocCount g = 0 ->
  Forall (fun d => MiIsMemoryTypeFree (MemoryType d) = false
                   \/ PageCount d <= 0) l ->
  MxFreeDescriptor (MiScanLoop p l g) = None.
Proof.
  induction l as [|d l IH]; intros p g Hn Hc Hall; simpl; [exact Hn|].
  inversion Hall as [|? ? Hd Hl]; subst.
  destruct (MiScanDescriptor_selected p d g)
    as [[Hp Hc']|(_ & _ & Hf & Hlt)].
  - apply IH; [rewrite Hp; exact Hn|rewrite Hc'; exact Hc|exact Hl].
  - destruct Hd as [Hd|Hd]; [congruence|lia].
Qed.

Lemma MiScanMemoryDescriptors_null_dereference
    (LoaderBlock : LOADER_PARAMETER_BLOCK) :
  Forall (fun d => MiIsMemoryTypeFree (MemoryType d) = false
                   \/ PageCount d <= 0) LoaderBlock ->
  MiScanMemoryDescriptors LoaderBlock InitialGlobals = AccessViolation.
Proof.
  intros Hall. unfold MiScanMemoryDescriptors.
  rewrite (MiScanLoop_selects_nothing LoaderBlock 0%nat InitialGlobals);
    auto.
Qed.

(** C10.  The scan of an empty loader block, and of a block without free
    memory, does not complete: [MxFreeDescriptor] is still null when the
    function dereferences it to save the bootstrap descriptor. *)
Theorem MiScanMemoryDescriptors_empty_list :
  MiScanMemoryDescriptors [] InitialGlobals = AccessViolation
  /\ MiScanMemoryDescriptors
       [MkDescriptor LoaderBootDriver 0x100 0x40;
        MkDescriptor LoaderFirmwarePermanent 0x140 0x10] InitialGlobals
     = AccessViolation.
Proof. split; reflexivity. Qed.

(** ** The early allocator *)

Lemma SumZ_nonneg ns : Forall (fun n => 0 <= n) ns -> 0 <= SumZ ns.
Proof. induction 1; simpl; lia. Qed.

Lemma MiEarlyAllocPages_exhausted LoaderBlock g d n :
  Deref LoaderBlock (MxFreeDescriptor g) = Some d ->
  MiEarlyAllocCount g < n ->
  MiEarlyAllocPages LoaderBlock n g =
  BugCheck INSTALL_MORE_MEMORY (MmNumberOfPhysicalPages g)
           (MiEarlyAllocCount g) (PageCount d) n.
Proof.
  intros Hd Hn. unfold MiEarlyAllocPages.
  replace (n >? MiEarlyAllocCount g) with true
    by (symmetry; apply Z.gtb_lt; lia).
  rewrite Hd. reflexivity.
Qed.

Lemma MiEarlyAllocPages_success LoaderBlock g n :
  0 <= n <= MiEarlyAllocCount g ->
  0 <= MiEarlyAllocBase g ->
  MiEarlyAllocBase g + MiEarlyAllocCount g < 2 ^ 32 ->
  exists g',
    MiEarlyAllocPages LoaderBlock n g = Returns (MiEarlyAllocBase g, g')
    /\ MiEarlyAllocBase g' = MiEarlyAllocBase g + n
    /\ MiEarlyAllocCount g' = MiEarlyAllocCount g - n
    /\ MxFreeDescriptor g' = MxFreeDescriptor g
    /\ MmNumberOfPhysicalPages g' = MmNumberOfPhysicalPages g
    /\ MmLowestPhysicalPage g' = MmLowestPhysicalPage g
    /\ MmHighestPhysicalPage g' = MmHighestPhysicalPage g.
Proof.
  intros Hn Hb Hbc. unfold MiEarlyAllocPages.
  destruct (Z.gtb_spec n (MiEarlyAllocCount g)) as [Hgt|_]; [lia|].
  eexists. split; [reflexivity|]. simpl.
  rewrite !ULONG_small by lia. repeat split; reflexivity.
Qed.

Lemma ConsecutiveBases_length ns : forall base,
  length (ConsecutiveBases base ns) = length ns.
Proof. induction ns; intros; simpl; auto. Qed.

Lemma ConsecutiveBases_lower ns : forall base (j : nat) pj,
  Forall (fun n => 0 <= n) ns ->
  ConsecutiveBases base ns !! j = Some pj -> base <= pj.
Proof.
  induction ns as [|n ns IH]; intros base j pj Hall Hj; [discriminate Hj|].
  inversion Hall; subst. destruct j as [|j]; simpl in Hj.
  - injection Hj as <-. lia.
  - apply IH in Hj; [lia|assumption].
Qed.

(** Ranges laid out one after the other are pairwise disjoint. *)
Lemma ConsecutiveBases_disjoint ns : forall base (i j : nat) pi ni pj,
  Forall (fun n => 0 <= n) ns ->
  (i < j)%nat ->
  ConsecutiveBases base ns !! i = Some pi -> ns !! i = Some ni ->
  ConsecutiveBases base ns !! j = Some pj ->
  pi + ni <= pj.
Proof.
  induction ns as [|n ns IH]; intros base i j pi ni pj Hall Hij Hi Hni Hj;
    [discriminate Hi|].
  inversion Hall; subst.
  destruct j as [|j]; [lia|]. simpl in Hj.
  destruct i as [|i]; simpl in Hi, Hni.
  - injection Hi as <-. injection Hni as <-.
    apply (ConsecutiveBases_lower ns (base + n) j pj); assumption.
  - apply (IH (base + n) i j pi ni pj); try assumption. lia.
Qed.

Lemma EarlyAllocSequence_success LoaderBlock ns : forall g,
  Forall (fun n => 0 <= n) ns ->
  SumZ ns <= MiEarlyAllocCount g ->
  0 <= MiEarlyAllocBase g ->
  MiEarlyAllocBase g + MiEarlyAllocCount g < 2 ^ 32 ->
  exists g',
    EarlyAllocSequence LoaderBlock ns g =
      Returns (ConsecutiveBases (MiEarlyAllocBase g) ns, g')
    /\ MiEarlyAllocBase g' = MiEarlyAllocBase g + SumZ ns
    /\ MiEarlyAllocCount g' = MiEarlyAllocCount g - SumZ ns
    /\ MxFreeDescriptor g' = MxFreeDescriptor g
    /\ MmNumberOfPhysicalPages g' = MmNumberOfPhysicalPages g.
Proof.
  induction ns as [|n ns IH]; intros g Hall Hsum Hb Hbc; simpl in *.
  - exists g. repeat split; lia.
  - inversion Hall as [|? ? Hn Hns]; subst.
    pose proof (SumZ_nonneg _ Hns) as Hrest.
    destruct (MiEarlyAllocPages_success LoaderBlock g n)
      as (g1 & Hg1 & Hb1 & Hc1 & Hf1 & Ht1 & _); try lia.
    rewrite Hg1. simpl.
    destruct (IH g1 Hns) as (g2 & Hg2 & Hb2 & Hc2 & Hf2 & Ht2); try lia.
    rewrite Hg2. simpl. rewrite Hb1.
    exists g2. repeat split; try congruence; lia.
Qed.

(** C3.  [MiEarlyAllocPages(n)] with [n] above the remaining count stops
    with [INSTALL_MORE_MEMORY] and the arguments (total pages, remaining
    count, page count of the bootstrap descriptor, [n]); otherwise it
    returns the current base, advances the base by [n] and lowers the
    remaining count by [n].  Successive allocations start where the
    previous one ends and are pairwise disjoint.  With three pages
    remaining, the fourth one-page allocation stops with the arguments
    (total, 0, 3, 1). *)
Theorem MiEarlyAllocPages_contract (LoaderBlock : LOADER_PARAMETER_BLOCK)
    (g : MM_GLOBALS) (d : MEMORY_ALLOCATION_DESCRIPTOR) :
  Deref LoaderBlock (MxFreeDescriptor g) = Some d ->
  0 <= MiEarlyAllocCount g ->
  0 <= MiEarlyAllocBase g ->
  MiEarlyAllocBase g + MiEarlyAllocCount g < 2 ^ 32 ->
  (forall n, MiEarlyAllocCount g < n ->
     MiEarlyAllocPages LoaderBlock n g =
     BugCheck INSTALL_MORE_MEMORY (MmNumberOfPhysicalPages g)
              (MiEarlyAllocCount g) (PageCount d) n)
  /\ (forall n, 0 <= n <= MiEarlyAllocCount g ->
        exists g',
          MiEarlyAllocPages LoaderBlock n g = Returns (MiEarlyAllocBase g, g')
          /\ MiEarlyAllocBase g' = MiEarlyAllocBase g + n
          /\ MiEarlyAllocCount g' = MiEarlyAllocCount g - n)
  /\ (forall ns, Forall (fun n => 0 <= n) ns ->
        SumZ ns <= MiEarlyAllocCount g ->
        exists ps g',
          EarlyAllocSequence LoaderBlock ns g = Returns (ps, g')
          /\ ps = ConsecutiveBases (MiEarlyAllocBase g) ns
          /\ (forall (i j : nat) pi ni pj,
                (i < j)%nat -> ps !! i = Some pi -> ns !! i = Some ni ->
                ps !! j = Some pj -> pi + ni <= pj))
  /\ (MiEarlyAllocCount g = 3 -> PageCount d = 3 ->
        EarlyAllocSequence LoaderBlock [1; 1; 1; 1] g =
        BugCheck INSTALL_MORE_MEMORY (MmNumberOfPhysicalPages g) 0 3 1).
Proof.
  intros Hd Hc Hb Hbc. split; [|split; [|split]].
  - intros n Hn. apply MiEarlyAllocPages_exhausted; assumption.
  - intros n Hn.
    destruct (MiEarlyAllocPages_success LoaderBlock g n)
      as (g' & Hg' & Hb' & Hc' & _); try assumption.
    exists g'. auto.
  - intros ns Hall Hsum.
    destruct (EarlyAllocSequence_success LoaderBlock ns g)
      as (g' & Hg' & _); try assumption.
    eexists _, g'. split; [exact Hg'|]. split; [reflexivity|].
    intros i j pi ni pj. apply ConsecutiveBases_disjoint. exact Hall.
  - intros H3 Hd3.
    destruct (EarlyAllocSequence_success LoaderBlock [1; 1; 1] g)
      as (g' & Hg' & Hb' & Hc' & Hf' & Ht'); try assumption.
    { repeat constructor; lia. }
    { simpl. lia. }
    change [1; 1; 1; 1] with ([1; 1; 1] ++ [1]).
    assert (Happ : forall l1 l2 g0 ps g1,
               EarlyAllocSequence LoaderBlock l1 g0 = Returns (ps, g1) ->
               EarlyAllocSequence LoaderBlock (l1 ++ l2) g0 =
               (do rs <- EarlyAllocSequence LoaderBlock l2 g1;
                Returns (ps ++ fst rs, snd rs))).
    { induction l1 as [|a l1 IH]; intros l2 g0 ps g1 H; simpl in *.
      - injection H as <- <-.
        destruct (EarlyAllocSequence LoaderBlock l2 g0) as [[? ?]| | |];
          reflexivity.
      - destruct (MiEarlyAllocPages LoaderBlock a g0) as [[q g2]| | |];
          simpl in *; try discriminate H.
        destruct (EarlyAllocSequence LoaderBlock l1 g2) as [[qs g3]| | |] eqn:E;
          simpl in *; try discriminate H.
        injection H as <- <-.
        rewrite (IH l2 g2 qs g3 E).
        destruct (EarlyAllocSequence LoaderBlock l2 g3) as [[? ?]| | |];
          reflexivity. }
    rewrite (Happ _ _ _ _ _ Hg'). simpl.
    rewrite (MiEarlyAllocPages_exhausted LoaderBlock g' d 1).
    + simpl. rewrite Ht', Hc', H3, Hd3. reflexivity.
    + rewrite Hf'. exact Hd.
    + rewrite Hc', H3. simpl. lia.
Qed.

Lemma MiEarlyAllocPages_contract_witness :
  EarlyAllocSequence
    [MkDescriptor LoaderBootDriver 0 0x10; MkDescriptor LoaderFree 0x10 3]
    [1; 1; 1; 1]
    (MkGlobals 2 19 0 0x12 3 3 0x10 (Some 1%nat)
               (MkDescriptor LoaderFree 0x10 3))
  = BugCheck INSTALL_MORE_MEMORY 19 0 3 1.
Proof.
  refine (proj2 (proj2 (proj2
    (MiEarlyAllocPages_contract
       [MkDescriptor LoaderBootDriver 0 0x10; MkDescriptor LoaderFree 0x10 3]
       (MkGlobals 2 19 0 0x12 3 3 0x10 (Some 1%nat)
                  (MkDescriptor LoaderFree 0x10 3))
       (MkDescriptor LoaderFree 0x10 3) _ _ _ _))) _ _);
    simpl; try reflexivity; lia.
Defined.

(** ** Page colors *)

Lemma power_of_two_land (x : Z) :
  IsPowerOfTwo x -> Z.land x (x - 1) = 0.
Proof.
  intros (k & Hk & ->).
  replace (2 ^ k - 1) with (Z.ones k) by (rewrite Z.ones_equiv; lia).
  rewrite Z.land_ones by exact Hk.
  apply Z_mod_same_full.
Qed.

Lemma land_power_of_two (x : Z) :
  0 < x -> Z.land x (x - 1) = 0 -> IsPowerOfTwo x.
Proof.
  intros Hx Hland.
  destruct (Z.log2_spec x Hx) as [Hlo Hhi].
  pose proof (Z.log2_nonneg x) as Hk.
  exists (Z.log2 x). split; [exact Hk|].
  destruct (Z.eq_dec x (2 ^ Z.log2 x)) as [Heq|Hne]; [exact Heq|exfalso].
  assert (Hlog : Z.log2 (x - 1) = Z.log2 x).
  { apply Z.log2_unique; [exact Hk|]. rewrite <- Z.add_1_r in Hhi. lia. }
  assert (Hbit : Z.testbit (Z.land x (x - 1)) (Z.log2 x) = true).
  { rewrite Z.land_spec.
    rewrite (Z.bit_log2 x Hx).
    rewrite <- Hlog. rewrite Z.bit_log2; [reflexivity|].
    assert (0 < 2 ^ Z.log2 x) by (apply Z.pow_pos_nonneg; lia). lia. }
  rewrite Hland in Hbit. rewrite Z.bits_0 in Hbit. discriminate Hbit.
Qed.

Lemma RawColors_shift Size Assoc Preset :
  Z.shiftr (if Preset =? 0
            then (if negb (Assoc =? 0) then Size / Assoc else Size)
            else Preset) PAGE_SHIFT
  = RawColors Size Assoc Preset.
Proof.
  unfold RawColors, PAGE_SHIFT, PAGE_SIZE.
  destruct (Preset =? 0); [destruct (Assoc =? 0); simpl|];
    rewrite Z.shiftr_div_pow2 by lia; reflexivity.
Qed.

Lemma RawColors_nonneg Size Assoc Preset :
  0 <= Size -> 0 <= Assoc -> 0 <= Preset ->
  0 <= RawColors Size Assoc Preset.
Proof.
  intros HS HA HP. unfold RawColors, PAGE_SIZE.
  destruct (Preset =? 0); [destruct (Assoc =? 0) eqn:E|].
  - apply Z.div_pos; lia.
  - apply Z.eqb_neq in E. apply Z.div_pos; [|lia].
    apply Z.div_pos; lia.
  - apply Z.div_pos; lia.
Qed.

(** C8.  Whatever the cache size, the associativity and the preset value,
    the number of colors that [MiComputeColorInformation] stores is a power
    of two between the minimum and the maximum and the mask is the number
    of colors minus one.  A raw value of zero gives the default; a raw
    value above the maximum is clamped to the maximum (and replaced by the
    default when the maximum is not a power of two); a raw value below the
    minimum, or in range but not a power of two, gives the default; a
    power of two in range is kept.  A 512 KiB cache of associativity 4
    gives 32 colors and the mask 31. *)
Theorem MiComputeColorInformation_power_of_two (K : COLOR_LIMITS)
    (Size Assoc Preset : Z) :
  0 < MI_MIN_SECONDARY_COLORS K <= MI_SECONDARY_COLORS K ->
  MI_SECONDARY_COLORS K <= MI_MAX_SECONDARY_COLORS K < 2 ^ 32 ->
  IsPowerOfTwo (MI_SECONDARY_COLORS K) ->
  0 <= Size -> 0 <= Assoc -> 0 <= Preset ->
  let colors := fst (MiComputeColorInformation K Size Assoc Preset) in
  let mask := snd (MiComputeColorInformation K Size Assoc Preset) in
  let raw := RawColors Size Assoc Preset in
  IsPowerOfTwo colors
  /\ MI_MIN_SECONDARY_COLORS K <= colors <= MI_MAX_SECONDARY_COLORS K
  /\ mask = colors - 1
  /\ (raw = 0 -> colors = MI_SECONDARY_COLORS K)
  /\ (MI_MAX_SECONDARY_COLORS K < raw ->
        colors = MI_MAX_SECONDARY_COLORS K
        \/ ~ IsPowerOfTwo (MI_MAX_SECONDARY_COLORS K)
           /\ colors = MI_SECONDARY_COLORS K)
  /\ (0 < raw < MI_MIN_SECONDARY_COLORS K -> colors = MI_SECONDARY_COLORS K)
  /\ (MI_MIN_SECONDARY_COLORS K <= raw <= MI_MAX_SECONDARY_COLORS K ->
        ~ IsPowerOfTwo raw -> colors = MI_SECONDARY_COLORS K)
  /\ (MI_MIN_SECONDARY_COLORS K <= raw <= MI_MAX_SECONDARY_COLORS K ->
        IsPowerOfTwo raw -> colors = raw)
  /\ (MI_MIN_SECONDARY_COLORS K <= 32 <= MI_MAX_SECONDARY_COLORS K ->
        MiComputeColorInformation K (512 * 1024) 4 0 = (32, 31)).
Proof.
  intros Hmin Hmax Hdef HS HA HP colors mask raw.
  pose proof (RawColors_nonneg Size Assoc Preset HS HA HP) as Hraw.
  fold raw in Hraw.
  assert (Hstep : forall c, MI_MIN_SECONDARY_COLORS K <= c
                            <= MI_MAX_SECONDARY_COLORS K ->
            let r := if negb (Z.land c (ULONG (c - 1)) =? 0)
                     then MI_SECONDARY_COLORS K else c in
            IsPowerOfTwo r
            /\ MI_MIN_SECONDARY_COLORS K <= r <= MI_MAX_SECONDARY_COLORS K
            /\ (IsPowerOfTwo c -> r = c)
            /\ (~ IsPowerOfTwo c -> r = MI_SECONDARY_COLORS K)).
  { intros c Hc r. subst r. rewrite ULONG_small by lia.
    destruct (Z.land c (c - 1) =? 0) eqn:E; simpl.
    - apply Z.eqb_eq in E. pose proof (land_power_of_two c ltac:(lia) E).
      repeat split; auto; try lia. intros Hn. contradiction.
    - apply Z.eqb_neq in E. repeat split; auto; try lia.
      intros Hp. elim E. apply power_of_two_land. exact Hp. }
  assert (Hcolors : colors =
            if raw =? 0 then MI_SECONDARY_COLORS K else
            let c := if raw >? MI_MAX_SECONDARY_COLORS K
                     then MI_MAX_SECONDARY_COLORS K else raw in
            let c := if c <? MI_MIN_SECONDARY_COLORS K
                     then MI_SECONDARY_COLORS K else c in
            if negb (Z.land c (ULONG (c - 1)) =? 0)
            then MI_SECONDARY_COLORS K else c).
  { subst colors raw. unfold MiComputeColorInformation.
    rewrite RawColors_shift. reflexivity. }
  assert (Hmask : mask = ULONG (colors - 1)).
  { subst mask colors. unfold MiComputeColorInformation. reflexivity. }
  assert (Hmain :
    IsPowerOfTwo colors
    /\ MI_MIN_SECONDARY_COLORS K <= colors <= MI_MAX_SECONDARY_COLORS K
    /\ (raw = 0 -> colors = MI_SECONDARY_COLORS K)
    /\ (MI_MAX_SECONDARY_COLORS K < raw ->
          colors = MI_MAX_SECONDARY_COLORS K
          \/ ~ IsPowerOfTwo (MI_MAX_SECONDARY_COLORS K)
             /\ colors = MI_SECONDARY_COLORS K)
    /\ (0 < raw < MI_MIN_SECONDARY_COLORS K -> colors = MI_SECONDARY_COLORS K)
    /\ (MI_MIN_SECONDARY_COLORS K <= raw <= MI_MAX_SECONDARY_COLORS K ->
          ~ IsPowerOfTwo raw -> colors = MI_SECONDARY_COLORS K)
    /\ (MI_MIN_SECONDARY_COLORS K <= raw <= MI_MAX_SECONDARY_COLORS K ->
          IsPowerOfTwo raw -> colors = raw)).
  { rewrite Hcolors. clear Hcolors Hmask.
    destruct (Z.eqb_spec raw 0) as [E0|E0].
    - repeat split; auto; lia.
    - cbv zeta.
      destruct (Z.gtb_spec raw (MI_MAX_SECONDARY_COLORS K)) as [Egt|Egt].
      + destruct (Z.ltb_spec (MI_MAX_SECONDARY_COLORS K)
                             (MI_MIN_SECONDARY_COLORS K)) as [Elt|Elt];
          [lia|].
        destruct (Hstep (MI_MAX_SECONDARY_COLORS K) ltac:(lia))
          as (Hp & Hr & Hk & Hnk).
        repeat split; auto; try lia.
        intros _.
        destruct (Z.land (MI_MAX_SECONDARY_COLORS K)
                    (ULONG (MI_MAX_SECONDARY_COLORS K - 1)) =? 0) eqn:E;
          simpl; [left; reflexivity|right].
        split; [|reflexivity].
        intros Hp'.
        rewrite ULONG_small in E by lia.
        rewrite (power_of_two_land _ Hp') in E. discriminate E.
      + destruct (Z.ltb_spec raw (MI_MIN_SECONDARY_COLORS K)) as [Elt|Elt].
        * destruct (Hstep (MI_SECONDARY_COLORS K) ltac:(lia))
            as (Hp & Hr & Hk & Hnk).
          repeat split; auto; try lia;
            try (intros _; rewrite (Hk Hdef); reflexivity).
        * destruct (Hstep raw ltac:(lia)) as (Hp & Hr & Hk & Hnk).
          repeat split; auto; try lia. }
  destruct Hmain as (H1 & H2 & H3 & H4 & H5 & H6 & H7).
  repeat split; auto; try lia.
  - rewrite Hmask. apply ULONG_small. lia.
  - intros H32. unfold MiComputeColorInformation.
    change (Z.shiftr _ PAGE_SHIFT) with 32. cbv zeta.
    change (32 =? 0) with false. cbv iota.
    destruct (Z.gtb_spec 32 (MI_MAX_SECONDARY_COLORS K)); [lia|].
    destruct (Z.ltb_spec 32 (MI_MIN_SECONDARY_COLORS K)); [lia|].
    reflexivity.
Qed.

Lemma MiComputeColorInformation_power_of_two_witness :
  IsPowerOfTwo (fst (MiComputeColorInformation (MkColorLimits 8 64 1024)
                                               (512 * 1024) 4 0))
  /\ MiComputeColorInformation (MkColorLimits 8 64 1024) (512 * 1024) 4 0
     = (32, 31).
Proof.
  destruct (MiComputeColorInformation_power_of_two
              (MkColorLimits 8 64 1024) (512 * 1024) 4 0)
    as (H1 & _ & _ & _ & _ & _ & _ & _ & H9); simpl; try lia.
  - exists 6. split; [lia|reflexivity].
  - split; [exact H1|]. apply H9. simpl. lia.
Defined.

(** ** Memory thresholds *)

Lemma shiftr_7 (x : Z) : Z.shiftr x 7 = x / 128.
Proof. rewrite Z.shiftr_div_pow2 by lia. reflexivity. Qed.

Lemma shiftr_5 (x : Z) : Z.shiftr x 5 = x / 32.
Proof. rewrite Z.shiftr_div_pow2 by lia. reflexivity. Qed.

Lemma shiftr_12 (x : Z) : Z.shiftr x 12 = x / 4096.
Proof. rewrite Z.shiftr_div_pow2 by lia. reflexivity. Qed.

(** The low threshold that the function computes without a registry
    setting. *)
Lemma MiInitializeMemoryEvents_default_low checked Plenty Pages High :
  0 < Plenty < 2 ^ 31 -> 0 <= Pages < 2 ^ 32 ->
  let low :=
    Z.min (if Pages >? 0x40000
           then (32 * _1MB) / PAGE_SIZE + Z.shiftr (Pages - 0x40000) 7
           else if Pages >? 0x8000
                then Plenty + Z.shiftr (Pages - 0x8000) 5
                else Plenty)
          ((64 * _1MB) / PAGE_SIZE) in
  0 < low <= 16384
  /\ MiInitializeMemoryEvents checked Plenty Pages 0 High =
     (do high <-
        (if negb (High =? 0)
         then Returns (ULONG (High * (_1MB / PAGE_SIZE)))
         else do _ <- ASSERT checked (ULONG (3 * low) >? low);
              Returns (ULONG (3 * low)));
      Returns (low, Z.max high low)).
Proof.
  intros HP Hpages low.
  change (2 ^ 31) with 2147483648 in HP.
  change (2 ^ 32) with 4294967296 in Hpages.
  assert (Hlow : low =
    Z.min (if Pages >? 0x40000
           then ULONG ((32 * _1MB) / PAGE_SIZE
                       + Z.shiftr (ULONG (Pages - 0x40000)) 7)
           else if Pages >? 0x8000
                then ULONG (Plenty + Z.shiftr (ULONG (Pages - 0x8000)) 5)
                else Plenty)
          ((64 * _1MB) / PAGE_SIZE)).
  { subst low. f_equal.
    destruct (Z.gtb_spec Pages 0x40000) as [H1|H1].
    - rewrite (ULONG_small (Pages - 0x40000))
        by (change (2 ^ 32) with 4294967296; lia).
      rewrite ULONG_small; [reflexivity|].
      rewrite shiftr_7. change (32 * _1MB / PAGE_SIZE) with 8192.
      change (2 ^ 32) with 4294967296. lia_div.
    - destruct (Z.gtb_spec Pages 0x8000) as [H2|H2]; [|reflexivity].
      rewrite (ULONG_small (Pages - 0x8000))
        by (change (2 ^ 32) with 4294967296; lia).
      rewrite ULONG_small; [reflexivity|].
      rewrite shiftr_5. change (2 ^ 32) with 4294967296. lia_div. }
  split.
  - subst low. change (64 * _1MB / PAGE_SIZE) with 16384.
    change (32 * _1MB / PAGE_SIZE) with 8192.
    rewrite shiftr_7, shiftr_5.
    destruct (Z.gtb_spec Pages 0x40000);
      [|destruct (Z.gtb_spec Pages 0x8000)]; lia_div.
  - unfold MiInitializeMemoryEvents.
    change (negb (0 =? 0)) with false. cbv iota.
    rewrite <- Hlow. reflexivity.
Qed.

(** C5.  Without registry settings the low threshold is
    [MmPlentyFreePages], or 32 MiB of pages plus [(pages - 0x40000) >> 7]
    above 0x40000 pages, or [MmPlentyFreePages + ((pages - 0x8000) >> 5)]
    above 0x8000 pages, clamped to 64 MiB of pages; the high threshold is
    three times the low one.  524288 pages give 10240 and 30720. *)
Theorem MiInitializeMemoryEvents_default_thresholds (checked : bool)
    (Plenty Pages : Z) :
  0 < Plenty < 2 ^ 31 -> 0 <= Pages < 2 ^ 32 ->
  let low :=
    Z.min (if Pages >? 0x40000
           then (32 * _1MB) / PAGE_SIZE + Z.shiftr (Pages - 0x40000) 7
           else if Pages >? 0x8000
                then Plenty + Z.shiftr (Pages - 0x8000) 5
                else Plenty)
          ((64 * _1MB) / PAGE_SIZE) in
  MiInitializeMemoryEvents checked Plenty Pages 0 0 = Returns (low, 3 * low)
  /\ MiInitializeMemoryEvents checked Plenty 524288 0 0
     = Returns (10240, 30720).
Proof.
  intros HP Hpages low.
  assert (Hgen : forall P, 0 <= P < 2 ^ 32 ->
    let l := Z.min (if P >? 0x40000
                    then (32 * _1MB) / PAGE_SIZE + Z.shiftr (P - 0x40000) 7
                    else if P >? 0x8000
                         then Plenty + Z.shiftr (P - 0x8000) 5
                         else Plenty)
                   ((64 * _1MB) / PAGE_SIZE) in
    MiInitializeMemoryEvents checked Plenty P 0 0 = Returns (l, 3 * l)).
  { intros P HPr l.
    destruct (MiInitializeMemoryEvents_default_low checked Plenty P 0 HP HPr)
      as [Hl Heq].
    fold l in Hl, Heq. rewrite Heq.
    change (negb (0 =? 0)) with false. cbv iota.
    rewrite ULONG_small by (change (2 ^ 32) with 4294967296; lia).
    unfold ASSERT.
    destruct (Z.gtb_spec (3 * l) l) as [_|Hle]; [|lia].
    rewrite andb_false_r. simpl.
    rewrite Z.max_l by lia. reflexivity. }
  split; [apply Hgen; exact Hpages|].
  apply (Hgen 524288). change (2 ^ 32) with 4294967296. lia.
Qed.

Lemma MiInitializeMemoryEvents_default_thresholds_witness :
  MiInitializeMemoryEvents true 400 0x1000 0 0 = Returns (400, 1200)
  /\ MiInitializeMemoryEvents true 400 524288 0 0 = Returns (10240, 30720).
Proof.
  exact (MiInitializeMemoryEvents_default_thresholds true 400 0x1000
           ltac:(change (2 ^ 31) with 2147483648; lia)
           ltac:(change (2 ^ 32) with 4294967296; lia)).
Defined.

(** ** Paged pool *)

Lemma ASSERT_true checked : ASSERT checked true = Returns tt.
Proof. unfold ASSERT. rewrite andb_false_r. reflexivity. Qed.

Lemma BYTES_TO_PAGES_bounds (Size k : Z) :
  0 <= Size <= k * 4096 ->
  Size <= BYTES_TO_PAGES Size * 4096 /\ BYTES_TO_PAGES Size <= k.
Proof.
  intros HS. unfold BYTES_TO_PAGES, PAGE_SHIFT, PAGE_SIZE.
  rewrite shiftr_12.
  change (4096 - 1) with (Z.ones 12). rewrite Z.land_ones by lia.
  change (2 ^ 12) with 4096.
  destruct (Z.eqb_spec (Size mod 4096) 0) as [E|E]; simpl; lia_div.
Qed.

Lemma RtlTestBit_set_clear (Buffer : list bool) (n i : Z) :
  0 <= i < Z.of_nat (length Buffer) ->
  RtlTestBit (RtlClearBits (RtlSetAllBits (RtlInitializeBitMap Buffer n))
                           0 1024) i
  = negb (i <? 1024).
Proof.
  intros Hi. unfold RtlTestBit, RtlClearBits, RtlSetAllBits,
    RtlInitializeBitMap. simpl.
  destruct (Z.ltb_spec i 0) as [?|_]; [lia|].
  rewrite list_lookup_imap.
  change (map (fun _ : bool => true) Buffer)
    with ((fun _ : bool => true) <$> Buffer).
  rewrite list_lookup_fmap.
  destruct (Buffer !! Z.to_nat i) as [b|] eqn:E.
  - simpl. rewrite Z2Nat.id by lia. change (0 + 1024) with 1024.
    destruct (Z.leb_spec 0 i); [|lia].
    destruct (Z.ltb_spec i 1024); reflexivity.
  - apply lookup_ge_None in E. lia.
Qed.

Lemma RtlTestBit_clear_all (Buffer : list bool) (n i : Z) :
  RtlTestBit (RtlClearAllBits (RtlInitializeBitMap Buffer n)) i = false.
Proof.
  unfold RtlTestBit, RtlClearAllBits, RtlInitializeBitMap. simpl.
  destruct (i <? 0); [reflexivity|].
  change (map (fun _ : bool => false) Buffer)
    with ((fun _ : bool => false) <$> Buffer).
  rewrite list_lookup_fmap.
  destruct (Buffer !! Z.to_nat i); reflexivity.
Qed.

(** With a well-formed window and successful allocations the function
    returns; [q] is the number of page tables that the pool spans. *)
Lemma MiBuildPagedPool_returns (checked : bool)
    (Max NonPagedSystemStart PagedPoolStart : Z) (Fresh1 Fresh2 : nat -> bool) :
  PagedPoolWindow NonPagedSystemStart PagedPoolStart ->
  exists p q,
    MiBuildPagedPool checked Max NonPagedSystemStart PagedPoolStart
                     true true Fresh1 Fresh2 = Returns p
    /\ 8 <= q <= 1023
    /\ MmSizeOfPagedPoolInBytes p = q * 0x400000
    /\ MmSizeOfPagedPoolInPages p = q * 1024
    /\ PagedPoolStart + MmSizeOfPagedPoolInBytes p <= NonPagedSystemStart
    /\ PagedPoolAllocationMap p =
       RtlClearBits
         (RtlSetAllBits
            (RtlInitializeBitMap
               (map Fresh1 (seq 0 (Z.to_nat (q * 1024)))) (q * 1024)))
         0 1024
    /\ EndOfPagedPoolBitmap p =
       RtlClearAllBits
         (RtlInitializeBitMap
            (map Fresh2 (seq 0 (Z.to_nat (q * 1024)))) (q * 1024))
    /\ MiLowPagedPoolThreshold p = Z.min 7680 ((8 + q * 128) / 5)
    /\ MiHighPagedPoolThreshold p = Z.min 15360 ((8 + q * 128) * 2 / 5).
Proof.
  intros (Hstart & Hend & k & Hk & Hwin).
  change (2 ^ 32) with 4294967296 in Hend.
  change 0x400000 with 4194304 in Hwin.
  unfold MiBuildPagedPool. cbv zeta.
  set (q := ULONG (BYTES_TO_PAGES _ + (1024 - 1)) / 1024).
  assert (Hq : 8 <= q <= k).
  { subst q.
    match goal with |- context [BYTES_TO_PAGES ?s] => set (S0 := s) end.
    assert (HS0 : 33554432 <= S0 <= k * 1024 * 4096).
    { subst S0. change MI_MIN_INIT_PAGED_POOLSIZE with 33554432.
      rewrite (ULONG_small (NonPagedSystemStart - PagedPoolStart))
        by (change (2 ^ 32) with 4294967296; lia).
      pose proof (ULONG_range (2 * Max)) as HM.
      destruct (Z.gtb_spec (ULONG (2 * Max))
                           (NonPagedSystemStart - PagedPoolStart));
        match goal with |- context [?a <? 33554432] =>
          destruct (Z.ltb_spec a 33554432) end; lia. }
    destruct (BYTES_TO_PAGES_bounds S0 (k * 1024) ltac:(lia)) as [Hlo Hhi].
    rewrite ULONG_small by (change (2 ^ 32) with 4294967296; lia).
    lia_div. }
  clearbody q.
  assert (E1 : ULONG (q * PAGE_SIZE * 1024) = q * 4194304)
    by (unfold PAGE_SIZE; rewrite ULONG_small;
        change (2 ^ 32) with 4294967296; lia).
  rewrite E1.
  assert (E2 : Z.shiftr (q * 4194304) PAGE_SHIFT = q * 1024)
    by (unfold PAGE_SHIFT; rewrite shiftr_12; lia_div).
  rewrite E2.
  assert (E3 : ULONG (q * 1024) = q * 1024)
    by (rewrite ULONG_small; change (2 ^ 32) with 4294967296; lia).
  rewrite E3.
  assert (E4 : ULONG (8 + ULONG (ULONG (q * 1024 + 31) / 32 * 4))
               = 8 + q * 128).
  { rewrite (ULONG_small (q * 1024 + 31))
      by (change (2 ^ 32) with 4294967296; lia).
    assert ((q * 1024 + 31) / 32 = q * 32) as -> by lia_div.
    rewrite (ULONG_small (q * 32 * 4))
      by (change (2 ^ 32) with 4294967296; lia).
    rewrite ULONG_small by (change (2 ^ 32) with 4294967296; lia).
    lia. }
  rewrite E4.
  assert (E5 : (ULONG (q * 4194304 + PagedPoolStart) <=? NonPagedSystemStart)
               = true).
  { rewrite ULONG_small by (change (2 ^ 32) with 4294967296; lia).
    apply Z.leb_le. lia. }
  rewrite E5, Z.eqb_refl, !ASSERT_true.
  assert (E6 : ULONG ((8 + q * 128) * 2) = (8 + q * 128) * 2)
    by (rewrite ULONG_small; change (2 ^ 32) with 4294967296; lia).
  rewrite E6.
  change (Z.shiftr (30 * _1MB) PAGE_SHIFT) with 7680.
  change (Z.shiftr (60 * _1MB) PAGE_SHIFT) with 15360.
  assert (E7 : (Z.min 7680 ((8 + q * 128) / 5)
                <? Z.min 15360 ((8 + q * 128) * 2 / 5)) = true)
    by (apply Z.ltb_lt; lia_div).
  unfold BitMapAllocation.
  replace ((8 + q * 128 - 8) * 8) with (q * 1024) by lia.
  simpl obind. rewrite E7, ASSERT_true. simpl obind.
  eexists _, q. split; [reflexivity|]. simpl.
  repeat split; try reflexivity; lia.
Qed.

(** C9.  With a well-formed paged pool window and successful pool
    allocations, [MiBuildPagedPool] leaves two bitmaps whose length is
    [MmSizeOfPagedPoolInPages]; in the allocation map the bits 0 to 1023
    are clear and every other bit is set, and in the end-of-allocation map
    every bit is clear. *)
Theorem MiBuildPagedPool_bitmaps (checked : bool)
    (Max NonPagedSystemStart PagedPoolStart : Z) (Fresh1 Fresh2 : nat -> bool) :
  PagedPoolWindow NonPagedSystemStart PagedPoolStart ->
  exists p,
    MiBuildPagedPool checked Max NonPagedSystemStart PagedPoolStart
                     true true Fresh1 Fresh2 = Returns p
    /\ SizeOfBitMap (PagedPoolAllocationMap p) = MmSizeOfPagedPoolInPages p
    /\ SizeOfBitMap (EndOfPagedPoolBitmap p) = MmSizeOfPagedPoolInPages p
    /\ Z.of_nat (length (Bits (PagedPoolAllocationMap p)))
       = MmSizeOfPagedPoolInPages p
    /\ Z.of_nat (length (Bits (EndOfPagedPoolBitmap p)))
       = MmSizeOfPagedPoolInPages p
    /\ 8192 <= MmSizeOfPagedPoolInPages p
    /\ (forall i, 0 <= i < MmSizeOfPagedPoolInPages p ->
          RtlTestBit (PagedPoolAllocationMap p) i = negb (i <? 1024))
    /\ (forall i, 0 <= i < MmSizeOfPagedPoolInPages p ->
          RtlTestBit (EndOfPagedPoolBitmap p) i = false).
Proof.
  intros Hwin.
  destruct (MiBuildPagedPool_returns checked Max NonPagedSystemStart
              PagedPoolStart Fresh1 Fresh2 Hwin)
    as (p & q & Hp & Hq & _ & Hpages & _ & Hmap & Hend & _).
  exists p. split; [exact Hp|].
  rewrite Hmap, Hend, Hpages.
  assert (Hlen : forall F : nat -> bool,
             Z.of_nat (length (map F (seq 0 (Z.to_nat (q * 1024)))))
             = q * 1024).
  { intros F. rewrite length_map, length_seq. lia. }
  repeat split; try reflexivity; try lia.
  - simpl. rewrite length_imap, length_map. apply Hlen.
  - simpl. rewrite length_map. apply Hlen.
  - intros i Hi. apply RtlTestBit_set_clear. rewrite Hlen. exact Hi.
  - intros i Hi. apply RtlTestBit_clear_all.
Qed.

Lemma MiBuildPagedPool_bitmaps_witness :
  exists p,
    MiBuildPagedPool true 0x8000000 0xEB000000 0xE1000000 true true
                     (fun _ => false) (fun _ => true) = Returns p
    /\ RtlTestBit (PagedPoolAllocationMap p) 1023 = false
    /\ RtlTestBit (PagedPoolAllocationMap p) 1024 = true
    /\ RtlTestBit (EndOfPagedPoolBitmap p) 1024 = false.
Proof.
  destruct (MiBuildPagedPool_bitmaps true 0x8000000 0xEB000000 0xE1000000
              (fun _ => false) (fun _ => true))
    as (p & Hp & _ & _ & _ & _ & Hsize & Hmap & Hend).
  - split; [lia|]. split; [reflexivity|].
    exists 40. split; [lia|reflexivity].
  - exists p. split; [exact Hp|].
    rewrite (Hmap 1023), (Hmap 1024), (Hend 1024) by lia.
    repeat split; reflexivity.
Defined.

Lemma MiInitializeMemoryEvents_shape checked Plenty Pages Low High :
  exists low,
    (checked = true /\ High = 0
     /\ MiInitializeMemoryEvents checked Plenty Pages Low High
        = AssertionFailure)
    \/ exists h, MiInitializeMemoryEvents checked Plenty Pages Low High
                 = Returns (low, Z.max h low).
Proof.
  unfold MiInitializeMemoryEvents.
  match goal with |- context [Returns (?l, _)] => exists l; set (low := l) end.
  destruct (Z.eqb_spec High 0) as [E|E]; simpl.
  - unfold ASSERT. destruct checked; simpl.
    + destruct (ULONG (3 * low) >? low); simpl; eauto.
    + eauto.
  - eauto.
Qed.

(** What the two functions do establish.  The high memory threshold is
    never below the low one: on a free build the computation returns for
    every setting, and whenever it returns [low <= high].  Without registry
    settings the high threshold is strictly above the low one.  After
    [MiBuildPagedPool] the high paged pool threshold is strictly above the
    low one. *)
Theorem MemoryThresholds_ordered (checked : bool)
    (Plenty Pages Low High : Z) :
  0 < Plenty < 2 ^ 31 -> 0 <= Pages < 2 ^ 32 ->
  (forall low high,
     MiInitializeMemoryEvents checked Plenty Pages Low High
       = Returns (low, high) -> low <= high)
  /\ (exists low high,
        MiInitializeMemoryEvents false Plenty Pages Low High
          = Returns (low, high) /\ low <= high)
  /\ (Low = 0 -> High = 0 ->
      exists low high,
        MiInitializeMemoryEvents checked Plenty Pages Low High
          = Returns (low, high) /\ low < high)
  /\ (forall Max NonPagedSystemStart PagedPoolStart Fresh1 Fresh2,
        PagedPoolWindow NonPagedSystemStart PagedPoolStart ->
        exists p,
          MiBuildPagedPool checked Max NonPagedSystemStart PagedPoolStart
                           true true Fresh1 Fresh2 = Returns p
          /\ MiLowPagedPoolThreshold p < MiHighPagedPoolThreshold p).
Proof.
  intros HP Hpages. split; [|split; [|split]].
  - intros low high H.
    destruct (MiInitializeMemoryEvents_shape checked Plenty Pages Low High)
      as (l & [(_ & _ & Hf)|(h & Hr)]); rewrite H in *; [discriminate Hf|].
    injection Hr as -> ->. lia.
  - destruct (MiInitializeMemoryEvents_shape false Plenty Pages Low High)
      as (l & [(Hc & _)|(h & Hr)]); [discriminate Hc|].
    exists l, (Z.max h l). split; [exact Hr|lia].
  - intros -> ->.
    destruct (MiInitializeMemoryEvents_default_low checked Plenty Pages 0
                HP Hpages) as [Hl Heq].
    cbv zeta in Hl, Heq. rewrite Heq.
    change (negb (0 =? 0)) with false. cbv iota.
    rewrite ULONG_small by (change (2 ^ 32) with 4294967296; lia).
    unfold ASSERT.
    match goal with
    | |- context [3 * ?l >? ?l] =>
        destruct (Z.gtb_spec (3 * l) l) as [_|Hle]; [|lia]
    end.
    rewrite andb_false_r. simpl.
    eexists _, _. split; [reflexivity|]. lia.
  - intros Max NPS PPS F1 F2 Hwin.
    destruct (MiBuildPagedPool_returns checked Max NPS PPS F1 F2 Hwin)
      as (p & q & Hp & Hq & _ & _ & _ & _ & _ & Hlo & Hhi).
    exists p. split; [exact Hp|]. rewrite Hlo, Hhi. lia_div.
Qed.

Lemma MemoryThresholds_ordered_witness :
  (exists low high,
     MiInitializeMemoryEvents false 400 0x8000 2 1 = Returns (low, high)
     /\ low <= high)
  /\ (exists low high,
        MiInitializeMemoryEvents true 400 0x8000 0 0 = Returns (low, high)
        /\ low < high).
Proof.
  destruct (MemoryThresholds_ordered true 400 0x8000 0 0)
    as (_ & _ & H3 & _);
    [change (2 ^ 31) with 2147483648; lia
    |change (2 ^ 32) with 4294967296; lia|].
  destruct (MemoryThresholds_ordered false 400 0x8000 2 1)
    as (_ & H2 & _);
    [change (2 ^ 31) with 2147483648; lia
    |change (2 ^ 32) with 4294967296; lia|].
  split; [exact H2|]. apply H3; reflexivity.
Defined.

(** On the path without a [HighMemoryThreshold] setting the function
    asserts [MmHighMemoryThreshold > MmLowMemoryThreshold]: on a checked
    build it returns from that path only with the high threshold strictly
    above the low one, whatever the [LowMemoryThreshold] setting. *)
Lemma MiInitializeMemoryEvents_asserted_strict (Plenty Pages Low low high : Z) :
  MiInitializeMemoryEvents true Plenty Pages Low 0 = Returns (low, high) ->
  low < high.
Proof.
  unfold MiInitializeMemoryEvents.
  match goal with |- context [Returns (?l, _)] => set (l0 := l) end.
  change (negb (0 =? 0)) with false. cbv iota.
  unfold ASSERT. cbn [andb].
  destruct (Z.gtb_spec (ULONG (3 * l0)) l0) as [Hgt | Hle]; cbn [negb obind].
  - intros H. injection H as <- <-. lia.
  - discriminate.
Qed.

(** C6.  The high memory threshold is not strictly above the low one for
    every input.  With [LowMemoryThreshold = 2] and
    [HighMemoryThreshold = 1] (megabytes) the function computes 512 and 256
    pages and the final [max] raises the high threshold to the low one: on
    either build it goes on with both thresholds at 512 pages.  Without a
    [HighMemoryThreshold] setting the function asserts [high > low]; with
    [LowMemoryThreshold = 0x600000] the product [3 * low] wraps around, a
    checked build stops in the assertion and a free build goes on with
    equal thresholds.  All that holds whenever the function returns is
    [low <= high]. *)
Theorem MiInitializeMemoryEvents_thresholds_not_strict :
  (forall checked,
     MiInitializeMemoryEvents checked 400 0x8000 2 1 = Returns (512, 512))
  /\ MiInitializeMemoryEvents true 400 0x8000 0x600000 0 = AssertionFailure
  /\ MiInitializeMemoryEvents false 400 0x8000 0x600000 0
     = Returns (0x60000000, 0x60000000)
  /\ (forall checked Plenty Pages Low High low high,
        MiInitializeMemoryEvents checked Plenty Pages Low High
          = Returns (low, high) -> low <= high).
Proof.
  split; [|split; [|split]].
  - intros checked. destruct checked; reflexivity.
  - reflexivity.
  - reflexivity.
  - intros checked Plenty Pages Low High low high H.
    destruct (MiInitializeMemoryEvents_shape checked Plenty Pages Low High)
      as (l & [(_ & _ & Hf)|(h & Hr)]); rewrite H in *; [discriminate Hf|].
    injection Hr as -> ->. lia.
Qed.

(** ** The physical memory block *)

(** The descriptors in list order [Free(100,100); Free(0,100)]: two runs,
    the second below the first, although the two ranges touch. *)
Lemma MmInitializeMemoryLimits_unsorted_list :
  exists b,
    MmInitializeMemoryLimits true true true (MkRun 0 0) 2
      [MkDescriptor LoaderFree 100 100; MkDescriptor LoaderFree 0 100]
      (fun _ => true) = Returns (Some b)
    /\ RunsOf b = [MkRun 100 100; MkRun 0 100]
    /\ ~ RunsSortedMaximal (RunsOf b).
Proof.
  eexists. split; [reflexivity|]. split; [reflexivity|].
  unfold RunsSortedMaximal. simpl. unfold RunEnd. simpl. lia.
Qed.

Lemma RunStore_middle done cur rest f :
  RunStore (done ++ cur :: rest) (Z.of_nat (length done)) f
  = Returns (done ++ f cur :: rest).
Proof.
  unfold RunStore.
  rewrite length_app. simpl length.
  destruct (Z.leb_spec 0 (Z.of_nat (length done))); [|lia].
  destruct (Z.ltb_spec (Z.of_nat (length done))
                       (Z.of_nat (length done + S (length rest)))); [|lia].
  simpl. rewrite Nat2Z.id.
  rewrite list_lookup_middle by reflexivity.
  rewrite insert_app_r_alt by lia.
  replace (length done - length done)%nat with O by lia. reflexivity.
Qed.

Lemma AscendingFrom_sum l : forall e,
  AscendingFrom e l -> Forall ValidRange l -> e < 2 ^ 32 ->
  e + SumPageCount l < 2 ^ 32.
Proof.
  induction l as [|d l IH]; intros e Ha Hv He; simpl in *; [lia|].
  destruct Ha as [Hb Ha]. inversion Hv as [|? ? [Hc Hd] Hl]; subst.
  specialize (IH _ Ha Hl Hd). lia.
Qed.

Lemma SumPageCount_ranges_nonneg l :
  Forall ValidRange l -> 0 <= SumPageCount l.
Proof.
  induction 1 as [|d l [Hc _] _ IH]; simpl; lia.
Qed.

Lemma Included_cons Inc d l :
  Included Inc (d :: l) =
  if Inc (MemoryType d) then d :: Included Inc l else Included Inc l.
Proof. reflexivity. Qed.

Lemma CoalesceFrom_length cur l :
  (1 <= length (CoalesceFrom cur l) <= S (length l))%nat.
Proof.
  revert cur. induction l as [|d l IH]; intros cur; simpl; [lia|].
  destruct (BasePage d =? RunEnd cur); simpl.
  - specialize (IH (MkRun (RunBasePage cur) (RunPageCount cur + PageCount d))).
    lia.
  - specialize (IH (MkRun (BasePage d) (PageCount d))). lia.
Qed.

Lemma Included_length Inc l : (length (Included Inc l) <= length l)%nat.
Proof.
  induction l as [|d l IH]; simpl; [lia|].
  destruct (Inc (MemoryType d)); simpl; lia.
Qed.

(** The loop, once a first run is open: the buffer holds the closed runs
    [done], the open run [cur] and the unused elements [rest]. *)
Lemma MmLimitsLoop_open_run checked Inc l : forall done cur rest total,
  Forall ValidRange (Included Inc l) ->
  AscendingFrom (RunEnd cur) (Included Inc l) ->
  0 <= RunBasePage cur -> 0 < RunPageCount cur -> RunEnd cur < 2 ^ 32 ->
  0 <= total ->
  total + SumPageCount (Included Inc l) < 2 ^ 32 ->
  (length l <= length rest)%nat ->
  Z.of_nat (length done + 1 + length rest) < 2 ^ 32 ->
  exists rest' next,
    MmLimitsLoop checked Inc l
      (MkLimitsLoop (Z.of_nat (length done) + 1) (RunEnd cur) total
                    (done ++ cur :: rest))
    = Returns
        (MkLimitsLoop
           (Z.of_nat (length (done ++ CoalesceFrom cur (Included Inc l))))
           next (total + SumPageCount (Included Inc l))
           ((done ++ CoalesceFrom cur (Included Inc l)) ++ rest'))
    /\ length ((done ++ CoalesceFrom cur (Included Inc l)) ++ rest')
       = length (done ++ cur :: rest).
Proof.
  induction l as [|d l IH];
    intros done cur rest total Hv Ha Hb Hc He Ht Hsum Hlen Hcap.
  - simpl. exists rest, (RunEnd cur). split.
    + rewrite length_app, Z.add_0_r. simpl length.
      rewrite <- app_assoc. simpl.
      repeat f_equal. lia.
    + rewrite <- app_assoc. reflexivity.
  - rewrite Included_cons in *. simpl MmLimitsLoop.
    unfold MmLimitsDescriptor. simpl LoopBuffer. simpl LoopRun.
    simpl LoopNextPage. simpl LoopPageCount.
    simpl length in Hlen.
    destruct (Inc (MemoryType d)) eqn:EInc.
    + (* an included descriptor *)
      inversion Hv as [|? ? [Hdc Hde] Hvl]; subst.
      simpl in Ha. destruct Ha as [Hge Ha].
      simpl SumPageCount in Hsum.
      pose proof (SumPageCount_ranges_nonneg _ Hvl) as Hnn.
      rewrite (ULONG_small (total + PageCount d)) by lia.
      destruct (Z.eqb_spec (BasePage d) (RunEnd cur)) as [Eq|Ne].
      * (* it extends the open run *)
        simpl CoalesceFrom.
        destruct (Z.eqb_spec (BasePage d) (RunEnd cur)) as [_|]; [|lia].
        replace (negb (PageCount d =? 0)) with true
          by (symmetry; apply negb_true_iff, Z.eqb_neq; lia).
        rewrite ASSERT_true. simpl obind.
        replace (ULONG (Z.of_nat (length done) + 1 - 1))
          with (Z.of_nat (length done)) by (rewrite ULONG_small; lia).
        rewrite RunStore_middle. simpl obind.
        assert (Hend : RunEnd cur + PageCount d < 2 ^ 32) by lia.
        rewrite (ULONG_small (RunPageCount cur + PageCount d))
          by (unfold RunEnd in *; lia).
        rewrite (ULONG_small (RunEnd cur + PageCount d))
          by (unfold RunEnd in *; lia).
        set (cur' := MkRun (RunBasePage cur) (RunPageCount cur + PageCount d)).
        destruct rest as [|x rest]; [simpl in Hlen; lia|].
        destruct (IH done cur' (x :: rest) (total + PageCount d))
          as (rest' & next & Hrun & Hl'); try assumption;
          try (unfold cur', RunEnd in *; simpl in *; lia).
        { replace (RunEnd cur') with (BasePage d + PageCount d)
            by (unfold RunEnd, cur' in *; simpl; lia).
          exact Ha. }
        exists rest', next.
        replace (RunEnd cur + PageCount d) with (RunEnd cur')
          by (unfold RunEnd, cur'; simpl; lia).
        rewrite Hrun. split.
        -- do 2 f_equal. simpl. lia.
        -- rewrite Hl'. rewrite !length_app. reflexivity.
      * (* it opens a new run *)
        simpl CoalesceFrom.
        destruct (Z.eqb_spec (BasePage d) (RunEnd cur)) as [|_]; [lia|].
        destruct rest as [|x rest]; [simpl in Hlen; lia|].
        replace (done ++ cur :: x :: rest) with ((done ++ [cur]) ++ x :: rest)
          by (rewrite <- app_assoc; reflexivity).
        replace (Z.of_nat (length done) + 1)
          with (Z.of_nat (length (done ++ [cur])))
          by (rewrite length_app; simpl; lia).
        rewrite RunStore_middle. simpl obind.
        rewrite (ULONG_small (Z.of_nat (length (done ++ [cur])) + 1))
          by (rewrite length_app in *; simpl in *; lia).
        rewrite (ULONG_small (BasePage d + PageCount d))
          by (unfold RunEnd in *; lia).
        set (cur' := MkRun (BasePage d) (PageCount d)).
        destruct (IH (done ++ [cur]) cur' rest (total + PageCount d))
          as (rest' & next & Hrun & Hl'); try assumption;
          try (unfold cur', RunEnd in *; rewrite ?length_app in *;
               simpl in *; lia).
        exists rest', next.
        change (BasePage d + PageCount d) with (RunEnd cur').
        rewrite Hrun.
        rewrite <- !app_assoc in *. simpl in *. split.
        -- do 2 f_equal. simpl. lia.
        -- rewrite Hl', !length_app. reflexivity.
    + (* a descriptor that is left out *)
      simpl obind.
      destruct rest as [|x rest]; [simpl in Hlen; lia|].
      destruct (IH done cur (x :: rest) total)
        as (rest' & next & Hrun & Hl'); try assumption.
      { simpl in *. lia. }
      exists rest', next. split; [exact Hrun|exact Hl'].
Qed.

(** The loop from its initial state, on a buffer with one element per
    descriptor. *)
Lemma MmLimitsLoop_start checked Inc l : forall buf,
  Forall ValidRange (Included Inc l) ->
  AscendingFrom 0 (Included Inc l) ->
  (length l <= length buf)%nat ->
  Z.of_nat (length buf) < 2 ^ 32 ->
  exists rest' next,
    MmLimitsLoop checked Inc l (MkLimitsLoop 0 MINUS_ONE 0 buf)
    = Returns
        (MkLimitsLoop (Z.of_nat (length (Coalesce (Included Inc l)))) next
           (SumPageCount (Included Inc l))
           (Coalesce (Included Inc l) ++ rest'))
    /\ length (Coalesce (Included Inc l) ++ rest') = length buf.
Proof.
  induction l as [|d l IH]; intros buf Hv Ha Hlen Hcap.
  - exists buf, MINUS_ONE. split; reflexivity.
  - rewrite Included_cons in *. simpl MmLimitsLoop.
    unfold MmLimitsDescriptor. simpl LoopBuffer. simpl LoopRun.
    simpl LoopNextPage. simpl LoopPageCount.
    simpl length in Hlen.
    destruct (Inc (MemoryType d)) eqn:EInc.
    + inversion Hv as [|? ? [Hdc Hde] Hvl]; subst.
      pose proof (AscendingFrom_sum _ 0 Ha Hv ltac:(lia)) as Hsum.
      simpl in Ha. destruct Ha as [Hge Ha].
      change MINUS_ONE with 4294967295.
      change (2 ^ 32) with 4294967296 in *.
      destruct (Z.eqb_spec (BasePage d) 4294967295) as [|_]; [lia|].
      destruct buf as [|x rest]; [simpl in Hlen; lia|].
      change (x :: rest) with ([] ++ x :: rest).
      change 0 with (Z.of_nat (length (@nil PHYSICAL_MEMORY_RUN))) at 2.
      rewrite RunStore_middle. simpl obind. simpl length.
      change (Z.of_nat 0) with 0.
      rewrite (ULONG_small (0 + 1))
        by (change (2 ^ 32) with 4294967296; lia).
      rewrite (ULONG_small (0 + PageCount d))
        by (change (2 ^ 32) with 4294967296; simpl in Hsum; lia).
      rewrite (ULONG_small (BasePage d + PageCount d))
        by (change (2 ^ 32) with 4294967296; lia).
      set (cur := MkRun (BasePage d) (PageCount d)).
      destruct (MmLimitsLoop_open_run checked Inc l [] cur rest
                  (0 + PageCount d))
        as (rest' & next & Hrun & Hl'); try assumption;
        try (change (2 ^ 32) with 4294967296;
             unfold cur, RunEnd in *; simpl in *; lia).
      exists rest', next. simpl in Hrun, Hl'.
      change (BasePage d + PageCount d) with (RunEnd cur).
      change (0 + 1) with (Z.of_nat 0 + 1). rewrite Hrun.
      split; [|exact Hl']. simpl. do 2 f_equal.
    + simpl obind. apply IH; try assumption. lia.
Qed.

Lemma CoalesceFrom_sorted l : forall cur e,
  AscendingFrom (RunEnd cur) l -> Forall ValidRange l ->
  e <= RunBasePage cur -> 0 < RunPageCount cur ->
  RunsSortedMaximalFrom e (CoalesceFrom cur l).
Proof.
  induction l as [|d l IH]; intros cur e Ha Hv He Hc; simpl.
  - auto.
  - destruct Ha as [Hge Ha]. inversion Hv as [|? ? [Hdc Hde] Hvl]; subst.
    destruct (Z.eqb_spec (BasePage d) (RunEnd cur)) as [Eq|Ne].
    + apply IH; simpl; try assumption; try lia.
      unfold RunEnd in *. simpl.
      replace (RunBasePage cur + (RunPageCount cur + PageCount d))
        with (BasePage d + PageCount d) by lia.
      exact Ha.
    + simpl. repeat split; try assumption.
      apply IH; simpl; try assumption; lia.
Qed.

Lemma CoalesceFrom_pages l : forall cur x,
  0 <= RunPageCount cur -> Forall ValidRange l ->
  PageInRuns x (CoalesceFrom cur l) <->
  (RunBasePage cur <= x < RunEnd cur) \/ PageInDescriptors x l.
Proof.
  induction l as [|d l IH]; intros cur x Hc Hv; simpl.
  - split.
    + intros (r & [<-|[]] & Hr). left. exact Hr.
    + intros [Hr|(d & [] & _)]. exists cur. split; [left; reflexivity|exact Hr].
  - inversion Hv as [|? ? [Hdc Hde] Hvl]; subst.
    destruct (Z.eqb_spec (BasePage d) (RunEnd cur)) as [Eq|Ne].
    + rewrite IH by (simpl; try assumption; lia).
      unfold RunEnd in *. simpl. split.
      * intros [Hr|(d' & Hin & Hd')].
        -- destruct (Z.lt_ge_cases x (BasePage d)) as [Hlt|Hge'].
           ++ left. lia.
           ++ right. exists d. split; [left; reflexivity|lia].
        -- right. exists d'. split; [right; exact Hin|exact Hd'].
      * intros [Hr|(d' & [<-|Hin] & Hd')].
        -- left. lia.
        -- left. lia.
        -- right. exists d'. split; assumption.
    + split.
      * intros (r & [<-|Hin] & Hr).
        -- left. exact Hr.
        -- right.
           assert (Hp : PageInRuns x
                          (CoalesceFrom (MkRun (BasePage d) (PageCount d)) l))
             by (exists r; split; assumption).
           apply IH in Hp; [|simpl; lia|assumption].
           destruct Hp as [Hr'|(d' & Hin' & Hd')].
           ++ exists d. split; [left; reflexivity|exact Hr'].
           ++ exists d'. split; [right; exact Hin'|exact Hd'].
      * intros [Hr|(d' & Hin & Hd')].
        -- exists cur. split; [left; reflexivity|exact Hr].
        -- assert (Hp : PageInRuns x
                          (CoalesceFrom (MkRun (BasePage d) (PageCount d)) l)).
           { apply IH; [simpl; lia|assumption|].
             destruct Hin as [<-|Hin].
             - left. exact Hd'.
             - right. exists d'. split; assumption. }
           destruct Hp as (r & Hin' & Hr').
           exists r. split; [right; exact Hin'|exact Hr'].
Qed.

(** C7.  When the descriptors selected by [IncludeType]
    appear in the list in ascending order without overlap (each a nonempty
    range below page 2^32 - 1) and the pool allocation succeeds,
    [MmInitializeMemoryLimits] returns a block whose runs are sorted by
    base and maximal (selected descriptors that touch are merged, no two
    runs touch), that covers exactly the pages of the selected
    descriptors, and whose page total is the sum of their page counts. *)
Theorem MmInitializeMemoryLimits_ascending_list (checked Alloc2 : bool)
    (Pool : PHYSICAL_MEMORY_RUN) (LoaderBlock : LOADER_PARAMETER_BLOCK)
    (IncludeType : TYPE_OF_MEMORY -> bool) :
  Forall ValidRange (Included IncludeType LoaderBlock) ->
  AscendingFrom 0 (Included IncludeType LoaderBlock) ->
  Z.of_nat (length LoaderBlock) < 2 ^ 32 ->
  exists b,
    MmInitializeMemoryLimits checked true Alloc2 Pool
      (Z.of_nat (length LoaderBlock)) LoaderBlock IncludeType
    = Returns (Some b)
    /\ RunsOf b = Coalesce (Included IncludeType LoaderBlock)
    /\ RunsSortedMaximal (RunsOf b)
    /\ (forall x, PageInRuns x (RunsOf b) <->
                  PageInDescriptors x (Included IncludeType LoaderBlock))
    /\ NumberOfPages b = SumPageCount (Included IncludeType LoaderBlock)
    /\ NumberOfRuns b = Z.of_nat (length (RunsOf b)).
Proof.
  intros Hv Ha Hcap.
  unfold MmInitializeMemoryLimits. simpl negb. cbv iota.
  rewrite Nat2Z.id.
  destruct (MmLimitsLoop_start checked IncludeType LoaderBlock
              (replicate (length LoaderBlock) Pool))
    as (rest' & next & Hrun & Hlen); try assumption;
    try (rewrite length_replicate; lia).
  rewrite Hrun. simpl obind. simpl LoopRun. simpl LoopBuffer.
  simpl LoopPageCount.
  set (runs := Coalesce (Included IncludeType LoaderBlock)) in *.
  rewrite length_replicate, length_app in Hlen.
  replace (Z.of_nat (length runs) <=? Z.of_nat (length LoaderBlock)) with true
    by (symmetry; apply Z.leb_le; lia).
  rewrite ASSERT_true. simpl obind.
  eexists. split; [reflexivity|].
  assert (Hruns : RunsOf
            {| NumberOfRuns := Z.of_nat (length runs);
               NumberOfPages := SumPageCount (Included IncludeType LoaderBlock);
               Run := if (Z.of_nat (length LoaderBlock)
                          >? Z.of_nat (length runs)) && Alloc2
                      then take (Z.to_nat (Z.of_nat (length runs)))
                                (runs ++ rest')
                      else runs ++ rest' |} = runs).
  { unfold RunsOf. simpl. rewrite Nat2Z.id.
    destruct ((Z.of_nat (length LoaderBlock) >? Z.of_nat (length runs))
              && Alloc2).
    - rewrite take_idemp. apply take_app_length.
    - apply take_app_length. }
  rewrite Hruns.
  split; [reflexivity|]. split; [|split; [|split]].
  - subst runs. unfold RunsSortedMaximal, Coalesce.
    destruct (Included IncludeType LoaderBlock) as [|d l]; [exact I|].
    simpl in Ha. destruct Ha as [Hge Ha].
    inversion Hv as [|? ? [Hdc Hde] Hvl]; subst.
    apply CoalesceFrom_sorted; simpl; assumption.
  - intros x. subst runs. unfold Coalesce.
    destruct (Included IncludeType LoaderBlock) as [|d l].
    + split; [intros (r & [] & _)|intros (d & [] & _)].
    + inversion Hv as [|? ? [Hdc Hde] Hvl]; subst.
      rewrite CoalesceFrom_pages by (simpl; try assumption; lia).
      unfold RunEnd. simpl. split.
      * intros [Hr|(d' & Hin & Hd')].
        -- exists d. split; [left; reflexivity|exact Hr].
        -- exists d'. split; [right; exact Hin|exact Hd'].
      * intros (d' & [<-|Hin] & Hd').
        -- left. exact Hd'.
        -- right. exists d'. split; assumption.
  - reflexivity.
  - reflexivity.
Qed.

(** The coalescing scenario: four descriptors that touch, all selected,
    give the single run (0, 350). *)
Lemma MmInitializeMemoryLimits_ascending_list_witness :
  exists b,
    MmInitializeMemoryLimits true true true (MkRun 0 0) 4
      [MkDescriptor LoaderFree 0 100; MkDescriptor LoaderFree 100 100;
       MkDescriptor LoaderBootDriver 200 50; MkDescriptor LoaderFree 250 100]
      (fun _ => true) = Returns (Some b)
    /\ RunsOf b = [MkRun 0 350]
    /\ NumberOfPages b = 350.
Proof.
  destruct (MmInitializeMemoryLimits_ascending_list true true (MkRun 0 0)
              [MkDescriptor LoaderFree 0 100; MkDescriptor LoaderFree 100 100;
               MkDescriptor LoaderBootDriver 200 50;
               MkDescriptor LoaderFree 250 100]
              (fun _ => true))
    as (b & Hb & Hruns & _ & _ & Hpages & _).
  - repeat constructor; simpl; lia.
  - simpl. lia.
  - simpl. lia.
  - exists b. split; [exact Hb|]. split; [exact Hruns|exact Hpages].
Defined.

(** ** The free lists built by MiMapPfnDatabase *)

Lemma Chain_walk pfns l : forall p,
  Chain pfns p l -> FreeListWalk (length l) pfns p = l.
Proof.
  induction l as [|x l IH]; intros p H; simpl in *; [reflexivity|].
  destruct H as (-> & Hx & H).
  destruct (Z.eqb_spec x LIST_HEAD) as [E|_]; [contradiction|].
  rewrite (IH _ H). reflexivity.
Qed.

Lemma Chain_ext pfns pfns' l : forall p,
  (forall x, In x l ->
     u1_Flink (default ZeroPfn (pfns' !! x))
     = u1_Flink (default ZeroPfn (pfns !! x))) ->
  Chain pfns p l -> Chain pfns' p l.
Proof.
  induction l as [|x l IH]; intros p Hext H; simpl in *; [exact I|].
  destruct H as (-> & Hx & H). repeat split; [exact Hx|].
  rewrite Hext by (left; reflexivity).
  apply IH; [|exact H]. intros y Hy. apply Hext. right. exact Hy.
Qed.

Lemma FreeListsHold_walk st pages c :
  FreeListsHold st pages ->
  PagesByColor st FreePageList c
  = ColorFilter (MmSecondaryColorMask st) c pages.
Proof.
  intros H. destruct (H c) as [Hc Hch]. unfold PagesByColor.
  rewrite Hc, Nat2Z.id. apply Chain_walk. exact Hch.
Qed.

Lemma ColorFilter_In mask c x pages :
  In x (ColorFilter mask c pages) -> In x pages.
Proof. unfold ColorFilter. intros H. apply filter_In in H. tauto. Qed.

(** A state that differs from [st] outside the PFN array, the color
    tables and the color mask holds the same lists. *)
Lemma FreeListsHold_frame st st' pages :
  PfnArray st' = PfnArray st -> ColorTables st' = ColorTables st ->
  MmSecondaryColorMask st' = MmSecondaryColorMask st ->
  FreeListsHold st pages -> FreeListsHold st' pages.
Proof.
  intros Hp Hc Hm H c. unfold ColorHead. rewrite Hp, Hc, Hm. apply H.
Qed.

(** An update of a PFN entry that keeps the forward link of the pages on
    the lists keeps the lists. *)
Lemma FreeListsHold_update st pages i f :
  (In i pages -> u1_Flink (f (PfnEntry st i)) = u1_Flink (PfnEntry st i)) ->
  FreeListsHold st pages -> FreeListsHold (PfnUpdate i f st) pages.
Proof.
  intros Hf H c. destruct (H c) as [Hc Hch]. split; [exact Hc|].
  unfold PfnUpdate. simpl.
  change (ColorHead (set_PfnArray (<[i:=f (PfnEntry st i)]> (PfnArray st)) st)
                    FreePageList c)
    with (ColorHead st FreePageList c).
  eapply Chain_ext; [|exact Hch].
  intros x Hx. destruct (Z.eq_dec i x) as [->|Hne].
  - rewrite lookup_insert_eq. simpl. apply Hf.
    eapply ColorFilter_In. exact Hx.
  - rewrite lookup_insert_ne by exact Hne. reflexivity.
Qed.

(** The insertion of a page that is on no list. *)
Lemma FreeListsHold_insert st pages p :
  FreeListsHold st pages ->
  ~ In p pages -> p <> LIST_HEAD ->
  Z.of_nat (length pages) + 1 < 2 ^ 32 ->
  FreeListsHold (MiInsertPageInFreeList p st) (p :: pages).
Proof.
  intros H Hfresh Hp Hlen c.
  unfold MiInsertPageInFreeList.
  set (Color := Z.land p (MmSecondaryColorMask st)).
  set (Head := ColorHead st FreePageList Color).
  set (f := fun e => set_PageLocation FreePageList (set_u1_Flink (Flink Head) e)).
  change (MmSecondaryColorMask (set_ColorTables _ _))
    with (MmSecondaryColorMask st).
  change (PfnArray (set_ColorTables _ _))
    with (<[p := f (PfnEntry st p)]> (PfnArray st)).
  assert (Hext : forall c', Chain (PfnArray st) (Flink (ColorHead st FreePageList c'))
                   (ColorFilter (MmSecondaryColorMask st) c' pages) ->
                 Chain (<[p := f (PfnEntry st p)]> (PfnArray st))
                   (Flink (ColorHead st FreePageList c'))
                   (ColorFilter (MmSecondaryColorMask st) c' pages)).
  { intros c'. apply Chain_ext. intros x Hx.
    rewrite lookup_insert_ne; [reflexivity|].
    intros ->. apply Hfresh. eapply ColorFilter_In. exact Hx. }
  unfold ColorHead at 1 2. simpl ColorTables.
  unfold ColorFilter. simpl List.filter. fold Color.
  fold (ColorFilter (MmSecondaryColorMask st) c pages).
  destruct (Z.eqb_spec Color c) as [E|E].
  - subst c. rewrite lookup_insert_eq. simpl.
    destruct (H Color) as [Hc Hch]. fold Head in Hc, Hch. split.
    + rewrite Hc. rewrite ULONG_small.
      * lia.
      * pose proof (filter_length_le
                      (fun p0 => Z.land p0 (MmSecondaryColorMask st) =? Color)
                      pages).
        unfold ColorFilter. lia.
    + repeat split; [exact Hp|].
      rewrite lookup_insert_eq. simpl.
      apply Hext. exact Hch.
  - rewrite lookup_insert_ne by congruence.
    destruct (H c) as [Hc Hch]. split; [exact Hc|].
    apply Hext. exact Hch.
Qed.

Lemma SameMachine_refl st : SameMachine st st.
Proof. repeat split. Qed.

Lemma SameMachine_trans st1 st2 st3 :
  SameMachine st1 st2 -> SameMachine st2 st3 -> SameMachine st1 st3.
Proof.
  intros (A1 & A2 & A3 & A4 & A5) (B1 & B2 & B3 & B4 & B5).
  repeat split; congruence.
Qed.

Lemma SameMachine_update st i f : SameMachine st (PfnUpdate i f st).
Proof. repeat split. Qed.

Lemma SameMachine_insert st p : SameMachine st (MiInsertPageInFreeList p st).
Proof. repeat split. Qed.

(** A free range goes on the lists from its last page down and ends up
    in ascending order in front of the pages that were there. *)
Lemma MiInsertFreeRange_holds n : forall lo st pages,
  FreeListsHold st pages ->
  0 <= lo -> lo + Z.of_nat n < 2 ^ 32 ->
  (forall x, lo <= x < lo + Z.of_nat n -> ~ In x pages) ->
  Z.of_nat (length pages) + Z.of_nat n < 2 ^ 32 ->
  FreeListsHold (MiInsertFreeRange n (ULONG (lo + Z.of_nat n - 1)) st)
                (seqZ lo (Z.of_nat n) ++ pages)
  /\ SameMachine st (MiInsertFreeRange n (ULONG (lo + Z.of_nat n - 1)) st).
Proof.
  induction n as [|n IH]; intros lo st pages H Hlo Hhi Hfresh Hlen.
  - simpl. split; [exact H|apply SameMachine_refl].
  - simpl MiInsertFreeRange.
    replace (lo + Z.of_nat (S n) - 1) with (lo + Z.of_nat n) by lia.
    rewrite (ULONG_small (lo + Z.of_nat n)) by lia.
    set (top := lo + Z.of_nat n).
    set (st1 := PfnUpdate top (set_CacheAttribute MiNonCached) st).
    set (st2 := MiInsertPageInFreeList top st1).
    assert (H1 : FreeListsHold st1 pages)
      by (apply FreeListsHold_update; [reflexivity|exact H]).
    assert (H2 : FreeListsHold st2 (top :: pages)).
    { apply FreeListsHold_insert; try assumption.
      - apply Hfresh. unfold top. lia.
      - unfold LIST_HEAD, top. change (2 ^ 32) with 4294967296 in Hhi. lia.
      - lia. }
    replace (top - 1) with (lo + Z.of_nat n - 1) by (unfold top; lia).
    destruct (IH lo st2 (top :: pages)) as [H3 Hm]; try assumption; try lia.
    { intros x Hx [<-|Hin]; [unfold top in Hx; lia|].
      apply (Hfresh x); [lia|exact Hin]. }
    { simpl length. lia. }
    split.
    + rewrite seqZ_S, <- app_assoc. exact H3.
    + eapply SameMachine_trans; [|exact Hm].
      eapply SameMachine_trans;
        [apply SameMachine_update|apply SameMachine_insert].
Qed.

Lemma MiMarkRomRange_holds n : forall Pfn1 st pages,
  FreeListsHold st pages ->
  (forall x, Pfn1 <= x < Pfn1 + Z.of_nat n -> ~ In x pages) ->
  FreeListsHold (MiMarkRomRange n Pfn1 st) pages
  /\ SameMachine st (MiMarkRomRange n Pfn1 st).
Proof.
  induction n as [|n IH]; intros Pfn1 st pages H Hfresh.
  - simpl. split; [exact H|apply SameMachine_refl].
  - simpl MiMarkRomRange.
    match goal with |- context [PfnUpdate Pfn1 ?f st] =>
      set (st1 := PfnUpdate Pfn1 f st);
      assert (H1 : FreeListsHold st1 pages)
        by (apply FreeListsHold_update;
            [intros Hin; exfalso; apply (Hfresh Pfn1); [lia|exact Hin]
            |exact H])
    end.
    destruct (IH (Pfn1 + 1) st1 pages) as [H2 Hm]; try assumption.
    { intros x Hx. apply Hfresh. lia. }
    split; [exact H2|].
    eapply SameMachine_trans; [apply SameMachine_update|exact Hm].
Qed.

Lemma MiMarkActiveRange_holds n : forall Pfn1 st pages,
  FreeListsHold st pages ->
  FreeListsHold (MiMarkActiveRange n Pfn1 st) pages
  /\ SameMachine st (MiMarkActiveRange n Pfn1 st).
Proof.
  induction n as [|n IH]; intros Pfn1 st pages H.
  - simpl. split; [exact H|apply SameMachine_refl].
  - simpl MiMarkActiveRange.
    match goal with |- context [PfnUpdate Pfn1 ?f st] =>
      set (st1 := PfnUpdate Pfn1 f st);
      assert (H1 : FreeListsHold st1 pages)
        by (apply FreeListsHold_update; [reflexivity|exact H])
    end.
    destruct (IH (Pfn1 + 1) st1 pages H1) as [H2 Hm].
    split; [exact H2|].
    eapply SameMachine_trans; [apply SameMachine_update|exact Hm].
Qed.

Lemma AllocatedFrom_refl st :
  0 <= MiEarlyAllocCount (Globals st) -> AllocatedFrom st st.
Proof. intros H. repeat split; auto; lia. Qed.

Lemma AllocatedFrom_trans st1 st2 st3 :
  AllocatedFrom st1 st2 -> AllocatedFrom st2 st3 -> AllocatedFrom st1 st3.
Proof.
  intros (A1 & A2 & A3 & A4 & A5 & A6 & A7 & A8)
         (B1 & B2 & B3 & B4 & B5 & B6 & B7 & B8).
  repeat split; try congruence; lia.
Qed.

(** The mapping loop returns when the allocator holds a page for each
    PTE of the range, and takes at most that many pages. *)
Lemma MiMapPteRange_returns LoaderBlock n : forall PointerPte st,
  Z.of_nat n <= MiEarlyAllocCount (Globals st) ->
  0 <= MiEarlyAllocBase (Globals st) ->
  MiEarlyAllocBase (Globals st) + MiEarlyAllocCount (Globals st) < 2 ^ 32 ->
  exists st',
    MiMapPteRange LoaderBlock n PointerPte st = Returns st'
    /\ AllocatedFrom st st'
    /\ MiEarlyAllocCount (Globals st) - Z.of_nat n
       <= MiEarlyAllocCount (Globals st').
Proof.
  induction n as [|n IH]; intros PointerPte st Hn Hb Hbc.
  - simpl. exists st. split; [reflexivity|].
    split; [apply AllocatedFrom_refl|]; lia.
  - simpl MiMapPteRange.
    destruct (PteValid st PointerPte); simpl.
    + destruct (IH (PointerPte + sizeof_MMPTE) st)
        as (st' & Hr & Hf & Hc); try assumption; try lia.
      exists st'. split; [exact Hr|]. split; [exact Hf|lia].
    + destruct (MiEarlyAllocPages_success LoaderBlock (Globals st) 1)
        as (g' & Hg' & Hb' & Hc' & Hf' & _); try assumption; try lia.
      rewrite Hg'. simpl.
      set (st1 := set_PageTables _ _).
      destruct (IH (PointerPte + sizeof_MMPTE) st1)
        as (st' & Hr & Hf & Hc); simpl; try lia.
      exists st'. split; [exact Hr|]. split.
      * eapply AllocatedFrom_trans; [|exact Hf].
        repeat split; simpl; try assumption; lia.
      * simpl in Hc. lia.
Qed.

Lemma AllocatorAdvanced_intro st st1 st2 :
  AllocatedFrom st st1 -> SameMachine st1 st2 -> AllocatorAdvanced st st2.
Proof.
  intros (A1 & A2 & A3 & A4 & A5 & A6 & A7 & A8) (B1 & B2 & B3 & B4 & B5).
  unfold AllocatorAdvanced. rewrite B1, B2, B3, B4.
  repeat split; try assumption; lia.
Qed.

Lemma AllocatorAdvanced_trans st1 st2 st3 :
  AllocatorAdvanced st1 st2 -> AllocatorAdvanced st2 st3 ->
  AllocatorAdvanced st1 st3.
Proof.
  intros (A1 & A2 & A3 & A4 & A5 & A6) (B1 & B2 & B3 & B4 & B5 & B6).
  repeat split; try congruence; lia.
Qed.

Lemma PagesOf_In x d : In x (PagesOf d) <-> PageOf x d.
Proof.
  unfold PagesOf, PageOf. rewrite <- list_elem_of_In. apply elem_of_seqZ.
Qed.

Lemma DescriptorPteSpan_same st st' d :
  MmPfnDatabase st' = MmPfnDatabase st ->
  DescriptorPteSpan st' d = DescriptorPteSpan st d.
Proof.
  intros H. unfold DescriptorPteSpan, PfnAddress. rewrite H. reflexivity.
Qed.

Lemma TotalPteSpan_same st st' l :
  MmPfnDatabase st' = MmPfnDatabase st ->
  TotalPteSpan st' l = TotalPteSpan st l.
Proof.
  intros H. unfold TotalPteSpan.
  induction (InDatabase l) as [|d l' IH]; simpl; [reflexivity|].
  rewrite IH, (DescriptorPteSpan_same st st' d H). reflexivity.
Qed.

(** One descriptor of the loop of [MiMapPfnDatabase]. *)
Lemma MiMapDescriptor_holds checked LoaderBlock p d st pages :
  FreeListsHold st pages ->
  ValidPages d ->
  (forall x, PageOf x d -> ~ In x pages) ->
  (MiIsMemoryTypeInDatabase (MemoryType d) = true ->
   Z.of_nat (DescriptorPteSpan st d) <= MiEarlyAllocCount (Globals st)) ->
  0 <= MiEarlyAllocCount (Globals st) ->
  0 <= MiEarlyAllocBase (Globals st) ->
  MiEarlyAllocBase (Globals st) + MiEarlyAllocCount (Globals st) < 2 ^ 32 ->
  (MiIsMemoryTypeFree (MemoryType d)
   && negb (bool_decide (Some p = MxFreeDescriptor (Globals st))) = true ->
   Z.of_nat (length pages) + PageCount d < 2 ^ 32) ->
  checked = false \/ MemoryType d <> LoaderBad ->
  exists st',
    MiMapDescriptor checked LoaderBlock p d st = Returns st'
    /\ FreeListsHold st'
         ((if MiIsMemoryTypeFree (MemoryType d)
              && negb (bool_decide (Some p = MxFreeDescriptor (Globals st)))
           then PagesOf d else []) ++ pages)
    /\ AllocatorAdvanced st st'
    /\ MiEarlyAllocCount (Globals st)
       - (if MiIsMemoryTypeInDatabase (MemoryType d)
          then Z.of_nat (DescriptorPteSpan st d) else 0)
       <= MiEarlyAllocCount (Globals st').
Proof.
  intros H (Hb & Hc & Hbc) Hfresh Hspan Hcnt Hbase Hrange Hlen Hbad.
  unfold MiMapDescriptor.
  destruct (MiIsMemoryTypeInDatabase (MemoryType d)) eqn:Edb; simpl negb;
    cbv iota.
  2:{ exists st. split; [reflexivity|].
      destruct (MiIsMemoryTypeFree (MemoryType d)) eqn:Ef.
      - apply Free_is_in_database in Ef. congruence.
      - simpl. split; [exact H|]. split; [|lia].
        repeat split; auto; lia. }
  fold (DescriptorPteSpan st d).
  destruct (MiMapPteRange_returns LoaderBlock (DescriptorPteSpan st d)
              (MiAddressToPte (PfnAddress st (BasePage d))) st)
    as (st1 & Hr & Hf & Hc1); try assumption; [auto|].
  rewrite Hr. simpl obind.
  assert (H1 : FreeListsHold st1 pages).
  { destruct Hf as (A1 & A2 & A3 & A4 & _).
    eapply FreeListsHold_frame; eauto. }
  assert (Hboot : MxFreeDescriptor (Globals st1) = MxFreeDescriptor (Globals st))
    by (destruct Hf as (_ & _ & _ & _ & _ & A6 & _); exact A6).
  rewrite Hboot.
  destruct (bool_decide (Some p = MxFreeDescriptor (Globals st))) eqn:Eboot.
  { exists st1. split; [reflexivity|].
    rewrite andb_false_r. simpl. split; [exact H1|].
    split; [|exact Hc1].
    eapply AllocatorAdvanced_intro; [exact Hf|apply SameMachine_refl]. }
  simpl negb. rewrite andb_true_r.
  assert (Hassert :
    (if TYPE_OF_MEMORY_eqb (MemoryType d) LoaderBad
     then ASSERT checked false else Returns tt) = Returns tt).
  { destruct (TYPE_OF_MEMORY_eqb (MemoryType d) LoaderBad) eqn:E;
      [|reflexivity].
    apply TYPE_OF_MEMORY_eqb_eq in E.
    destruct Hbad as [->|Hnb]; [reflexivity|contradiction]. }
  rewrite Hassert. simpl obind.
  destruct (MiIsMemoryTypeFree (MemoryType d)) eqn:Efree.
  - (* a free descriptor *)
    eexists. split; [reflexivity|].
    unfold PagesOf.
    assert (Hn : PageCount d = Z.of_nat (Z.to_nat (PageCount d))) by lia.
    set (n := Z.to_nat (PageCount d)) in *. clearbody n.
    specialize (Hlen eq_refl).
    rewrite Hn in *.
    destruct (MiInsertFreeRange_holds n (BasePage d) st1 pages)
      as [H2 Hm]; try assumption; try lia.
    { intros x Hx. apply Hfresh. unfold PageOf. lia. }
    split; [exact H2|split; [|rewrite (proj1 Hm); exact Hc1]].
    eapply AllocatorAdvanced_intro; [exact Hf|exact Hm].
  - destruct (TYPE_OF_MEMORY_eqb (MemoryType d) LoaderXIPRom).
    + (* ROM *)
      eexists. split; [reflexivity|].
      destruct (MiMarkRomRange_holds (Z.to_nat (PageCount d)) (BasePage d)
                  st1 pages) as [H2 Hm]; try assumption.
      { intros x Hx. apply Hfresh. unfold PageOf. lia. }
      split; [exact H2|]. split; [|rewrite (proj1 Hm); exact Hc1].
      eapply AllocatorAdvanced_intro; [exact Hf|exact Hm].
    + (* memory in use *)
      eexists. split; [reflexivity|].
      destruct (MiMarkActiveRange_holds (Z.to_nat (PageCount d)) (BasePage d)
                  st1 pages H1) as [H2 Hm].
      split; [exact H2|]. split; [|rewrite (proj1 Hm); exact Hc1].
      eapply AllocatorAdvanced_intro; [exact Hf|exact Hm].
Qed.

Lemma StackOfBlocks_cons (b : list Z) bs :
  StackOfBlocks (b :: bs) = StackOfBlocks bs ++ b.
Proof.
  unfold StackOfBlocks. simpl. rewrite concat_app. simpl.
  rewrite app_nil_r. reflexivity.
Qed.

Lemma StackOfBlocks_length bs :
  Forall ValidPages bs ->
  Z.of_nat (length (StackOfBlocks (map PagesOf bs))) = SumPageCount bs.
Proof.
  induction 1 as [|d bs (Hb & Hc & _) _ IH]; simpl; [reflexivity|].
  rewrite StackOfBlocks_cons, length_app, Nat2Z.inj_add, IH.
  unfold PagesOf. rewrite length_seqZ. lia.
Qed.

Lemma SumPageCount_pages_nonneg bs :
  Forall ValidPages bs -> 0 <= SumPageCount bs.
Proof.
  intros H. rewrite <- (StackOfBlocks_length bs H). lia.
Qed.

Lemma FreeBlocksFrom_valid boot l : forall p,
  Forall ValidPages l -> Forall ValidPages (FreeBlocksFrom p boot l).
Proof.
  induction l as [|d l IH]; intros p Hv; simpl; [constructor|].
  inversion Hv; subst.
  destruct (MiIsMemoryTypeFree (MemoryType d)
            && negb (bool_decide (Some p = boot)));
    [constructor|]; auto.
Qed.

Lemma TotalPteSpan_nonneg st l : 0 <= TotalPteSpan st l.
Proof.
  unfold TotalPteSpan. induction (InDatabase l); simpl; lia.
Qed.

Lemma nth_error_middle {A} (pre : list A) d l :
  nth_error (pre ++ d :: l) (length pre) = Some d.
Proof.
  rewrite nth_error_app2 by lia.
  replace (length pre - length pre)%nat with O by lia. reflexivity.
Qed.

(** The loop over the descriptors [l] that follow the descriptors [pre]:
    the blocks of [l] go on the lists in front of [pages], the last block
    first. *)
Lemma MiMapDescriptors_holds checked LoaderBlock l : forall pre st pages,
  DisjointDescriptors (pre ++ l) ->
  Forall ValidPages l ->
  FreeListsHold st pages ->
  (forall x, In x pages ->
     exists i d, (i < length pre)%nat /\ nth_error (pre ++ l) i = Some d
                 /\ Some i <> MxFreeDescriptor (Globals st) /\ PageOf x d) ->
  TotalPteSpan st l <= MiEarlyAllocCount (Globals st) ->
  0 <= MiEarlyAllocBase (Globals st) ->
  MiEarlyAllocBase (Globals st) + MiEarlyAllocCount (Globals st) < 2 ^ 32 ->
  Z.of_nat (length pages)
  + SumPageCount (FreeBlocksFrom (length pre) (MxFreeDescriptor (Globals st)) l)
  < 2 ^ 32 ->
  checked = false \/ Forall (fun d => MemoryType d <> LoaderBad) l ->
  exists st',
    MiMapDescriptors checked LoaderBlock (length pre) l st = Returns st'
    /\ FreeListsHold st'
         (StackOfBlocks
            (map PagesOf
               (FreeBlocksFrom (length pre) (MxFreeDescriptor (Globals st)) l))
          ++ pages)
    /\ (forall x,
          In x (StackOfBlocks
                  (map PagesOf
                     (FreeBlocksFrom (length pre)
                        (MxFreeDescriptor (Globals st)) l)) ++ pages) ->
          exists i d, nth_error (pre ++ l) i = Some d
                      /\ Some i <> MxFreeDescriptor (Globals st)
                      /\ PageOf x d)
    /\ AllocatorAdvanced st st'.
Proof.
  induction l as [|d l IH];
    intros pre st pages Hdis Hv H Hin Hspan Hbase Hrange Hlen Hbad.
  - simpl. exists st. split; [reflexivity|]. split; [exact H|].
    pose proof (TotalPteSpan_nonneg st []) as Hnn.
    split; [|repeat split; auto; lia].
    intros x Hx. destruct (Hin x Hx) as (i & di & _ & Hi & Hb & Hp).
    exists i, di. auto.
  - inversion Hv as [|? ? Hd Hl]; subst.
    set (boot := MxFreeDescriptor (Globals st)) in *.
    pose proof (TotalPteSpan_nonneg st l) as Hnn.
    assert (Hsp : TotalPteSpan st (d :: l) =
                  (if MiIsMemoryTypeInDatabase (MemoryType d)
                   then Z.of_nat (DescriptorPteSpan st d) else 0)
                  + TotalPteSpan st l).
    { unfold TotalPteSpan, InDatabase. simpl.
      destruct (MiIsMemoryTypeInDatabase (MemoryType d)); reflexivity. }
    rewrite Hsp in Hspan.
    pose proof (FreeBlocksFrom_valid boot l (S (length pre)) Hl) as Hvb.
    pose proof (SumPageCount_pages_nonneg _ Hvb) as Hsumnn.
    simpl FreeBlocksFrom in *.
    set (block := MiIsMemoryTypeFree (MemoryType d)
                  && negb (bool_decide (Some (length pre) = boot))) in *.
    destruct (MiMapDescriptor_holds checked LoaderBlock (length pre) d st pages)
      as (st1 & Hr & H1 & Ha & Hc); try assumption.
    { intros x Hx Hxin.
      destruct (Hin x Hxin) as (i & di & Hi & Hn & _ & Hp).
      apply (Hdis i (length pre) di d x); try assumption; [lia|].
      apply nth_error_middle. }
    { intros E. rewrite E in Hspan. lia. }
    { destruct (MiIsMemoryTypeInDatabase (MemoryType d)); lia. }
    { intros Hblock. destruct Hd as (? & ? & ?).
      fold boot in Hblock. fold block in Hblock. rewrite Hblock in Hlen.
      simpl in Hlen. lia. }
    { destruct Hbad as [Hf|Hb]; [left; exact Hf|right].
      inversion Hb; assumption. }
    simpl MiMapDescriptors. rewrite Hr. simpl obind.
    fold boot in H1. fold block in H1.
    destruct Ha as (A1 & A2 & A3 & A4 & A5 & A6).
    assert (Hpre : (pre ++ [d]) ++ l = pre ++ d :: l)
      by (rewrite <- app_assoc; reflexivity).
    assert (Hlp : length (pre ++ [d]) = S (length pre))
      by (rewrite length_app; simpl; lia).
    destruct (IH (pre ++ [d]) st1
                ((if block then PagesOf d else []) ++ pages))
      as (st' & Hr' & H' & Hin' & Ha'); try assumption.
    { rewrite Hpre. exact Hdis. }
    { rewrite Hpre, Hlp, A4. fold boot.
      intros x Hx. apply in_app_or in Hx. destruct Hx as [Hx|Hx].
      - destruct block eqn:Eb; [|destruct Hx].
        exists (length pre), d. split; [lia|].
        split; [apply nth_error_middle|]. split.
        + unfold block in Eb. apply andb_true_iff in Eb.
          destruct Eb as [_ Eb]. apply negb_true_iff in Eb.
          apply bool_decide_eq_false in Eb. exact Eb.
        + apply PagesOf_In. exact Hx.
      - destruct (Hin x Hx) as (i & di & Hi & Hn & Hb & Hp).
        exists i, di. split; [lia|]. split; [exact Hn|].
        split; [exact Hb|exact Hp]. }
    { rewrite (TotalPteSpan_same st st1 l A3). lia. }
    { lia. }
    { lia. }
    { rewrite Hlp, A4. fold boot. rewrite length_app, Nat2Z.inj_add.
      destruct Hd as (? & ? & ?).
      destruct block; simpl in Hlen |- *.
      - unfold PagesOf. rewrite length_seqZ. lia.
      - lia. }
    { destruct Hbad as [Hf|Hb]; [left; exact Hf|right].
      inversion Hb; assumption. }
    rewrite Hlp in Hr'. rewrite Hlp, A4 in H', Hin'. fold boot in H', Hin'.
    rewrite Hpre in Hin'.
    assert (Hstack :
      StackOfBlocks (map PagesOf (FreeBlocksFrom (S (length pre)) boot l))
      ++ (if block then PagesOf d else []) ++ pages
      = StackOfBlocks
          (map PagesOf
             (if block then d :: FreeBlocksFrom (S (length pre)) boot l
              else FreeBlocksFrom (S (length pre)) boot l)) ++ pages).
    { destruct block; simpl map.
      - rewrite StackOfBlocks_cons, <- app_assoc. reflexivity.
      - reflexivity. }
    rewrite Hstack in H', Hin'.
    exists st'. split; [exact Hr'|]. split; [exact H'|].
    split; [exact Hin'|].
    eapply AllocatorAdvanced_trans; [|exact Ha'].
    repeat split; try assumption; lia.
Qed.

Lemma StronglySorted_ColorFilter mask c l :
  StronglySorted Z.lt l -> StronglySorted Z.lt (ColorFilter mask c l).
Proof.
  unfold ColorFilter.
  induction 1 as [|x l Hs IH Hall]; simpl; [constructor|].
  destruct (Z.land x mask =? c); [|exact IH].
  constructor; [exact IH|].
  rewrite List.Forall_forall in *. intros y Hy.
  apply filter_In in Hy. apply Hall. tauto.
Qed.

Lemma StronglySorted_seqZ_nat n : forall m,
  StronglySorted Z.lt (seqZ m (Z.of_nat n)).
Proof.
  induction n as [|n IH]; intros m.
  - rewrite seqZ_nil by lia. constructor.
  - rewrite seqZ_cons by lia.
    replace (Z.pred (Z.of_nat (S n))) with (Z.of_nat n) by lia.
    constructor; [apply IH|].
    rewrite List.Forall_forall. intros y Hy.
    apply list_elem_of_In, elem_of_seqZ in Hy. lia.
Qed.

Lemma StronglySorted_seqZ m n : StronglySorted Z.lt (seqZ m n).
Proof.
  destruct (Z.le_gt_cases n 0) as [H|H].
  - rewrite seqZ_nil by exact H. constructor.
  - replace n with (Z.of_nat (Z.to_nat n)) by lia.
    apply StronglySorted_seqZ_nat.
Qed.

(** C1.  Entered with empty per-color free lists, on a loader
    block of pairwise disjoint descriptors without bad memory (or on a
    free build) and with enough bootstrap pages for the PTEs of the PFN
    database, [MiMapPfnDatabase] returns, and for every color the free
    list holds the pages of that color of the bootstrap residue followed
    by those of the free descriptors other than the bootstrap one, from
    the last such descriptor to the first, each block in ascending page
    order.  The list of a color is ascending as a whole whenever that
    concatenation is, in particular when the residue is the only block. *)
Theorem MiMapPfnDatabase_free_lists (checked : bool)
    (LoaderBlock : LOADER_PARAMETER_BLOCK) (st : MM_PFN_STATE)
    (bd : MEMORY_ALLOCATION_DESCRIPTOR) :
  Forall ValidPages LoaderBlock ->
  DisjointDescriptors LoaderBlock ->
  Deref LoaderBlock (MxFreeDescriptor (Globals st)) = Some bd ->
  BasePage bd <= MiEarlyAllocBase (Globals st) ->
  MiEarlyAllocBase (Globals st) + MiEarlyAllocCount (Globals st)
  = BasePage bd + PageCount bd ->
  TotalPteSpan st LoaderBlock <= MiEarlyAllocCount (Globals st) ->
  (forall c, Count (ColorHead st FreePageList c) = 0) ->
  SumPageCount (FreeBlocksFrom 0 (MxFreeDescriptor (Globals st)) LoaderBlock)
  + MiEarlyAllocCount (Globals st) < 2 ^ 32 ->
  checked = false
  \/ Forall (fun d => MemoryType d <> LoaderBad) LoaderBlock ->
  exists st',
    MiMapPfnDatabase checked LoaderBlock st = Returns st'
    /\ BasePage bd <= MiEarlyAllocBase (Globals st')
    /\ MiEarlyAllocBase (Globals st') + MiEarlyAllocCount (Globals st')
       = BasePage bd + PageCount bd
    /\ (forall c,
          PagesByColor st' FreePageList c
          = ColorFilter (MmSecondaryColorMask st) c
              (seqZ (MiEarlyAllocBase (Globals st'))
                    (MiEarlyAllocCount (Globals st'))
               ++ StackOfBlocks
                    (map PagesOf
                       (FreeBlocksFrom 0 (MxFreeDescriptor (Globals st))
                                       LoaderBlock))))
    /\ (StronglySorted Z.lt
          (seqZ (MiEarlyAllocBase (Globals st'))
                (MiEarlyAllocCount (Globals st'))
           ++ StackOfBlocks
                (map PagesOf
                   (FreeBlocksFrom 0 (MxFreeDescriptor (Globals st))
                                   LoaderBlock))) ->
        forall c, StronglySorted Z.lt (PagesByColor st' FreePageList c))
    /\ (FreeBlocksFrom 0 (MxFreeDescriptor (Globals st)) LoaderBlock = [] ->
        forall c, StronglySorted Z.lt (PagesByColor st' FreePageList c)).
Proof.
  intros Hv Hdis Hboot Hbase Hend Hspan Hempty Hsum Hbad.
  destruct (MxFreeDescriptor (Globals st)) as [b|] eqn:Eboot;
    [|discriminate Hboot].
  simpl in Hboot.
  assert (Hbd : ValidPages bd).
  { rewrite List.Forall_forall in Hv. apply Hv.
    eapply nth_error_In. exact Hboot. }
  destruct Hbd as (Hb0 & Hb1 & Hb2).
  pose proof (TotalPteSpan_nonneg st LoaderBlock) as Hnn.
  pose proof (SumPageCount_pages_nonneg _
                (FreeBlocksFrom_valid (Some b) LoaderBlock 0%nat Hv)) as Hsnn.
  destruct (MiMapDescriptors_holds checked LoaderBlock LoaderBlock [] st [])
    as (st1 & Hr & H1 & Hin & Ha); try assumption; try (simpl; lia).
  { intros c. rewrite Hempty. split; [reflexivity|exact I]. }
  { simpl. rewrite Eboot. lia. }
  simpl length in Hr, H1, Hin. rewrite Eboot in H1, Hin.
  rewrite app_nil_r in H1, Hin. simpl app in Hin.
  destruct Ha as (A1 & A2 & A3 & A4 & A5 & A6).
  unfold MiMapPfnDatabase. rewrite Hr. simpl obind.
  set (blocks := FreeBlocksFrom 0 (Some b) LoaderBlock) in *.
  set (stack := StackOfBlocks (map PagesOf blocks)) in *.
  assert (Hn : MiEarlyAllocCount (Globals st1)
               = Z.of_nat (Z.to_nat (MiEarlyAllocCount (Globals st1))))
    by lia.
  set (n := Z.to_nat (MiEarlyAllocCount (Globals st1))) in *. clearbody n.
  rewrite Hn in *.
  destruct (MiInsertFreeRange_holds n (MiEarlyAllocBase (Globals st1)) st1 stack)
    as [H2 Hm]; try assumption; try lia.
  { intros x Hx Hxin.
    destruct (Hin x Hxin) as (i & di & Hi & Hne & Hp).
    apply (Hdis i b di bd x); try assumption; [congruence|].
    unfold PageOf. lia. }
  { unfold stack, blocks.
    rewrite StackOfBlocks_length
      by (apply FreeBlocksFrom_valid; exact Hv).
    fold blocks. lia. }
  eexists. split; [reflexivity|].
  destruct Hm as (G & _ & M & _).
  rewrite G, ?Hn.
  assert (Hlists : forall c,
    PagesByColor
      (MiInsertFreeRange n
         (ULONG (MiEarlyAllocBase (Globals st1) + Z.of_nat n - 1)) st1)
      FreePageList c
    = ColorFilter (MmSecondaryColorMask st) c
        (seqZ (MiEarlyAllocBase (Globals st1)) (Z.of_nat n) ++ stack)).
  { intros c. rewrite (FreeListsHold_walk _ _ c H2), M, A2. reflexivity. }
  split; [lia|]. split; [lia|]. split; [exact Hlists|]. split.
  - intros Hs c. rewrite Hlists. apply StronglySorted_ColorFilter. exact Hs.
  - intros Hnil c. rewrite Hlists. apply StronglySorted_ColorFilter.
    unfold stack. rewrite Hnil. simpl. rewrite app_nil_r.
    apply StronglySorted_seqZ.
Qed.

Example TwoFreeBlocks_scan :
  MiScanMemoryDescriptors TwoFreeBlocks InitialGlobals
  = Returns TwoFreeBlocksGlobals.
Proof. reflexivity. Qed.

Example BadRam_scan :
  MiScanMemoryDescriptors BadRamLoaderBlock InitialGlobals
  = Returns BadRamGlobals.
Proof. reflexivity. Qed.

(** On [TwoFreeBlocks] the list of color 0 is [258; 260; 262; 32; 16]
    when [MiMapPfnDatabase] returns, which is not ascending, and
    [MiInitializePfnDatabase] ends with both lists empty: the page 16 is
    marked free and is on no list. *)
Lemma MiInitializePfnDatabase_lists_not_held :
  match MiMapPfnDatabase true TwoFreeBlocks TwoFreeBlocksState,
        MiInitializePfnDatabase true TwoFreeBlocks TwoFreeBlocksState with
  | Returns st1, Returns st2 =>
      PagesByColor st1 FreePageList 0 = [258; 260; 262; 32; 16]
      /\ ~ StronglySorted Z.lt (PagesByColor st1 FreePageList 0)
      /\ PagesByColor st2 FreePageList 0 = []
      /\ PagesByColor st2 FreePageList 1 = []
      /\ PageLocation (PfnEntry st2 16) = FreePageList
      /\ Z.land 16 (MmSecondaryColorMask st2) = 0
  | _, _ => False
  end.
Proof.
  vm_compute.
  split; [reflexivity|]. split; [|repeat split; reflexivity].
  intros H.
  repeat (apply StronglySorted_inv in H; destruct H as [H ?]).
  match goal with
  | F : Forall _ (32%Z :: _) |- _ => inversion F as [|? ? Hlt _]
  end.
  vm_compute in Hlt. discriminate Hlt.
Qed.

Lemma TwoFreeBlocks_disjoint : DisjointDescriptors TwoFreeBlocks.
Proof.
  intros i j di dj x Hij Hi Hj [? ?] [? ?].
  destruct i as [|[|[|[|i]]]]; simpl in Hi;
    try (destruct i; discriminate Hi); injection Hi as <-;
    destruct j as [|[|[|[|j]]]]; simpl in Hj;
      try (destruct j; discriminate Hj); injection Hj as <-;
      simpl in *; lia.
Qed.

Lemma MiMapPfnDatabase_free_lists_witness :
  exists st',
    MiMapPfnDatabase true TwoFreeBlocks TwoFreeBlocksState = Returns st'
    /\ forall c,
         PagesByColor st' FreePageList c
         = ColorFilter 1 c
             (seqZ (MiEarlyAllocBase (Globals st'))
                   (MiEarlyAllocCount (Globals st'))
              ++ [32; 33; 16; 17]).
Proof.
  destruct (MiMapPfnDatabase_free_lists true TwoFreeBlocks TwoFreeBlocksState
              (MkDescriptor LoaderFree 0x100 8))
    as (st' & Hr & _ & _ & Hl & _).
  - repeat constructor; simpl; change (2 ^ 32) with 4294967296; lia.
  - exact TwoFreeBlocks_disjoint.
  - reflexivity.
  - simpl. lia.
  - reflexivity.
  - apply Z.leb_le. vm_compute. reflexivity.
  - intros c. unfold ColorHead. simpl ColorTables.
    rewrite lookup_empty. reflexivity.
  - apply Z.ltb_lt. vm_compute. reflexivity.
  - right. repeat constructor; discriminate.
  - exists st'. split; [exact Hr|exact Hl].
Defined.

(** ** Bad memory *)

Lemma MiInsertFreeRange_globals n : forall p st,
  Globals (MiInsertFreeRange n p st) = Globals st.
Proof. induction n as [|n IH]; intros p st; simpl; [|rewrite IH]; reflexivity. Qed.

Lemma MiMarkRomRange_globals n : forall p st,
  Globals (MiMarkRomRange n p st) = Globals st.
Proof. induction n as [|n IH]; intros p st; simpl; [|rewrite IH]; reflexivity. Qed.

Lemma MiMarkActiveRange_globals n : forall p st,
  Globals (MiMarkActiveRange n p st) = Globals st.
Proof. induction n as [|n IH]; intros p st; simpl; [|rewrite IH]; reflexivity. Qed.

Lemma MiMapPteRange_bootstrap LoaderBlock n : forall PointerPte st st',
  MiMapPteRange LoaderBlock n PointerPte st = Returns st' ->
  MxFreeDescriptor (Globals st') = MxFreeDescriptor (Globals st).
Proof.
  induction n as [|n IH]; intros PointerPte st st' H; simpl in H.
  - injection H as <-. reflexivity.
  - destruct (PteValid st PointerPte); simpl in H.
    + apply IH in H. exact H.
    + unfold MiEarlyAllocPages in H.
      destruct (1 >? MiEarlyAllocCount (Globals st)).
      * destruct (Deref LoaderBlock (MxFreeDescriptor (Globals st)));
          discriminate H.
      * simpl in H. apply IH in H. exact H.
Qed.

(** On a checked build a descriptor of bad memory that is not the
    bootstrap descriptor keeps the loop from returning. *)
Lemma MiMapDescriptors_bad_memory LoaderBlock l : forall p st st',
  MiMapDescriptors true LoaderBlock p l st = Returns st' ->
  forall (k : nat) d,
    nth_error l k = Some d -> MemoryType d = LoaderBad ->
    MxFreeDescriptor (Globals st) = Some (p + k)%nat.
Proof.
  induction l as [|d0 l IH]; intros p st st' H k d Hk Hbad.
  - destruct k; discriminate Hk.
  - simpl in H.
    destruct (MiMapDescriptor true LoaderBlock p d0 st) as [st1| | |] eqn:E;
      simpl in H; try discriminate H.
    assert (Hstep : MxFreeDescriptor (Globals st1) = MxFreeDescriptor (Globals st)
                    /\ (MemoryType d0 = LoaderBad ->
                        MxFreeDescriptor (Globals st) = Some p)).
    { unfold MiMapDescriptor in E.
      destruct (MiIsMemoryTypeInDatabase (MemoryType d0)) eqn:Edb;
        simpl in E.
      - destruct (MiMapPteRange LoaderBlock _ _ st) as [st2| | |] eqn:E2;
          simpl in E; try discriminate E.
        apply MiMapPteRange_bootstrap in E2. rewrite E2 in E.
        destruct (bool_decide (Some p = MxFreeDescriptor (Globals st)))
          eqn:Eb.
        + injection E as <-. split; [exact E2|].
          intros _. apply bool_decide_eq_true in Eb. symmetry. exact Eb.
        + destruct (TYPE_OF_MEMORY_eqb (MemoryType d0) LoaderBad) eqn:Et;
            simpl in E; [discriminate E|].
          assert (Hnb : MemoryType d0 <> LoaderBad).
          { intros Hc. apply TYPE_OF_MEMORY_eqb_eq in Hc. congruence. }
          destruct (MiIsMemoryTypeFree (MemoryType d0));
            [|destruct (TYPE_OF_MEMORY_eqb (MemoryType d0) LoaderXIPRom)];
            injection E as <-;
            rewrite ?MiInsertFreeRange_globals, ?MiMarkRomRange_globals,
                    ?MiMarkActiveRange_globals;
            (split; [exact E2|intros Hc; contradiction]).
      - injection E as <-. split; [reflexivity|].
        intros Hc. rewrite Hc in Edb. discriminate Edb. }
    destruct Hstep as [Hsame Hhead].
    destruct k as [|k]; simpl in Hk.
    + injection Hk as <-. rewrite Nat.add_0_r. apply Hhead. exact Hbad.
    + rewrite <- Hsame. replace (p + S k)%nat with (S p + k)%nat by lia.
      eapply IH; eauto.
Qed.

Lemma MiMapPfnDatabase_bad_memory_checked_build LoaderBlock st i d :
  nth_error LoaderBlock i = Some d -> MemoryType d = LoaderBad ->
  MxFreeDescriptor (Globals st) <> Some i ->
  forall st', MiMapPfnDatabase true LoaderBlock st <> Returns st'.
Proof.
  intros Hi Hbad Hboot st' H. unfold MiMapPfnDatabase in H.
  destruct (MiMapDescriptors true LoaderBlock 0 LoaderBlock st)
    as [st1| | |] eqn:E; simpl in H; try discriminate H.
  apply Hboot.
  exact (MiMapDescriptors_bad_memory LoaderBlock LoaderBlock 0%nat st st1 E
           i d Hi Hbad).
Qed.

(** C4.  On the "bad RAM" loader block a checked build stops at the
    [ASSERT(FALSE)], but a build on which [ASSERT] expands to nothing
    goes on: [MiMapPfnDatabase] returns, with the bad page 0x1000 marked
    as active memory in use (share and reference count 1), and it puts
    the free pages after it on the free lists. *)
Theorem MiMapPfnDatabase_bad_memory_free_build :
  MiMapPfnDatabase true BadRamLoaderBlock BadRamState = AssertionFailure
  /\ match MiMapPfnDatabase false BadRamLoaderBlock BadRamState with
     | Returns st' =>
         PageLocation (PfnEntry st' 0x1000) = ActiveAndValid
         /\ ShareCount (PfnEntry st' 0x1000) = 1
         /\ ReferenceCount (PfnEntry st' 0x1000) = 1
         /\ PageLocation (PfnEntry st' 0x1001) = FreePageList
     | _ => False
     end.
Proof. vm_compute. repeat split; reflexivity. Qed.

(* ================================================================== *)
(** * Part III: further properties *)
(* ================================================================== *)

(** ** The scan: free pages and the bootstrap descriptor *)

Lemma MiScanDescriptor_free p d g :
  MiNumberOfFreePages (MiScanDescriptor p d g) =
  if MiIsMemoryTypeFree (MemoryType d)
  then ULONG (MiNumberOfFreePages g + PageCount d)
  else MiNumberOfFreePages g.
Proof.
  unfold MiScanDescriptor.
  destruct (MiIsMemoryTypeFree (MemoryType d)) eqn:Ef.
  - rewrite (Free_is_in_database _ Ef). simpl.
    destruct (PageCount d >? MiEarlyAllocCount g); reflexivity.
  - destruct (MiIsMemoryTypeInDatabase (MemoryType d)); reflexivity.
Qed.

Lemma MiScanDescriptor_number p d g :
  MiNumberDescriptors (MiScanDescriptor p d g)
  = ULONG (MiNumberDescriptors g + 1).
Proof.
  unfold MiScanDescriptor.
  destruct (MiIsMemoryTypeInDatabase (MemoryType d)); simpl; [|reflexivity].
  destruct (MiIsMemoryTypeFree (MemoryType d)); [|reflexivity].
  destruct (PageCount d >? MiEarlyAllocCount g); reflexivity.
Qed.

Lemma MiScanLoop_free l : forall p g,
  0 <= MiNumberOfFreePages g < 2 ^ 32 ->
  MiNumberOfFreePages (MiScanLoop p l g)
  = ULONG (MiNumberOfFreePages g + SumPageCount (FreeDescriptors l)).
Proof.
  induction l as [|d l IH]; intros p g Hg; simpl.
  - rewrite Z.add_0_r, ULONG_small; [reflexivity | exact Hg].
  - rewrite IH.
    + rewrite MiScanDescriptor_free.
      destruct (MiIsMemoryTypeFree (MemoryType d)); simpl.
      * rewrite ULONG_add_l. f_equal. lia.
      * reflexivity.
    + rewrite MiScanDescriptor_free.
      destruct (MiIsMemoryTypeFree (MemoryType d)); [apply ULONG_range | exact Hg].
Qed.

Lemma MiScanLoop_number l : forall p g,
  0 <= MiNumberDescriptors g < 2 ^ 32 ->
  MiNumberDescriptors (MiScanLoop p l g)
  = ULONG (MiNumberDescriptors g + Z.of_nat (length l)).
Proof.
  induction l as [|d l IH]; intros p g Hg; simpl length.
  - simpl. rewrite Z.add_0_r, ULONG_small; [reflexivity | exact Hg].
  - simpl MiScanLoop. rewrite IH.
    + rewrite MiScanDescriptor_number, ULONG_add_l. f_equal. lia.
    + rewrite MiScanDescriptor_number. apply ULONG_range.
Qed.

Lemma FreeDescriptors_sum_le l :
  Forall ValidDescriptor l ->
  SumPageCount (FreeDescriptors l)
  <= SumPageCount (List.filter NotBad (InDatabase l)).
Proof.
  induction 1 as [|d l Hd Hl IH]; simpl; [lia|].
  destruct Hd as (_ & Hc & _).
  destruct (MiIsMemoryTypeFree (MemoryType d)) eqn:Ef.
  - rewrite (Free_is_in_database _ Ef). simpl.
    unfold NotBad at 1. rewrite (Free_is_not_bad _ Ef). simpl. lia.
  - destruct (MiIsMemoryTypeInDatabase (MemoryType d)); simpl; [|exact IH].
    destruct (NotBad d); simpl; lia.
Qed.

Lemma FreeDescriptors_sum_nonneg l :
  Forall ValidDescriptor l -> 0 <= SumPageCount (FreeDescriptors l).
Proof.
  intros H. apply SumPageCount_nonneg. apply Forall_filter_valid. exact H.
Qed.

(** X1.  When the scan returns on a list of nonempty ranges of 32-bit
    page numbers whose counted pages fit in 32 bits, [MiNumberOfFreePages]
    is the sum of the page counts of the descriptors of free kind.  It does
    not exceed [MmNumberOfPhysicalPages], the bootstrap descriptor's page
    count does not exceed it, and [MiNumberDescriptors] is the length of
    the list (in 32 bits). *)
Theorem MiScanMemoryDescriptors_free_pages
    (LoaderBlock : LOADER_PARAMETER_BLOCK) (g : MM_GLOBALS) :
  Forall ValidDescriptor LoaderBlock ->
  SumPageCount (List.filter NotBad (InDatabase LoaderBlock)) < 2 ^ 32 ->
  MiScanMemoryDescriptors LoaderBlock InitialGlobals = Returns g ->
  MiNumberOfFreePages g = SumPageCount (FreeDescriptors LoaderBlock)
  /\ MiNumberOfFreePages g <= MmNumberOfPhysicalPages g
  /\ MiEarlyAllocCount g <= MiNumberOfFreePages g
  /\ MiNumberDescriptors g = ULONG (Z.of_nat (length LoaderBlock)).
Proof.
  intros Hv Hfit Hret. unfold MiScanMemoryDescriptors in Hret.
  destruct (Deref LoaderBlock
              (MxFreeDescriptor (MiScanLoop 0 LoaderBlock InitialGlobals)))
    as [d|] eqn:Ed; [|discriminate].
  injection Hret as <-. simpl.
  pose proof (FreeDescriptors_sum_le _ Hv) as Hle.
  pose proof (FreeDescriptors_sum_nonneg _ Hv) as H0.
  assert (Hfree : MiNumberOfFreePages (MiScanLoop 0 LoaderBlock InitialGlobals)
                  = SumPageCount (FreeDescriptors LoaderBlock)).
  { rewrite MiScanLoop_free by (simpl; lia). simpl.
    apply ULONG_small. lia. }
  rewrite Hfree.
  rewrite (MiScanLoop_total LoaderBlock 0%nat InitialGlobals Hv)
    by (simpl; lia).
  rewrite MiScanLoop_number by (simpl; lia). simpl.
  split; [reflexivity|]. split; [exact Hle|]. split; [|reflexivity].
  (* the bootstrap descriptor is one of the free descriptors *)
  destruct (MiScanLoop_selected_or_null LoaderBlock [] InitialGlobals
              (or_introl eq_refl)) as [Hn | (i & d' & Hi & Hnth & Hc & Hf)].
  - simpl in Hn. rewrite Hn in Ed. discriminate.
  - simpl in Hi, Hnth, Hc, Hf. rewrite <- Hc.
    clear - Hnth Hf Hv. revert i Hnth.
    induction Hv as [|x l Hx Hl IH]; intros [|i] Hnth; simpl in Hnth;
      try discriminate.
    + injection Hnth as ->. simpl. unfold FreeDescriptors. simpl.
      rewrite Hf. simpl.
      pose proof (FreeDescriptors_sum_nonneg _ Hl). unfold FreeDescriptors in H.
      lia.
    + specialize (IH i Hnth). unfold FreeDescriptors in *. simpl.
      destruct (MiIsMemoryTypeFree (MemoryType x)); simpl; [|exact IH].
      destruct Hx as (_ & ? & _). lia.
Qed.

(** The scan of [TwoFreeBlocks]: 12 free pages out of 14. *)
Lemma MiScanMemoryDescriptors_free_pages_witness :
  MiNumberOfFreePages TwoFreeBlocksGlobals = 2 + 2 + 8
  /\ MiNumberOfFreePages TwoFreeBlocksGlobals
     <= MmNumberOfPhysicalPages TwoFreeBlocksGlobals.
Proof.
  destruct (MiScanMemoryDescriptors_free_pages TwoFreeBlocks
              TwoFreeBlocksGlobals) as (H1 & H2 & _).
  - repeat constructor; simpl; lia.
  - simpl. lia.
  - reflexivity.
  - split; [exact H1 | exact H2].
Defined.

Lemma nth_error_snoc {A} (l : list A) (d : A) (j : nat) (x : A) :
  nth_error (l ++ [d]) j = Some x ->
  ((j < length l)%nat /\ nth_error l j = Some x) \/ (j = length l /\ x = d).
Proof.
  intros H. destruct (Nat.lt_ge_cases j (length l)) as [Hlt | Hge].
  - left. split; [exact Hlt|]. rewrite nth_error_app1 in H; assumption.
  - right. rewrite nth_error_app2 in H by exact Hge.
    destruct (j - length l)%nat as [|k] eqn:Ek; simpl in H.
    + injection H as <-. split; [lia | reflexivity].
    + destruct k; discriminate.
Qed.

Lemma MiScanDescriptor_largest pre d g :
  LargestFreeSoFar pre g ->
  LargestFreeSoFar (pre ++ [d]) (MiScanDescriptor (length pre) d g).
Proof.
  intros (H0 & Hmax & Hsel).
  assert (Hold : forall i, MxFreeDescriptor g = Some i ->
            exists d0, nth_error (pre ++ [d]) i = Some d0
              /\ MiIsMemoryTypeFree (MemoryType d0) = true
              /\ PageCount d0 = MiEarlyAllocCount g
              /\ 0 < PageCount d0
              /\ forall j dj, (j < i)%nat -> nth_error (pre ++ [d]) j = Some dj ->
                   MiIsMemoryTypeFree (MemoryType dj) = true ->
                   PageCount dj < PageCount d0).
  { intros i Hi. destruct (Hsel i Hi) as (d0 & Hn & Hf & Hc & Hp & Hlt).
    assert (Hil : (i < length pre)%nat).
    { apply nth_error_Some. rewrite Hn. discriminate. }
    exists d0. split; [rewrite nth_error_app1; assumption|].
    repeat split; try assumption.
    intros j dj Hj Hnj Hfj. apply (Hlt j dj Hj); [|exact Hfj].
    rewrite nth_error_app1 in Hnj by lia. exact Hnj. }
  unfold LargestFreeSoFar, MiScanDescriptor.
  destruct (MiIsMemoryTypeInDatabase (MemoryType d)) eqn:Edb; simpl.
  2:{ split; [exact H0|]. split; [|exact Hold].
      intros j dj Hj Hf. destruct (nth_error_snoc _ _ _ _ Hj) as [[_ Hj']|[_ ->]].
      - exact (Hmax j dj Hj' Hf).
      - rewrite (Free_is_in_database _ Hf) in Edb. discriminate. }
  destruct (MiIsMemoryTypeFree (MemoryType d)) eqn:Ef; simpl.
  2:{ split; [exact H0|]. split; [|exact Hold].
      intros j dj Hj Hf. destruct (nth_error_snoc _ _ _ _ Hj) as [[_ Hj']|[_ ->]].
      - exact (Hmax j dj Hj' Hf).
      - rewrite Hf in Ef. discriminate. }
  destruct (Z.gtb_spec (PageCount d) (MiEarlyAllocCount g)) as [Hgt | Hle]; simpl.
  - split; [lia|]. split.
    + intros j dj Hj Hf. destruct (nth_error_snoc _ _ _ _ Hj) as [[_ Hj']|[_ ->]].
      * specialize (Hmax j dj Hj' Hf). lia.
      * lia.
    + intros i Hi. injection Hi as <-. exists d.
      split; [apply nth_error_middle|]. repeat split; try assumption; try lia.
      intros j dj Hj Hnj Hfj. rewrite nth_error_app1 in Hnj by exact Hj.
      specialize (Hmax j dj Hnj Hfj). lia.
  - split; [exact H0|]. split; [|exact Hold].
    intros j dj Hj Hf. destruct (nth_error_snoc _ _ _ _ Hj) as [[_ Hj']|[_ ->]].
    + exact (Hmax j dj Hj' Hf).
    + exact Hle.
Qed.

Lemma MiScanLoop_largest l : forall pre g,
  LargestFreeSoFar pre g ->
  LargestFreeSoFar (pre ++ l) (MiScanLoop (length pre) l g).
Proof.
  induction l as [|d l IH]; intros pre g H; simpl.
  - rewrite app_nil_r. exact H.
  - replace (pre ++ d :: l) with ((pre ++ [d]) ++ l)
      by (rewrite <- app_assoc; reflexivity).
    replace (S (length pre)) with (length (pre ++ [d]))
      by (rewrite length_app; simpl; lia).
    apply IH. apply MiScanDescriptor_largest. exact H.
Qed.

Lemma LargestFreeSoFar_initial : LargestFreeSoFar [] InitialGlobals.
Proof.
  split; [simpl; lia|]. split.
  - intros [|j] dj Hj; discriminate.
  - intros i Hi. discriminate.
Qed.

(** X2.  When the scan returns, [MxFreeDescriptor] points to a descriptor
    of free kind with at least one page; [MxOldFreeDescriptor] is a copy of
    it and its base and page count seed the early allocator.  No free
    descriptor of the list has more pages, and every free descriptor before
    it in the list has strictly fewer: among the largest free descriptors
    the first one is selected. *)
Theorem MiScanMemoryDescriptors_largest_free
    (LoaderBlock : LOADER_PARAMETER_BLOCK) (g : MM_GLOBALS) :
  MiScanMemoryDescriptors LoaderBlock InitialGlobals = Returns g ->
  exists i,
    MxFreeDescriptor g = Some i
    /\ nth_error LoaderBlock i = Some (MxOldFreeDescriptor g)
    /\ MiIsMemoryTypeFree (MemoryType (MxOldFreeDescriptor g)) = true
    /\ 0 < PageCount (MxOldFreeDescriptor g)
    /\ MiEarlyAllocBase g = BasePage (MxOldFreeDescriptor g)
    /\ MiEarlyAllocCount g = PageCount (MxOldFreeDescriptor g)
    /\ forall j dj,
         nth_error LoaderBlock j = Some dj ->
         MiIsMemoryTypeFree (MemoryType dj) = true ->
         PageCount dj <= PageCount (MxOldFreeDescriptor g)
         /\ ((j < i)%nat -> PageCount dj < PageCount (MxOldFreeDescriptor g)).
Proof.
  intros Hret. unfold MiScanMemoryDescriptors in Hret.
  pose proof (MiScanLoop_largest LoaderBlock [] InitialGlobals
                LargestFreeSoFar_initial) as (H0 & Hmax & Hsel).
  simpl in H0, Hmax, Hsel.
  destruct (MxFreeDescriptor (MiScanLoop 0 LoaderBlock InitialGlobals))
    as [i|] eqn:Ei; [|discriminate].
  simpl in Hret.
  destruct (Hsel i eq_refl) as (d & Hn & Hf & Hc & Hp & Hlt).
  rewrite Hn in Hret. injection Hret as <-. simpl.
  exists i. repeat split; try assumption; try reflexivity.
  - symmetry. exact Hc.
  - rewrite Hc. eapply Hmax; eassumption.
  - intros Hj. eapply Hlt; eassumption.
Qed.

(** The scan of [TwoFreeBlocks] selects the descriptor at position 3. *)
Lemma MiScanMemoryDescriptors_largest_free_witness :
  exists i,
    MxFreeDescriptor TwoFreeBlocksGlobals = Some i
    /\ nth_error TwoFreeBlocks i = Some (MxOldFreeDescriptor TwoFreeBlocksGlobals).
Proof.
  destruct (MiScanMemoryDescriptors_largest_free TwoFreeBlocks
              TwoFreeBlocksGlobals eq_refl) as (i & H1 & H2 & _).
  exists i. split; assumption.
Defined.

(** X3.  The scan returns exactly when some descriptor of free kind has
    at least one page.  On every other list (an empty one, one without free
    memory, one whose free descriptors are all empty) it dereferences the
    null [MxFreeDescriptor]. *)
Theorem MiScanMemoryDescriptors_returns_iff
    (LoaderBlock : LOADER_PARAMETER_BLOCK) :
  if HasUsableFreeMemory LoaderBlock
  then exists g, MiScanMemoryDescriptors LoaderBlock InitialGlobals = Returns g
  else MiScanMemoryDescriptors LoaderBlock InitialGlobals = AccessViolation.
Proof.
  destruct (HasUsableFreeMemory LoaderBlock) eqn:E; unfold HasUsableFreeMemory in E.
  - apply existsb_exists in E. destruct E as (d & Hin & Hd).
    apply andb_true_iff in Hd. destruct Hd as [Hf Hp]. apply Z.ltb_lt in Hp.
    destruct (MiScanLoop_selects LoaderBlock [] InitialGlobals d Hin Hf)
      as (i & d' & Hi & Hn & _).
    { left. simpl. exact Hp. }
    simpl in Hi, Hn. unfold MiScanMemoryDescriptors.
    rewrite Hi. simpl. rewrite Hn. eexists. reflexivity.
  - apply MiScanMemoryDescriptors_null_dereference.
    apply List.Forall_forall. intros d Hin.
    destruct (MiIsMemoryTypeFree (MemoryType d)) eqn:Ef; [|left; reflexivity].
    right. destruct (Z.ltb_spec 0 (PageCount d)) as [Hp | Hp]; [|exact Hp].
    exfalso. assert (Hex : existsb
      (fun d => MiIsMemoryTypeFree (MemoryType d) && (0 <? PageCount d))
      LoaderBlock = true).
    { apply existsb_exists. exists d. split; [exact Hin|].
      rewrite Ef. simpl. apply Z.ltb_lt. exact Hp. }
    rewrite Hex in E. discriminate.
Qed.

(** ** The mapping loop *)

Lemma InvalidPtes_nonneg t n : forall p, 0 <= InvalidPtes t n p.
Proof.
  induction n as [|n IH]; intros p; simpl; [lia|].
  specialize (IH (p + sizeof_MMPTE)).
  destruct (bool_decide (is_Some (t !! p))); lia.
Qed.

Lemma InvalidPtes_insert t n a v : forall p,
  a < p -> InvalidPtes (<[a := v]> t) n p = InvalidPtes t n p.
Proof.
  induction n as [|n IH]; intros p Hp; simpl; [reflexivity|].
  rewrite IH by (unfold sizeof_MMPTE; lia).
  rewrite lookup_insert_ne by lia. reflexivity.
Qed.

(** X4.  The mapping loop takes one page of the early allocator for each
    PTE of the range that is not valid, and none for the valid ones.  When
    the allocator holds at least that many pages the loop returns and the
    allocator has advanced by exactly that number; otherwise the loop
    bugchecks with [INSTALL_MORE_MEMORY], the total number of pages, zero
    pages remaining, the page count of the bootstrap descriptor and a
    request of one page. *)
Theorem MiMapPteRange_exhaustion (LoaderBlock : LOADER_PARAMETER_BLOCK)
    (d : MEMORY_ALLOCATION_DESCRIPTOR) (n : nat) :
  forall (PointerPte : Z) (st : MM_PFN_STATE),
  Deref LoaderBlock (MxFreeDescriptor (Globals st)) = Some d ->
  0 <= MiEarlyAllocCount (Globals st) ->
  0 <= MiEarlyAllocBase (Globals st) ->
  MiEarlyAllocBase (Globals st) + MiEarlyAllocCount (Globals st) < 2 ^ 32 ->
  if InvalidPtes (PageTables st) n PointerPte <=? MiEarlyAllocCount (Globals st)
  then exists st',
         MiMapPteRange LoaderBlock n PointerPte st = Returns st'
         /\ MiEarlyAllocCount (Globals st')
            = MiEarlyAllocCount (Globals st)
              - InvalidPtes (PageTables st) n PointerPte
         /\ MiEarlyAllocBase (Globals st')
            = MiEarlyAllocBase (Globals st)
              + InvalidPtes (PageTables st) n PointerPte
  else MiMapPteRange LoaderBlock n PointerPte st
       = BugCheck INSTALL_MORE_MEMORY
                  (MmNumberOfPhysicalPages (Globals st)) 0 (PageCount d) 1.
Proof.
  induction n as [|n IH]; intros ptr st Hd Hc Hb Hfit.
  - simpl. destruct (Z.leb_spec 0 (MiEarlyAllocCount (Globals st))); [|lia].
    exists st. split; [reflexivity|]. lia.
  - cbn [InvalidPtes MiMapPteRange]. unfold PteValid.
    destruct (bool_decide (is_Some (PageTables st !! ptr))) eqn:Ev;
      cbn [negb obind].
    + rewrite Z.add_0_l. exact (IH (ptr + sizeof_MMPTE) st Hd Hc Hb Hfit).
    + pose proof (InvalidPtes_nonneg (PageTables st) n (ptr + sizeof_MMPTE)) as Hn.
      destruct (Z.eq_dec (MiEarlyAllocCount (Globals st)) 0) as [Hz | Hnz].
      * destruct (Z.leb_spec (1 + InvalidPtes (PageTables st) n (ptr + sizeof_MMPTE))
                             (MiEarlyAllocCount (Globals st))); [lia|].
        rewrite (MiEarlyAllocPages_exhausted LoaderBlock (Globals st) d 1 Hd)
          by lia.
        cbn [obind]. rewrite Hz. reflexivity.
      * destruct (MiEarlyAllocPages_success LoaderBlock (Globals st) 1)
          as (g' & Hret & Hb' & Hc' & Hm' & Ht' & _); [lia | lia | lia |].
        rewrite Hret. cbn [obind fst snd].
        set (st1 := set_PageTables _ _).
        specialize (IH (ptr + sizeof_MMPTE) st1).
        assert (Hinv : InvalidPtes (PageTables st1) n (ptr + sizeof_MMPTE)
                       = InvalidPtes (PageTables st) n (ptr + sizeof_MMPTE)).
        { unfold st1. simpl. apply InvalidPtes_insert. unfold sizeof_MMPTE. lia. }
        rewrite Hinv in IH.
        replace (Globals st1) with g' in IH by reflexivity.
        rewrite Hc', Hb', Hm', Ht' in IH.
        specialize (IH Hd ltac:(lia) ltac:(lia) ltac:(lia)).
        destruct (Z.leb_spec (InvalidPtes (PageTables st) n (ptr + sizeof_MMPTE))
                             (MiEarlyAllocCount (Globals st) - 1));
        destruct (Z.leb_spec (1 + InvalidPtes (PageTables st) n (ptr + sizeof_MMPTE))
                             (MiEarlyAllocCount (Globals st))); try lia.
        -- destruct IH as (st' & Hr & H1 & H2). exists st'.
           split; [exact Hr|]. lia.
        -- exact IH.
Qed.

(** Nine PTEs to map with eight pages in the allocator. *)
Lemma MiMapPteRange_exhaustion_witness :
  MiMapPteRange TwoFreeBlocks 9 0xC02C0000 TwoFreeBlocksState
  = BugCheck INSTALL_MORE_MEMORY 14 0 8 1.
Proof.
  exact (MiMapPteRange_exhaustion TwoFreeBlocks
           (MkDescriptor LoaderFree 0x100 8) 9 0xC02C0000 TwoFreeBlocksState
           eq_refl ltac:(simpl; lia) ltac:(simpl; lia) ltac:(simpl; lia)).
Defined.

(** X5.  When the mapping loop returns, every PTE of the range is valid;
    a PTE that was valid before keeps its page frame; a PTE that became
    valid lies in the range and holds a page that the early allocator
    handed out during the loop; no two of the PTEs that became valid share
    a page; the PFN array and the color tables are untouched. *)
Theorem MiMapPteRange_maps (LoaderBlock : LOADER_PARAMETER_BLOCK) (n : nat) :
  forall (PointerPte : Z) (st st' : MM_PFN_STATE),
  0 <= MiEarlyAllocCount (Globals st) ->
  0 <= MiEarlyAllocBase (Globals st) ->
  MiEarlyAllocBase (Globals st) + MiEarlyAllocCount (Globals st) < 2 ^ 32 ->
  MiMapPteRange LoaderBlock n PointerPte st = Returns st' ->
  AllocatedFrom st st'
  /\ (forall a f, PageTables st !! a = Some f -> PageTables st' !! a = Some f)
  /\ (forall k, (k < n)%nat ->
        PteValid st' (PointerPte + sizeof_MMPTE * Z.of_nat k) = true)
  /\ (forall a f, PageTables st !! a = None -> PageTables st' !! a = Some f ->
        (exists k, (k < n)%nat /\ a = PointerPte + sizeof_MMPTE * Z.of_nat k)
        /\ MiEarlyAllocBase (Globals st) <= f < MiEarlyAllocBase (Globals st'))
  /\ (forall a b f, PageTables st !! a = None -> PageTables st !! b = None ->
        PageTables st' !! a = Some f -> PageTables st' !! b = Some f -> a = b).
Proof.
  induction n as [|n IH]; intros ptr st st' Hc Hb Hfit Hret.
  - simpl in Hret. injection Hret as <-.
    split; [apply AllocatedFrom_refl; exact Hc|].
    split; [auto|]. split; [intros k Hk; lia|].
    split; intros; congruence.
  - cbn [MiMapPteRange] in Hret. unfold PteValid in Hret at 1.
    destruct (bool_decide (is_Some (PageTables st !! ptr))) eqn:Ev;
      cbn [negb obind] in Hret.
    + destruct (IH _ _ _ Hc Hb Hfit Hret) as (HA & Hkeep & Hcov & Hnew & Hinj).
      split; [exact HA|]. split; [exact Hkeep|]. split; [|split].
      * intros [|k] Hk.
        -- rewrite Z.mul_0_r, Z.add_0_r. unfold PteValid.
           apply bool_decide_eq_true in Ev. destruct Ev as [f Hf].
           rewrite (Hkeep _ _ Hf). apply bool_decide_eq_true. eauto.
        -- specialize (Hcov k ltac:(lia)).
           replace (ptr + sizeof_MMPTE * Z.of_nat (S k))
             with (ptr + sizeof_MMPTE + sizeof_MMPTE * Z.of_nat k)
             by (unfold sizeof_MMPTE; lia).
           exact Hcov.
      * intros a f Ha Ha'. destruct (Hnew a f Ha Ha') as ((k & Hk & ->) & Hf).
        split; [|exact Hf]. exists (S k). split; [lia|].
        unfold sizeof_MMPTE. lia.
      * exact Hinj.
    + apply bool_decide_eq_false in Ev.
      assert (Hnone : PageTables st !! ptr = None).
      { destruct (PageTables st !! ptr) eqn:E; [|reflexivity].
        exfalso. apply Ev. eauto. }
      destruct (Z.eq_dec (MiEarlyAllocCount (Globals st)) 0) as [Hz | Hnz].
      { unfold MiEarlyAllocPages in Hret. rewrite Hz in Hret. simpl in Hret.
        destruct (Deref LoaderBlock (MxFreeDescriptor (Globals st)));
          discriminate. }
      destruct (MiEarlyAllocPages_success LoaderBlock (Globals st) 1)
        as (g' & Hal & Hb' & Hc' & Hm' & Ht' & Hl' & Hh'); [lia | lia | lia |].
      rewrite Hal in Hret. cbn [obind fst snd] in Hret.
      set (st1 := set_PageTables _ _) in Hret.
      assert (HG1 : Globals st1 = g') by reflexivity.
      assert (HT1 : PageTables st1
                    = <[ptr := MiEarlyAllocBase (Globals st)]> (PageTables st))
        by reflexivity.
      destruct (IH (ptr + sizeof_MMPTE) st1 st')
        as (HA & Hkeep & Hcov & Hnew & Hinj);
        [rewrite HG1; lia | rewrite HG1; lia | rewrite HG1; lia | exact Hret |].
      assert (HA1 : AllocatedFrom st st1).
      { unfold AllocatedFrom. rewrite HG1. simpl.
        repeat split; try reflexivity; try lia. exact Hm'. }
      pose proof (AllocatedFrom_trans _ _ _ HA1 HA) as HA'.
      destruct HA as (_ & _ & _ & _ & _ & _ & Hsum & Hle).
      rewrite HG1 in Hsum, Hle.
      assert (Hptr : PageTables st' !! ptr = Some (MiEarlyAllocBase (Globals st))).
      { apply Hkeep. rewrite HT1. apply lookup_insert_eq. }
      split; [exact HA'|]. split; [|split; [|split]].
      * intros a f Ha. apply Hkeep. rewrite HT1.
        rewrite lookup_insert_ne; [exact Ha | congruence].
      * intros [|k] Hk.
        -- rewrite Z.mul_0_r, Z.add_0_r. unfold PteValid.
           rewrite Hptr. apply bool_decide_eq_true. eauto.
        -- specialize (Hcov k ltac:(lia)).
           replace (ptr + sizeof_MMPTE * Z.of_nat (S k))
             with (ptr + sizeof_MMPTE + sizeof_MMPTE * Z.of_nat k)
             by (unfold sizeof_MMPTE; lia).
           exact Hcov.
      * intros a f Ha Ha'. destruct (Z.eq_dec a ptr) as [-> | Hne].
        -- rewrite Hptr in Ha'. injection Ha' as <-.
           split; [exists 0%nat; split; [lia | unfold sizeof_MMPTE; lia]|]. lia.
        -- assert (Ha1 : PageTables st1 !! a = None).
           { rewrite HT1, lookup_insert_ne by congruence. exact Ha. }
           destruct (Hnew a f Ha1 Ha') as ((k & Hk & ->) & Hf).
           rewrite HG1 in Hf.
           split; [|lia]. exists (S k). split; [lia|]. unfold sizeof_MMPTE. lia.
      * intros a b f Ha Hb0 Ha' Hb1'.
        destruct (Z.eq_dec a ptr) as [-> | Hna];
          destruct (Z.eq_dec b ptr) as [-> | Hnb]; try reflexivity.
        -- exfalso. rewrite Hptr in Ha'. injection Ha' as <-.
           assert (Hb1 : PageTables st1 !! b = None).
           { rewrite HT1, lookup_insert_ne by congruence. exact Hb0. }
           destruct (Hnew b _ Hb1 Hb1') as (_ & Hf). rewrite HG1 in Hf. lia.
        -- exfalso. rewrite Hptr in Hb1'. injection Hb1' as <-.
           assert (Ha1 : PageTables st1 !! a = None).
           { rewrite HT1, lookup_insert_ne by congruence. exact Ha. }
           destruct (Hnew a _ Ha1 Ha') as (_ & Hf). rewrite HG1 in Hf. lia.
        -- apply (Hinj a b f); try assumption.
           ++ rewrite HT1, lookup_insert_ne by congruence. exact Ha.
           ++ rewrite HT1, lookup_insert_ne by congruence. exact Hb0.
Qed.

(** Two PTEs mapped from [TwoFreeBlocksState]; the self-map of the page
    directory keeps frame 8. *)
Lemma MiMapPteRange_maps_witness :
  exists st',
    MiMapPteRange TwoFreeBlocks 2 0xC02C0000 TwoFreeBlocksState = Returns st'
    /\ PteValid st' 0xC02C0000 = true
    /\ PteValid st' 0xC02C0004 = true
    /\ PageTables st' !! 0xC0300C00 = Some 8.
Proof.
  destruct (MiMapPteRange TwoFreeBlocks 2 0xC02C0000 TwoFreeBlocksState)
    as [st'| | |] eqn:E; try (vm_compute in E; discriminate E).
  destruct (MiMapPteRange_maps TwoFreeBlocks 2 0xC02C0000 TwoFreeBlocksState
              st' ltac:(simpl; lia) ltac:(simpl; lia) ltac:(simpl; lia) E)
    as (_ & Hkeep & Hcov & _).
  exists st'. split; [reflexivity|].
  split; [exact (Hcov 0%nat ltac:(lia))|].
  split; [exact (Hcov 1%nat ltac:(lia))|].
  apply Hkeep. reflexivity.
Defined.

(** ** The color tables *)

Lemma MiMapPteRange_frame LoaderBlock n : forall PointerPte st st',
  MiMapPteRange LoaderBlock n PointerPte st = Returns st' ->
  PfnArray st' = PfnArray st /\ ColorTables st' = ColorTables st
  /\ MmSecondaryColors st' = MmSecondaryColors st
  /\ MmSecondaryColorMask st' = MmSecondaryColorMask st
  /\ MmPfnDatabase st' = MmPfnDatabase st.
Proof.
  induction n as [|n IH]; intros ptr st st' Hret; simpl in Hret.
  - injection Hret as <-. repeat split.
  - destruct (negb (PteValid st ptr)); cbn [obind] in Hret.
    + destruct (MiEarlyAllocPages LoaderBlock 1 (Globals st)) as [r| | |];
        cbn [obind] in Hret; try discriminate.
      destruct (IH _ _ _ Hret) as (H1 & H2 & H3 & H4 & H5).
      rewrite H1, H2, H3, H4, H5. repeat split.
    + exact (IH _ _ _ Hret).
Qed.

Lemma MiResetColorTables_lookup n : forall i t l c,
  MiResetColorTables n i t !! (l, c)
  = if ((l =? FreePageList) || (l =? ZeroedPageList))
       && (i <=? c) && (c <? i + Z.of_nat n)
    then Some EmptyColorTable else t !! (l, c).
Proof.
  induction n as [|n IH]; intros i t l c.
  - simpl. rewrite Z.add_0_r.
    destruct (Z.leb_spec i c), (Z.ltb_spec c i); try lia;
      rewrite ?andb_false_r; reflexivity.
  - cbn [MiResetColorTables]. rewrite IH.
    destruct ((l =? FreePageList) || (l =? ZeroedPageList)) eqn:El; simpl.
    + destruct (Z.leb_spec (i + 1) c), (Z.ltb_spec c (i + 1 + Z.of_nat n)),
               (Z.leb_spec i c), (Z.ltb_spec c (i + Z.of_nat (S n)));
        simpl; try lia; try reflexivity;
        try (rewrite !lookup_insert_ne by (intros [= ? ?]; lia); reflexivity).
      assert (c = i) by lia. subst c.
      apply orb_true_iff in El. destruct El as [El | El]; apply Z.eqb_eq in El;
        subst l.
      * apply lookup_insert_eq.
      * rewrite lookup_insert_ne by (unfold FreePageList, ZeroedPageList; congruence).
        apply lookup_insert_eq.
    + apply orb_false_iff in El. destruct El as [E1 E2].
      apply Z.eqb_neq in E1, E2.
      rewrite !lookup_insert_ne by congruence. reflexivity.
Qed.

(** Both heads of every color are reset. *)
Lemma MiInitializeColorTables_heads (LoaderBlock : LOADER_PARAMETER_BLOCK)
    (st st' : MM_PFN_STATE) :
  MiInitializeColorTables LoaderBlock st = Returns st' ->
  forall c, 0 <= c < MmSecondaryColors st ->
    ColorHead st' FreePageList c = EmptyColorTable
    /\ ColorHead st' ZeroedPageList c = EmptyColorTable.
Proof.
  unfold MiInitializeColorTables. intros Hret c Hc.
  destruct (MiMapPteRange LoaderBlock _ _ st) as [st1| | |] eqn:Emap;
    cbn [obind] in Hret; try discriminate.
  injection Hret as <-.
  destruct (MiMapPteRange_frame _ _ _ _ _ Emap) as (_ & _ & HS & _).
  unfold ColorHead. simpl. rewrite !MiResetColorTables_lookup, HS.
  rewrite Z2Nat.id by lia.
  destruct (Z.leb_spec 0 c), (Z.ltb_spec c (0 + MmSecondaryColors st)); try lia.
  split; reflexivity.
Qed.

(** X6.  When [MiInitializeColorTables] returns, the free and the zeroed
    list of every color below [MmSecondaryColors] are empty (both links
    [0xFFFFFFFF], count zero), whatever they held before; the PFN array is
    untouched. *)
Theorem MiInitializeColorTables_resets (LoaderBlock : LOADER_PARAMETER_BLOCK)
    (st st' : MM_PFN_STATE) :
  MiInitializeColorTables LoaderBlock st = Returns st' ->
  (forall c, 0 <= c < MmSecondaryColors st ->
     ColorHead st' FreePageList c = EmptyColorTable
     /\ ColorHead st' ZeroedPageList c = EmptyColorTable
     /\ PagesByColor st' FreePageList c = []
     /\ PagesByColor st' ZeroedPageList c = [])
  /\ PfnArray st' = PfnArray st.
Proof.
  intros Hret. split.
  - intros c Hc.
    destruct (MiInitializeColorTables_heads _ _ _ Hret c Hc) as [HF HZ].
    split; [exact HF|]. split; [exact HZ|].
    unfold PagesByColor. rewrite HF, HZ. split; reflexivity.
  - unfold MiInitializeColorTables in Hret.
    destruct (MiMapPteRange LoaderBlock _ _ st) as [st1| | |] eqn:Emap;
      cbn [obind] in Hret; try discriminate.
    injection Hret as <-.
    destruct (MiMapPteRange_frame _ _ _ _ _ Emap) as (HP & _).
    simpl. exact HP.
Qed.

(** The color tables of [TwoFreeBlocksState] after initialization. *)
Lemma MiInitializeColorTables_resets_witness :
  exists st',
    MiInitializeColorTables TwoFreeBlocks TwoFreeBlocksState = Returns st'
    /\ PagesByColor st' FreePageList 0 = []
    /\ PagesByColor st' FreePageList 1 = [].
Proof.
  destruct (MiInitializeColorTables TwoFreeBlocks TwoFreeBlocksState)
    as [st'| | |] eqn:E; try (vm_compute in E; discriminate E).
  destruct (MiInitializeColorTables_resets TwoFreeBlocks TwoFreeBlocksState
              st' E) as (Hreset & _).
  exists st'. split; [reflexivity|].
  split; [apply (Hreset 0) | apply (Hreset 1)]; simpl; lia.
Defined.

(** ** The passes of MiInitializePfnDatabase and the color tables *)

Lemma obind_returns {A B : Type} (m : Outcome A) (k : A -> Outcome B) (b : B) :
  obind m k = Returns b -> exists a, m = Returns a /\ k a = Returns b.
Proof. destruct m; simpl; intros H; try discriminate H. eauto. Qed.

Lemma MiInsertFreeRange_colors n : forall p st,
  MmSecondaryColors (MiInsertFreeRange n p st) = MmSecondaryColors st.
Proof.
  induction n as [|n IH]; intros p st; simpl; [reflexivity|].
  rewrite IH. reflexivity.
Qed.

Lemma MiMarkRomRange_colors n : forall p st,
  MmSecondaryColors (MiMarkRomRange n p st) = MmSecondaryColors st.
Proof.
  induction n as [|n IH]; intros p st; simpl; [reflexivity|].
  rewrite IH. reflexivity.
Qed.

Lemma MiMarkActiveRange_colors n : forall p st,
  MmSecondaryColors (MiMarkActiveRange n p st) = MmSecondaryColors st.
Proof.
  induction n as [|n IH]; intros p st; simpl; [reflexivity|].
  rewrite IH. reflexivity.
Qed.

Lemma MiMapPteRange_colors LoaderBlock n : forall PointerPte st st',
  MiMapPteRange LoaderBlock n PointerPte st = Returns st' ->
  MmSecondaryColors st' = MmSecondaryColors st.
Proof.
  induction n as [|n IH]; intros ptr st st' Hret; simpl in Hret.
  - injection Hret as <-. reflexivity.
  - apply obind_returns in Hret as (st1 & E1 & Hret).
    rewrite (IH _ _ _ Hret).
    destruct (negb (PteValid st ptr)).
    + apply obind_returns in E1 as (r & _ & E1). injection E1 as <-. reflexivity.
    + injection E1 as <-. reflexivity.
Qed.

Lemma MiMapDescriptor_colors checked LoaderBlock p d st st' :
  MiMapDescriptor checked LoaderBlock p d st = Returns st' ->
  MmSecondaryColors st' = MmSecondaryColors st.
Proof.
  unfold MiMapDescriptor. intros Hret.
  destruct (negb (MiIsMemoryTypeInDatabase (MemoryType d))).
  { injection Hret as <-. reflexivity. }
  apply obind_returns in Hret as (st1 & Emap & Hret).
  rewrite <- (MiMapPteRange_colors _ _ _ _ _ Emap).
  destruct (bool_decide (Some p = MxFreeDescriptor (Globals st1))).
  { injection Hret as <-. reflexivity. }
  apply obind_returns in Hret as (u & _ & Hret).
  destruct (MiIsMemoryTypeFree (MemoryType d)).
  { injection Hret as <-. apply MiInsertFreeRange_colors. }
  destruct (TYPE_OF_MEMORY_eqb (MemoryType d) LoaderXIPRom);
    injection Hret as <-;
    [apply MiMarkRomRange_colors | apply MiMarkActiveRange_colors].
Qed.

Lemma MiMapDescriptors_colors checked LoaderBlock l : forall p st st',
  MiMapDescriptors checked LoaderBlock p l st = Returns st' ->
  MmSecondaryColors st' = MmSecondaryColors st.
Proof.
  induction l as [|d l IH]; intros p st st' Hret; simpl in Hret.
  - injection Hret as <-. reflexivity.
  - apply obind_returns in Hret as (st1 & E & Hret).
    rewrite (IH _ _ _ Hret). exact (MiMapDescriptor_colors _ _ _ _ _ _ E).
Qed.

Lemma MiSetupPfnForPageTable_colors checked i p st st' :
  MiSetupPfnForPageTable checked i p st = Returns st' ->
  ColorTables st' = ColorTables st.
Proof.
  unfold MiSetupPfnForPageTable. intros Hret.
  apply obind_returns in Hret as (u & _ & Hret).
  match type of Hret with
  | (if ?c then _ else _) = _ => destruct c
  end; [discriminate Hret|].
  injection Hret as <-.
  match goal with
  | |- context [if ?c then _ else _] => destruct c
  end; reflexivity.
Qed.

Lemma MiWalkPageTable_colors checked n : forall p st st',
  MiWalkPageTable checked n p st = Returns st' ->
  ColorTables st' = ColorTables st.
Proof.
  induction n as [|n IH]; intros p st st' Hret; cbn [MiWalkPageTable] in Hret.
  - injection Hret as <-. reflexivity.
  - apply obind_returns in Hret as (st1 & E1 & Hret).
    rewrite (IH _ _ _ Hret).
    destruct (negb (PteValid st p)).
    + injection E1 as <-. reflexivity.
    + exact (MiSetupPfnForPageTable_colors _ _ _ _ _ E1).
Qed.

Lemma MiWalkPageDirectory_colors checked n : forall p st st',
  MiWalkPageDirectory checked n p st = Returns st' ->
  ColorTables st' = ColorTables st.
Proof.
  induction n as [|n IH]; intros p st st' Hret;
    cbn [MiWalkPageDirectory] in Hret.
  - injection Hret as <-. reflexivity.
  - apply obind_returns in Hret as (st1 & E1 & Hret).
    rewrite (IH _ _ _ Hret).
    destruct (negb (PteValid st p)).
    + injection E1 as <-. reflexivity.
    + apply obind_returns in E1 as (st2 & E2 & E1).
      rewrite (MiWalkPageTable_colors _ _ _ _ _ E1).
      exact (MiSetupPfnForPageTable_colors _ _ _ _ _ E2).
Qed.

Lemma MiBuildPfnDatabaseZeroPage_colors st :
  ColorTables (MiBuildPfnDatabaseZeroPage st) = ColorTables st.
Proof.
  unfold MiBuildPfnDatabaseZeroPage.
  match goal with |- context [if ?c then _ else _] => destruct c end; reflexivity.
Qed.

Lemma MiMarkPfnDatabasePages_colors n : forall p st,
  ColorTables (MiMarkPfnDatabasePages n p st) = ColorTables st.
Proof.
  induction n as [|n IH]; intros p st; simpl; [reflexivity|].
  rewrite IH. destruct (PteValid st p); reflexivity.
Qed.

(** X7.  When [MiInitializePfnDatabase] returns, the free and the zeroed
    list of every color below [MmSecondaryColors] are empty:
    [MiInitializeColorTables] runs after [MiMapPfnDatabase] has inserted
    the free pages and resets both heads of every color, and the passes
    that follow do not touch the color tables. *)
Theorem MiInitializePfnDatabase_lists_empty (checked : bool)
    (LoaderBlock : LOADER_PARAMETER_BLOCK) (st st' : MM_PFN_STATE) :
  MiInitializePfnDatabase checked LoaderBlock st = Returns st' ->
  forall c, 0 <= c < MmSecondaryColors st ->
    ColorHead st' FreePageList c = EmptyColorTable
    /\ ColorHead st' ZeroedPageList c = EmptyColorTable
    /\ PagesByColor st' FreePageList c = []
    /\ PagesByColor st' ZeroedPageList c = [].
Proof.
  unfold MiInitializePfnDatabase. intros Hret c Hc.
  apply obind_returns in Hret as (st2 & E2 & Hret).
  apply obind_returns in Hret as (st3 & E3 & Hret).
  apply obind_returns in Hret as (st4 & E4 & Hret).
  injection Hret as <-.
  assert (HS2 : MmSecondaryColors st2 = MmSecondaryColors st).
  { unfold MiMapPfnDatabase in E2.
    apply obind_returns in E2 as (st1 & E1 & E2).
    injection E2 as <-. rewrite MiInsertFreeRange_colors.
    exact (MiMapDescriptors_colors _ _ _ _ _ _ E1). }
  pose proof (MiInitializeColorTables_heads _ _ _ E3) as Hreset.
  rewrite HS2 in Hreset. destruct (Hreset c Hc) as (HF & HZ).
  unfold MiBuildPfnDatabaseFromPages in E4.
  pose proof (MiWalkPageDirectory_colors _ _ _ _ _ E4) as HC4.
  assert (Hhead : forall l,
            ColorHead (MiBuildPfnDatabaseSelf (MiBuildPfnDatabaseZeroPage st4)) l c
            = ColorHead st3 l c).
  { intros l. unfold ColorHead, MiBuildPfnDatabaseSelf.
    rewrite MiMarkPfnDatabasePages_colors, MiBuildPfnDatabaseZeroPage_colors, HC4.
    reflexivity. }
  unfold PagesByColor. rewrite !Hhead, HF, HZ. repeat split.
Qed.

(** The lists of [TwoFreeBlocksState] after [MiInitializePfnDatabase]. *)
Lemma MiInitializePfnDatabase_lists_empty_witness :
  exists st',
    MiInitializePfnDatabase true TwoFreeBlocks TwoFreeBlocksState = Returns st'
    /\ PagesByColor st' FreePageList 0 = []
    /\ PagesByColor st' FreePageList 1 = [].
Proof.
  destruct (MiInitializePfnDatabase true TwoFreeBlocks TwoFreeBlocksState)
    as [st'| | |] eqn:E; try (vm_compute in E; discriminate E).
  exists st'. split; [reflexivity|].
  split; [apply (MiInitializePfnDatabase_lists_empty _ _ _ _ E 0)
         |apply (MiInitializePfnDatabase_lists_empty _ _ _ _ E 1)];
    simpl; lia.
Defined.

(** X8.  [MiBuildPfnDatabaseZeroPage] changes the entry of page 0 only,
    and only when page 0 is the lowest physical page and its reference
    count is zero: the entry then gets the reference count [0xFFF0], the
    location [ActiveAndValid] and one more share.  Whatever the state, a
    second call changes nothing. *)
Theorem MiBuildPfnDatabaseZeroPage_once (st : MM_PFN_STATE) :
  MiBuildPfnDatabaseZeroPage (MiBuildPfnDatabaseZeroPage st)
  = MiBuildPfnDatabaseZeroPage st
  /\ (forall i, i <> 0 ->
        PfnEntry (MiBuildPfnDatabaseZeroPage st) i = PfnEntry st i)
  /\ Globals (MiBuildPfnDatabaseZeroPage st) = Globals st
  /\ PageTables (MiBuildPfnDatabaseZeroPage st) = PageTables st
  /\ (if (MmLowestPhysicalPage (Globals st) =? 0)
         && (ReferenceCount (PfnEntry st 0) =? 0)
      then ReferenceCount (PfnEntry (MiBuildPfnDatabaseZeroPage st) 0) = 0xFFF0
           /\ PageLocation (PfnEntry (MiBuildPfnDatabaseZeroPage st) 0)
              = ActiveAndValid
           /\ ShareCount (PfnEntry (MiBuildPfnDatabaseZeroPage st) 0)
              = ULONG (ShareCount (PfnEntry st 0) + 1)
      else MiBuildPfnDatabaseZeroPage st = st).
Proof.
  unfold MiBuildPfnDatabaseZeroPage at 2 3 4 5 6 7 8 9.
  destruct (Z.eqb_spec (MmLowestPhysicalPage (Globals st)) 0) as [E0 | Hne];
    cbn [andb].
  2:{ unfold MiBuildPfnDatabaseZeroPage.
      destruct (Z.eqb_spec (MmLowestPhysicalPage (Globals st)) 0); [lia|].
      cbn [andb]. repeat split. }
  rewrite E0.
  destruct (Z.eqb_spec (ReferenceCount (PfnEntry st 0)) 0) as [Er | Hnr].
  2:{ unfold MiBuildPfnDatabaseZeroPage. rewrite E0.
      change (0 =? 0) with true. cbn [andb].
      destruct (Z.eqb_spec (ReferenceCount (PfnEntry st 0)) 0); [lia|].
      repeat split. }
  set (st1 := PfnUpdate 0 _ st).
  assert (H0 : PfnEntry st1 0
               = set_CacheAttribute MiNonCached
                   (set_PageLocation ActiveAndValid
                      (set_ReferenceCount 65520
                         (set_ShareCount (ULONG (ShareCount (PfnEntry st 0) + 1))
                            (set_PteAddress (MiAddressToPde 4294967295)
                               (set_PteFrame
                                  (PFN_FROM_PTE st (MiAddressToPde 4294967295))
                                  (PfnEntry st 0))))))).
  { unfold st1, PfnEntry, PfnUpdate. simpl. rewrite lookup_insert_eq. reflexivity. }
  split; [|split; [|split; [|split]]].
  - unfold MiBuildPfnDatabaseZeroPage.
    replace (Globals st1) with (Globals st) by reflexivity. rewrite E0.
    change (0 =? 0) with true. cbn [andb]. rewrite H0. reflexivity.
  - intros i Hi. unfold st1, PfnEntry, PfnUpdate. simpl.
    rewrite lookup_insert_ne by congruence. reflexivity.
  - reflexivity.
  - reflexivity.
  - rewrite H0. repeat split.
Qed.

(** ** The PFN entries that MiMapPfnDatabase writes *)

















(** ** Memory events *)

Lemma KeReadStateEvent_set e ev e' :
  KeReadStateEvent (KeSetEvent e ev) e'
  = if bool_decide (e = e') then true else KeReadStateEvent ev e'.
Proof.
  unfold KeReadStateEvent, KeSetEvent. case_bool_decide as H.
  - subst. rewrite lookup_insert_eq. reflexivity.
  - rewrite lookup_insert_ne by exact H. reflexivity.
Qed.

Lemma KeReadStateEvent_clear e ev e' :
  KeReadStateEvent (KeClearEvent e ev) e'
  = if bool_decide (e = e') then false else KeReadStateEvent ev e'.
Proof.
  unfold KeReadStateEvent, KeClearEvent. case_bool_decide as H.
  - subst. rewrite lookup_insert_eq. reflexivity.
  - rewrite lookup_insert_ne by exact H. reflexivity.
Qed.

(** X10.  After [MiNotifyMemoryEvents], with two distinct events: the low
    memory event is signaled exactly when the available pages are below the
    low threshold; the high memory event is signaled exactly when they are
    below neither threshold; the two are never signaled together; no other
    event changes; and a second notification with the same numbers changes
    nothing. *)
Theorem MiNotifyMemoryEvents_states
    (Available Low High : Z) (LowEvent HighEvent : Z) (Events : gmap Z bool) :
  LowEvent <> HighEvent ->
  let Events' :=
    MiNotifyMemoryEvents Available Low High LowEvent HighEvent Events in
  KeReadStateEvent Events' LowEvent = (Available <? Low)
  /\ KeReadStateEvent Events' HighEvent
     = negb (Available <? Low) && negb (Available <? High)
  /\ (KeReadStateEvent Events' LowEvent && KeReadStateEvent Events' HighEvent
      = false)
  /\ (forall e, e <> LowEvent -> e <> HighEvent ->
        KeReadStateEvent Events' e = KeReadStateEvent Events e)
  /\ MiNotifyMemoryEvents Available Low High LowEvent HighEvent Events'
     = Events'.
Proof.
  intros Hne Events'.
  assert (H12 : KeReadStateEvent Events' LowEvent = (Available <? Low)
                /\ KeReadStateEvent Events' HighEvent
                   = negb (Available <? Low) && negb (Available <? High)).
  { subst Events'. unfold MiNotifyMemoryEvents.
    destruct (Available <? Low); [|destruct (Available <? High)]; simpl;
      destruct (KeReadStateEvent Events HighEvent) eqn:EH;
      destruct (KeReadStateEvent Events LowEvent) eqn:EL;
      repeat (rewrite ?KeReadStateEvent_clear, ?KeReadStateEvent_set;
              repeat (case_bool_decide; try congruence);
              rewrite ?EL, ?EH; simpl);
      auto. }
  destruct H12 as [H1 H2].
  split; [exact H1|]. split; [exact H2|]. split; [|split].
  - rewrite H1, H2. destruct (Available <? Low); reflexivity.
  - intros e HeL HeH. subst Events'. unfold MiNotifyMemoryEvents.
    destruct (Available <? Low); [|destruct (Available <? High)]; simpl;
      destruct (KeReadStateEvent Events HighEvent) eqn:EH;
      destruct (KeReadStateEvent Events LowEvent) eqn:EL;
      repeat (rewrite ?KeReadStateEvent_clear, ?KeReadStateEvent_set;
              repeat (case_bool_decide; try congruence);
              rewrite ?EL, ?EH; simpl);
      auto.
  - unfold MiNotifyMemoryEvents at 1. fold Events'.
    rewrite H1, H2.
    destruct (Available <? Low); [|destruct (Available <? High)]; simpl;
      try rewrite H1; try rewrite H2; reflexivity.
Qed.

(** 100 available pages with thresholds 400 and 1200. *)
Lemma MiNotifyMemoryEvents_states_witness :
  KeReadStateEvent (MiNotifyMemoryEvents 100 400 1200 1 2 ∅) 1 = true
  /\ KeReadStateEvent (MiNotifyMemoryEvents 100 400 1200 1 2 ∅) 2 = false.
Proof.
  destruct (MiNotifyMemoryEvents_states 100 400 1200 1 2 ∅ ltac:(lia))
    as (H1 & H2 & _).
  split; [exact H1 | exact H2].
Defined.

Lemma DefaultLowMemoryThreshold_monotone (P1 P2 : Z) :
  P1 <= P2 -> DefaultLowMemoryThreshold P1 <= DefaultLowMemoryThreshold P2.
Proof.
  intros H. unfold DefaultLowMemoryThreshold.
  destruct (Z.gtb_spec P1 0x40000), (Z.gtb_spec P2 0x40000),
           (Z.gtb_spec P1 0x8000), (Z.gtb_spec P2 0x8000),
           (Z.geb_spec P1 16128), (Z.geb_spec P2 16128); try lia; lia_div.
Qed.

(** X11.  [MiAdjustWorkingSetManagerParameters] followed by
    [MiInitializeMemoryEvents], from the initial [MmPlentyFreePages = 400]
    and without registry settings: the low threshold is
    [DefaultLowMemoryThreshold] of the number of physical pages and the
    high threshold three times that; the low threshold lies between 400 and
    16384 pages and never decreases when the number of physical pages
    grows. *)
Theorem MiInitializeMemoryEvents_tuned_thresholds (checked Client : bool)
    (Pages : Z) :
  0 <= Pages < 2 ^ 32 ->
  MiInitializeMemoryEvents checked
    (MiAdjustWorkingSetManagerParameters Client Pages 400) Pages 0 0
  = Returns (DefaultLowMemoryThreshold Pages,
             3 * DefaultLowMemoryThreshold Pages)
  /\ 400 <= DefaultLowMemoryThreshold Pages <= 16384
  /\ (forall Pages', Pages <= Pages' ->
        DefaultLowMemoryThreshold Pages <= DefaultLowMemoryThreshold Pages').
Proof.
  intros HP.
  assert (Hplenty : MiAdjustWorkingSetManagerParameters Client Pages 400
                    = if Pages >=? 16128 then 800 else 400).
  { unfold MiAdjustWorkingSetManagerParameters.
    change (63 * _1MB / PAGE_SIZE) with 16128.
    destruct (Pages >=? 16128); reflexivity. }
  assert (Hpl : 0 < MiAdjustWorkingSetManagerParameters Client Pages 400 < 2 ^ 31).
  { rewrite Hplenty. change (2 ^ 31) with 2147483648.
    destruct (Pages >=? 16128); lia. }
  destruct (MiInitializeMemoryEvents_default_low checked _ Pages 0 Hpl HP)
    as [Hl Heq].
  cbv zeta in Hl, Heq.
  assert (Hlow : Z.min
            (if Pages >? 262144
             then 32 * _1MB / PAGE_SIZE + Z.shiftr (Pages - 262144) 7
             else if Pages >? 32768
                  then MiAdjustWorkingSetManagerParameters Client Pages 400
                       + Z.shiftr (Pages - 32768) 5
                  else MiAdjustWorkingSetManagerParameters Client Pages 400)
            (64 * _1MB / PAGE_SIZE) = DefaultLowMemoryThreshold Pages).
  { rewrite Hplenty, shiftr_7, shiftr_5. unfold DefaultLowMemoryThreshold.
    change (32 * _1MB / PAGE_SIZE) with 8192.
    change (64 * _1MB / PAGE_SIZE) with 16384.
    destruct (Z.gtb_spec Pages 262144); [reflexivity|].
    destruct (Z.gtb_spec Pages 32768); [|reflexivity].
    destruct (Z.geb_spec Pages 16128); [reflexivity|lia]. }
  rewrite Hlow in Hl, Heq.
  assert (Hb : 400 <= DefaultLowMemoryThreshold Pages <= 16384).
  { split; [|lia]. unfold DefaultLowMemoryThreshold.
    destruct (Z.gtb_spec Pages 0x40000), (Z.gtb_spec Pages 0x8000),
             (Z.geb_spec Pages 16128); lia_div. }
  split; [|split; [exact Hb|]].
  - rewrite Heq. change (negb (0 =? 0)) with false. cbv iota.
    rewrite ULONG_small by (change (2 ^ 32) with 4294967296; lia).
    unfold ASSERT.
    destruct (Z.gtb_spec (3 * DefaultLowMemoryThreshold Pages)
                         (DefaultLowMemoryThreshold Pages)) as [_|Hle]; [|lia].
    rewrite andb_false_r. simpl.
    rewrite Z.max_l by lia. reflexivity.
  - intros P' HP'. apply DefaultLowMemoryThreshold_monotone. exact HP'.
Qed.

(** 128 MB of memory: thresholds of 800 and 2400 pages. *)
Lemma MiInitializeMemoryEvents_tuned_thresholds_witness :
  MiInitializeMemoryEvents true
    (MiAdjustWorkingSetManagerParameters true 0x8000 400) 0x8000 0 0
  = Returns (800, 2400).
Proof.
  destruct (MiInitializeMemoryEvents_tuned_thresholds true true 0x8000
              ltac:(change (2 ^ 32) with 4294967296; lia)) as (H & _).
  exact H.
Defined.

(** X12.  Whatever the routines it calls return, [MiCreateMemoryEvent]
    frees the DACL as often as it allocates it (at most once) and closes
    the event handle as often as [ZwCreateEvent] opens one; the returned
    status is a success exactly when every call succeeds, and only then
    does the caller's [Event] hold a reference; a failed pool allocation
    returns [STATUS_INSUFFICIENT_RESOURCES]. *)
Theorem MiCreateMemoryEvent_releases (R : CREATE_EVENT_RESULTS) :
  let Status := fst (MiCreateMemoryEvent R) in
  let Calls := snd (MiCreateMemoryEvent R) in
  CountCalls FreeDacl Calls = CountCalls AllocateDacl Calls
  /\ CountCalls CloseEventHandle Calls = CountCalls OpenEventHandle Calls
  /\ (CountCalls AllocateDacl Calls <= 1)%nat
  /\ NT_SUCCESS Status = AllSucceed R
  /\ CountCalls ReferenceEvent Calls = (if AllSucceed R then 1 else 0)%nat
  /\ (ExAllocatePoolWithTag_Succeeds R = false ->
      NT_SUCCESS (RtlCreateSecurityDescriptor_Status R) = true ->
      Status = STATUS_INSUFFICIENT_RESOURCES).
Proof.
  unfold MiCreateMemoryEvent, AllSucceed.
  destruct (NT_SUCCESS (RtlCreateSecurityDescriptor_Status R)) eqn:E1;
    cbn [negb andb fst snd].
  2:{ rewrite E1. repeat split; auto. discriminate. }
  destruct (ExAllocatePoolWithTag_Succeeds R) eqn:E2; cbn [negb andb fst snd].
  2:{ repeat split; auto. }
  destruct (NT_SUCCESS (RtlCreateAcl_Status R)) eqn:E3;
    cbn [negb andb fst snd app];
    [|rewrite E3; repeat split; auto; discriminate].
  destruct (NT_SUCCESS (RtlAddAccessAllowedAce_World_Status R)) eqn:E4;
    cbn [negb andb fst snd app];
    [|rewrite E4; repeat split; auto; discriminate].
  destruct (NT_SUCCESS (RtlAddAccessAllowedAce_Admins_Status R)) eqn:E5;
    cbn [negb andb fst snd app];
    [|rewrite E5; repeat split; auto; discriminate].
  destruct (NT_SUCCESS (RtlAddAccessAllowedAce_System_Status R)) eqn:E6;
    cbn [negb andb fst snd app];
    [|rewrite E6; repeat split; auto; discriminate].
  destruct (NT_SUCCESS (RtlSetDaclSecurityDescriptor_Status R)) eqn:E7;
    cbn [negb andb fst snd app];
    [|rewrite E7; repeat split; auto; discriminate].
  destruct (NT_SUCCESS (ZwCreateEvent_Status R)) eqn:E8;
    cbn [negb andb fst snd app];
    [|rewrite E8; repeat split; auto; discriminate].
  destruct (NT_SUCCESS (ObReferenceObjectByHandle_Status R)) eqn:E9;
    cbn [negb andb fst snd app]; repeat split; auto; discriminate.
Qed.

(** ** Tuning of the Phase 0 parameters *)

Lemma ROUND_TO_PAGES_spec (x : Z) :
  0 <= x < 2 ^ 32 ->
  exists k, ROUND_TO_PAGES x = 4096 * k /\ 0 <= k < 2 ^ 20
            /\ (x <= 2 ^ 32 - 4096 -> x <= 4096 * k < x + 4096).
Proof.
  intros Hx. unfold ROUND_TO_PAGES.
  change (ULONG (Z.lnot (PAGE_SIZE - 1))) with (2 ^ 32 - 4096).
  pose proof (ULONG_range (x + (PAGE_SIZE - 1))) as Hr.
  set (y := ULONG (x + (PAGE_SIZE - 1))) in *.
  assert (Hland : Z.land y (2 ^ 32 - 4096) = 4096 * (y / 4096)).
  { replace (2 ^ 32 - 4096) with (Z.shiftl (Z.ones 20) 12) by reflexivity.
    replace (4096 * (y / 4096)) with (Z.shiftl (Z.shiftr y 12) 12)
      by (rewrite Z.shiftl_mul_pow2, Z.shiftr_div_pow2 by lia;
          change (2 ^ 12) with 4096; lia).
    apply Z.bits_inj'. intros n Hn.
    rewrite Z.land_spec.
    destruct (Z.lt_ge_cases n 12) as [Hlt | Hge].
    - rewrite !Z.shiftl_spec_low by lia. apply andb_false_r.
    - rewrite !Z.shiftl_spec by lia.
      rewrite Z.shiftr_spec by lia. replace (n - 12 + 12) with n by lia.
      destruct (Z.lt_ge_cases (n - 12) 20) as [H20 | H20].
      + rewrite Z.ones_spec_low by lia. apply andb_true_r.
      + rewrite Z.ones_spec_high by lia. rewrite andb_false_r.
        symmetry. destruct (Z.eq_dec y 0) as [-> | Hy0];
          [apply Z.bits_0|].
        apply Z.bits_above_log2; [lia|].
        apply Z.log2_lt_pow2; [lia|].
        apply Z.lt_le_trans with (2 ^ 32); [lia|].
        apply Z.pow_le_mono_r; lia. }
  rewrite Hland. exists (y / 4096).
  change (2 ^ 32) with 4294967296 in *. change (2 ^ 20) with 1048576.
  split; [reflexivity|]. split; [lia_div|].
  intros Hsmall. unfold y in *. unfold PAGE_SIZE in *.
  rewrite ULONG_small by (change (2 ^ 32) with 4294967296; lia).
  lia_div.
Qed.

(** X13.  For header constants with
    [0 < MIN <= DEFAULT / 4], [DEFAULT <= MAX], [MIN] and [MAX] whole pages
    and [DEFAULT] a multiple of four pages (64KB, 4KB and 2MB are such
    values), the allocation fragment that [MmArmInitSystem] computes lies
    between the minimum and the maximum and is a whole number of pages, for
    every registry setting; a setting whose size in bytes lies between the
    two limits is rounded up to the next page boundary. *)
Theorem MmArmInitSystem_AllocationFragment_bounds (K : FRAGMENT_LIMITS)
    (Pages Fragment : Z) :
  0 < MI_MIN_ALLOCATION_FRAGMENT K <= MI_ALLOCATION_FRAGMENT K / 4 ->
  MI_ALLOCATION_FRAGMENT K <= MI_MAX_ALLOCATION_FRAGMENT K ->
  MI_MIN_ALLOCATION_FRAGMENT K mod PAGE_SIZE = 0 ->
  MI_MAX_ALLOCATION_FRAGMENT K mod PAGE_SIZE = 0 ->
  MI_ALLOCATION_FRAGMENT K mod (4 * PAGE_SIZE) = 0 ->
  0 <= Fragment < 2 ^ 32 ->
  let r := MmArmInitSystem_AllocationFragment K Pages Fragment in
  MI_MIN_ALLOCATION_FRAGMENT K <= r <= MI_MAX_ALLOCATION_FRAGMENT K
  /\ r mod PAGE_SIZE = 0
  /\ (Fragment <> 0 ->
      MI_MIN_ALLOCATION_FRAGMENT K <= Fragment * _1KB
        <= MI_MAX_ALLOCATION_FRAGMENT K ->
      MI_MAX_ALLOCATION_FRAGMENT K <= 2 ^ 32 - PAGE_SIZE ->
      Fragment * _1KB <= r < Fragment * _1KB + PAGE_SIZE).
Proof.
  intros Hmin Hmax Hmin4 Hmax4 Hdef4 HF r. subst r.
  unfold MmArmInitSystem_AllocationFragment, PAGE_SIZE, _1KB in *.
  destruct (Z.eqb_spec Fragment 0) as [-> | Hnz].
  - split; [|split; [|congruence]].
    + destruct (Pages <? _); [|destruct (Pages <? _)]; lia_div.
    + destruct (Pages <? _); [|destruct (Pages <? _)]; lia_div.
  - destruct (ROUND_TO_PAGES_spec (ULONG (Fragment * 1024)) (ULONG_range _))
      as (k & Hk & Hkr & Hround).
    rewrite Hk. split; [lia_div|]. split.
    + destruct (Z.min_spec (4096 * k) (MI_MAX_ALLOCATION_FRAGMENT K))
        as [[_ ->] | [_ ->]];
      [destruct (Z.max_spec (4096 * k) (MI_MIN_ALLOCATION_FRAGMENT K))
         as [[_ ->] | [_ ->]]
      |destruct (Z.max_spec (MI_MAX_ALLOCATION_FRAGMENT K)
                            (MI_MIN_ALLOCATION_FRAGMENT K))
         as [[_ ->] | [_ ->]]]; lia_div.
    + intros _ Hreq Hfit.
      rewrite (ULONG_small (Fragment * 1024)) in Hround
        by (change (2 ^ 32) with 4294967296 in *; lia).
      specialize (Hround ltac:(change (2 ^ 32) with 4294967296 in *; lia)).
      assert (4096 * k <= MI_MAX_ALLOCATION_FRAGMENT K) by lia_div.
      lia.
Qed.

(** With 64KB, 4KB and 2MB: 16KB by default on a 128 MB system, 8KB for a
    setting of 5 (KB), and the minimum for the setting [0x3FFFFF], whose
    rounding wraps around to zero. *)
Lemma MmArmInitSystem_AllocationFragment_bounds_witness :
  let K := MkFragmentLimits (64 * _1KB) (4 * _1KB) (2 * _1MB) in
  MmArmInitSystem_AllocationFragment K 0x8000 0 = 16 * _1KB
  /\ MmArmInitSystem_AllocationFragment K 0x8000 5 = 8 * _1KB
  /\ MmArmInitSystem_AllocationFragment K 0x8000 0x3FFFFF = 4 * _1KB
  /\ 4 * _1KB <= MmArmInitSystem_AllocationFragment K 0x8000 0x3FFFFF
     <= 2 * _1MB.
Proof.
  intros K.
  pose proof (MmArmInitSystem_AllocationFragment_bounds K 0x8000 0x3FFFFF
                ltac:(vm_compute; split; [reflexivity | discriminate])
                ltac:(vm_compute; discriminate)
                ltac:(reflexivity) ltac:(reflexivity) ltac:(reflexivity)
                ltac:(vm_compute; split; [discriminate | reflexivity]))
    as (Hb & _).
  repeat split; try reflexivity; apply Hb.
Defined.

(** X14.  For page-aligned [KERNEL_STACK_SIZE <= KERNEL_LARGE_STACK_SIZE],
    the tuning of [MmLargeStackSize] returns on either build (neither
    assertion fails) with a page-aligned size between the two constants: a
    setting above [KERNEL_LARGE_STACK_SIZE / 1KB] gives the large size, a
    setting whose size in bytes lies between the two constants is rounded
    up to the next page boundary. *)
Theorem MmArmInitSystem_LargeStackSize_bounds (checked : bool)
    (KERNEL_STACK_SIZE KERNEL_LARGE_STACK_SIZE Size : Z) :
  0 < KERNEL_STACK_SIZE <= KERNEL_LARGE_STACK_SIZE ->
  KERNEL_LARGE_STACK_SIZE < 2 ^ 32 ->
  KERNEL_STACK_SIZE mod PAGE_SIZE = 0 ->
  KERNEL_LARGE_STACK_SIZE mod PAGE_SIZE = 0 ->
  0 <= Size < 2 ^ 32 ->
  exists r,
    MmArmInitSystem_LargeStackSize checked KERNEL_STACK_SIZE
      KERNEL_LARGE_STACK_SIZE Size = Returns r
    /\ KERNEL_STACK_SIZE <= r <= KERNEL_LARGE_STACK_SIZE
    /\ r mod PAGE_SIZE = 0
    /\ (KERNEL_LARGE_STACK_SIZE / _1KB < Size -> r = KERNEL_LARGE_STACK_SIZE)
    /\ (KERNEL_STACK_SIZE <= Size * _1KB <= KERNEL_LARGE_STACK_SIZE ->
        Size * _1KB <= r < Size * _1KB + PAGE_SIZE).
Proof.
  intros HK HKL Hks Hkl HS.
  unfold MmArmInitSystem_LargeStackSize, PAGE_SIZE, _1KB in *.
  change (2 ^ 32) with 4294967296 in *.
  destruct (Z.gtb_spec Size (KERNEL_LARGE_STACK_SIZE / 1024)) as [Hbig | Hsmall].
  - eexists. split; [reflexivity|]. split; [lia|]. split; [exact Hkl|].
    split; [reflexivity|]. intros H. exfalso. lia_div.
  - assert (Hbytes : 0 <= Size * 1024 <= KERNEL_LARGE_STACK_SIZE) by lia_div.
    rewrite (ULONG_small (Size * 1024))
      by (change (2 ^ 32) with 4294967296; lia).
    destruct (ROUND_TO_PAGES_spec (Size * 1024))
      as (k & Hk & Hkr & Hround); [change (2 ^ 32) with 4294967296; lia|].
    change (PAGE_ROUND_UP (Size * 1024)) with (ROUND_TO_PAGES (Size * 1024)).
    rewrite Hk.
    specialize (Hround ltac:(change (2 ^ 32) with 4294967296; lia_div)).
    assert (Hle : 4096 * k <= KERNEL_LARGE_STACK_SIZE) by lia_div.
    assert (Hland : Z.land (4096 * k) (4096 - 1) = 0).
    { change (4096 - 1) with (Z.ones 12). rewrite Z.land_ones by lia.
      change (2 ^ 12) with 4096. lia_div. }
    rewrite Hland.
    destruct (Z.leb_spec (4096 * k) KERNEL_LARGE_STACK_SIZE); [|lia].
    rewrite !ASSERT_true. cbn [obind].
    eexists. split; [reflexivity|].
    destruct (Z.ltb_spec (4096 * k) KERNEL_STACK_SIZE).
    + split; [lia|]. split; [exact Hks|]. split; [lia|]. lia.
    + split; [lia|]. split; [lia_div|]. split; [lia|]. lia.
Qed.

(** With 12KB and 60KB: the initial value 61440 is sanitized to 60KB, a
    setting of zero gives 12KB. *)
Lemma MmArmInitSystem_LargeStackSize_bounds_witness :
  MmArmInitSystem_LargeStackSize true 12288 61440 61440 = Returns 61440
  /\ MmArmInitSystem_LargeStackSize true 12288 61440 0 = Returns 12288
  /\ exists r, MmArmInitSystem_LargeStackSize true 12288 61440 17 = Returns r
               /\ 12288 <= r <= 61440.
Proof.
  split; [reflexivity|]. split; [reflexivity|].
  destruct (MmArmInitSystem_LargeStackSize_bounds true 12288 61440 17)
    as (r & Hr & Hb & _);
    [lia | change (2 ^ 32) with 4294967296; lia | reflexivity | reflexivity
    | change (2 ^ 32) with 4294967296; lia |].
  exists r. split; assumption.
Defined.

(** X15.  The system size and the minimum of the system cache working set
    depend on the number of physical pages through four thresholds only:
    the system is small up to 19 MB, large from 64 MB on (from 32 MB on a
    workstation) and medium in between; the minimum is 32 pages below
    24 MB, the initial value plus 400 from 24 MB to 33 MB, and 500 more
    above 33 MB.  A small system always has the minimum of 32 pages (the
    100 pages added between 13 MB and 19 MB never survive), and from the
    initial 288 the minimum is 32, 688 or 1188. *)
Theorem MmArmInitSystem_SystemSize_closed_form (Pages : Z) (IsWinNt : bool)
    (CacheWsMinimum : Z) :
  MmArmInitSystem_SystemSize Pages IsWinNt CacheWsMinimum
  = (if Pages <=? 4864 then MmSmallSystem
     else if (Pages >=? 16384) || IsWinNt && (Pages >=? 8192)
          then MmLargeSystem else MmMediumSystem,
     if Pages <? 6144 then 32
     else if Pages >? 8448 then ULONG (ULONG (CacheWsMinimum + 400) + 500)
          else ULONG (CacheWsMinimum + 400))
  /\ (fst (MmArmInitSystem_SystemSize Pages IsWinNt CacheWsMinimum)
      = MmSmallSystem ->
      snd (MmArmInitSystem_SystemSize Pages IsWinNt CacheWsMinimum) = 32)
  /\ (CacheWsMinimum = 288 ->
      In (snd (MmArmInitSystem_SystemSize Pages IsWinNt CacheWsMinimum))
         [32; 688; 1188]).
Proof.
  assert (Heq : MmArmInitSystem_SystemSize Pages IsWinNt CacheWsMinimum
  = (if Pages <=? 4864 then MmSmallSystem
     else if (Pages >=? 16384) || IsWinNt && (Pages >=? 8192)
          then MmLargeSystem else MmMediumSystem,
     if Pages <? 6144 then 32
     else if Pages >? 8448 then ULONG (ULONG (CacheWsMinimum + 400) + 500)
          else ULONG (CacheWsMinimum + 400))).
  { unfold MmArmInitSystem_SystemSize.
    change (13 * _1MB / PAGE_SIZE) with 3328.
    change (19 * _1MB / PAGE_SIZE) with 4864.
    change (24 * _1MB / PAGE_SIZE) with 6144.
    change (32 * _1MB / PAGE_SIZE) with 8192.
    change (33 * _1MB / PAGE_SIZE) with 8448.
    change (64 * _1MB / PAGE_SIZE) with 16384.
    destruct (Z.leb_spec Pages 3328), (Z.leb_spec Pages 4864),
             (Z.ltb_spec Pages 6144), (Z.geb_spec Pages 8192),
             (Z.gtb_spec Pages 8448), (Z.geb_spec Pages 16384);
      try lia; destruct IsWinNt; reflexivity. }
  split; [exact Heq|]. rewrite Heq. cbn [fst snd]. split.
  - destruct (Z.leb_spec Pages 4864), (Z.ltb_spec Pages 6144); try lia;
      try reflexivity.
    destruct ((Pages >=? 16384) || IsWinNt && (Pages >=? 8192)); discriminate.
  - intros ->. destruct (Pages <? 6144); [left; reflexivity|].
    destruct (Pages >? 8448); [right; right; left|right; left]; reflexivity.
Qed.

(** ** The physical memory block for descriptors in any order *)

Lemma MmLimitsLoop_open_run_any checked Inc l : forall done cur rest total,
  Forall ValidRange (Included Inc l) ->
  Forall ValidPages (Included Inc l) ->
  0 <= RunBasePage cur -> 0 < RunPageCount cur -> RunEnd cur < 2 ^ 32 ->
  0 <= total ->
  total + SumPageCount (Included Inc l) < 2 ^ 32 ->
  (length l <= length rest)%nat ->
  Z.of_nat (length done + 1 + length rest) < 2 ^ 32 ->
  exists rest' next,
    MmLimitsLoop checked Inc l
      (MkLimitsLoop (Z.of_nat (length done) + 1) (RunEnd cur) total
                    (done ++ cur :: rest))
    = Returns
        (MkLimitsLoop
           (Z.of_nat (length (done ++ CoalesceFrom cur (Included Inc l))))
           next (total + SumPageCount (Included Inc l))
           ((done ++ CoalesceFrom cur (Included Inc l)) ++ rest'))
    /\ length ((done ++ CoalesceFrom cur (Included Inc l)) ++ rest')
       = length (done ++ cur :: rest).
Proof.
  induction l as [|d l IH];
    intros done cur rest total Hv Hp Hb Hc He Ht Hsum Hlen Hcap.
  - simpl. exists rest, (RunEnd cur). split.
    + rewrite length_app, Z.add_0_r. simpl length.
      rewrite <- app_assoc. simpl.
      repeat f_equal. lia.
    + rewrite <- app_assoc. reflexivity.
  - rewrite Included_cons in *. simpl MmLimitsLoop.
    unfold MmLimitsDescriptor. simpl LoopBuffer. simpl LoopRun.
    simpl LoopNextPage. simpl LoopPageCount.
    simpl length in Hlen.
    destruct (Inc (MemoryType d)) eqn:EInc.
    + (* an included descriptor *)
      inversion Hv as [|? ? [Hdc Hde] Hvl]; subst.
      inversion Hp as [|? ? (Hd0 & _ & _) Hpl]; subst.
      simpl SumPageCount in Hsum.
      pose proof (SumPageCount_ranges_nonneg _ Hvl) as Hnn.
      rewrite (ULONG_small (total + PageCount d)) by lia.
      destruct (Z.eqb_spec (BasePage d) (RunEnd cur)) as [Eq|Ne].
      * (* it extends the open run *)
        simpl CoalesceFrom.
        destruct (Z.eqb_spec (BasePage d) (RunEnd cur)) as [_|]; [|lia].
        replace (negb (PageCount d =? 0)) with true
          by (symmetry; apply negb_true_iff, Z.eqb_neq; lia).
        rewrite ASSERT_true. simpl obind.
        replace (ULONG (Z.of_nat (length done) + 1 - 1))
          with (Z.of_nat (length done)) by (rewrite ULONG_small; lia).
        rewrite RunStore_middle. simpl obind.
        assert (Hend : RunEnd cur + PageCount d < 2 ^ 32) by lia.
        rewrite (ULONG_small (RunPageCount cur + PageCount d))
          by (unfold RunEnd in *; lia).
        rewrite (ULONG_small (RunEnd cur + PageCount d))
          by (unfold RunEnd in *; lia).
        set (cur' := MkRun (RunBasePage cur) (RunPageCount cur + PageCount d)).
        destruct rest as [|x rest]; [simpl in Hlen; lia|].
        destruct (IH done cur' (x :: rest) (total + PageCount d))
          as (rest' & next & Hrun & Hl'); try assumption;
          try (unfold cur', RunEnd in *; simpl in *; lia).
        exists rest', next.
        replace (RunEnd cur + PageCount d) with (RunEnd cur')
          by (unfold RunEnd, cur'; simpl; lia).
        rewrite Hrun. split.
        -- do 2 f_equal. simpl. lia.
        -- rewrite Hl'. rewrite !length_app. reflexivity.
      * (* it opens a new run *)
        simpl CoalesceFrom.
        destruct (Z.eqb_spec (BasePage d) (RunEnd cur)) as [|_]; [lia|].
        destruct rest as [|x rest]; [simpl in Hlen; lia|].
        replace (done ++ cur :: x :: rest) with ((done ++ [cur]) ++ x :: rest)
          by (rewrite <- app_assoc; reflexivity).
        replace (Z.of_nat (length done) + 1)
          with (Z.of_nat (length (done ++ [cur])))
          by (rewrite length_app; simpl; lia).
        rewrite RunStore_middle. simpl obind.
        rewrite (ULONG_small (Z.of_nat (length (done ++ [cur])) + 1))
          by (rewrite length_app in *; simpl in *; lia).
        rewrite (ULONG_small (BasePage d + PageCount d))
          by (unfold RunEnd in *; lia).
        set (cur' := MkRun (BasePage d) (PageCount d)).
        destruct (IH (done ++ [cur]) cur' rest (total + PageCount d))
          as (rest' & next & Hrun & Hl'); try assumption;
          try (unfold cur', RunEnd in *; rewrite ?length_app in *;
               simpl in *; lia).
        exists rest', next.
        change (BasePage d + PageCount d) with (RunEnd cur').
        rewrite Hrun.
        rewrite <- !app_assoc in *. simpl in *. split.
        -- do 2 f_equal. simpl. lia.
        -- rewrite Hl', !length_app. reflexivity.
    + (* a descriptor that is left out *)
      simpl obind.
      destruct rest as [|x rest]; [simpl in Hlen; lia|].
      destruct (IH done cur (x :: rest) total)
        as (rest' & next & Hrun & Hl'); try assumption.
      { simpl in *. lia. }
      exists rest', next. split; [exact Hrun|exact Hl'].
Qed.

Lemma MmLimitsLoop_start_any checked Inc l : forall buf,
  Forall ValidRange (Included Inc l) ->
  Forall ValidPages (Included Inc l) ->
  SumPageCount (Included Inc l) < 2 ^ 32 ->
  (length l <= length buf)%nat ->
  Z.of_nat (length buf) < 2 ^ 32 ->
  exists rest' next,
    MmLimitsLoop checked Inc l (MkLimitsLoop 0 MINUS_ONE 0 buf)
    = Returns
        (MkLimitsLoop (Z.of_nat (length (Coalesce (Included Inc l)))) next
           (SumPageCount (Included Inc l))
           (Coalesce (Included Inc l) ++ rest'))
    /\ length (Coalesce (Included Inc l) ++ rest') = length buf.
Proof.
  induction l as [|d l IH]; intros buf Hv Hp Hsum Hlen Hcap.
  - exists buf, MINUS_ONE. split; reflexivity.
  - rewrite Included_cons in *. simpl MmLimitsLoop.
    unfold MmLimitsDescriptor. simpl LoopBuffer. simpl LoopRun.
    simpl LoopNextPage. simpl LoopPageCount.
    simpl length in Hlen.
    destruct (Inc (MemoryType d)) eqn:EInc.
    + inversion Hv as [|? ? [Hdc Hde] Hvl]; subst.
      inversion Hp as [|? ? (Hd0 & _ & _) Hpl]; subst.
      pose proof (SumPageCount_ranges_nonneg _ Hvl) as Hnn.
      simpl SumPageCount in Hsum.
      change MINUS_ONE with 4294967295.
      change (2 ^ 32) with 4294967296 in *.
      destruct (Z.eqb_spec (BasePage d) 4294967295) as [|_]; [lia|].
      destruct buf as [|x rest]; [simpl in Hlen; lia|].
      change (x :: rest) with ([] ++ x :: rest).
      change 0 with (Z.of_nat (length (@nil PHYSICAL_MEMORY_RUN))) at 2.
      rewrite RunStore_middle. simpl obind. simpl length.
      change (Z.of_nat 0) with 0.
      rewrite (ULONG_small (0 + 1))
        by (change (2 ^ 32) with 4294967296; lia).
      rewrite (ULONG_small (0 + PageCount d))
        by (change (2 ^ 32) with 4294967296; lia).
      rewrite (ULONG_small (BasePage d + PageCount d))
        by (change (2 ^ 32) with 4294967296; lia).
      set (cur := MkRun (BasePage d) (PageCount d)).
      destruct (MmLimitsLoop_open_run_any checked Inc l [] cur rest
                  (0 + PageCount d))
        as (rest' & next & Hrun & Hl'); try assumption;
        try (change (2 ^ 32) with 4294967296;
             unfold cur, RunEnd in *; simpl in *; lia).
      exists rest', next. simpl in Hrun, Hl'.
      change (BasePage d + PageCount d) with (RunEnd cur).
      change (0 + 1) with (Z.of_nat 0 + 1). rewrite Hrun.
      split; [|exact Hl']. simpl. do 2 f_equal.
    + simpl obind. apply IH; try assumption. lia.
Qed.

Lemma CoalesceFrom_head cur l :
  exists c tl, CoalesceFrom cur l = MkRun (RunBasePage cur) c :: tl.
Proof.
  revert cur. induction l as [|d l IH]; intros cur; simpl.
  - destruct cur. eexists _, _. reflexivity.
  - destruct (BasePage d =? RunEnd cur).
    + destruct (IH (MkRun (RunBasePage cur) (RunPageCount cur + PageCount d)))
        as (c & tl & ->). eexists _, _. reflexivity.
    + destruct cur. eexists _, _. reflexivity.
Qed.

Lemma CoalesceFrom_no_adjacent l : forall cur,
  NoAdjacentRuns (CoalesceFrom cur l).
Proof.
  induction l as [|d l IH]; intros cur; simpl.
  - auto.
  - destruct (Z.eqb_spec (BasePage d) (RunEnd cur)) as [Eq | Ne].
    + apply IH.
    + specialize (IH (MkRun (BasePage d) (PageCount d))).
      destruct (CoalesceFrom_head (MkRun (BasePage d) (PageCount d)) l)
        as (c & tl & Heq).
      rewrite Heq in *. simpl. split; [exact Ne | exact IH].
Qed.

Lemma CoalesceFrom_nonempty_runs l : forall cur,
  0 < RunPageCount cur -> Forall ValidRange l ->
  Forall (fun r => 0 < RunPageCount r) (CoalesceFrom cur l).
Proof.
  induction l as [|d l IH]; intros cur Hc Hv; simpl.
  - constructor; [exact Hc | constructor].
  - inversion Hv as [|? ? [Hdc _] Hvl]; subst.
    destruct (BasePage d =? RunEnd cur).
    + apply IH; [simpl; lia | exact Hvl].
    + constructor; [exact Hc|]. apply IH; [exact Hdc | exact Hvl].
Qed.

(** The block for selected descriptors in any order: its runs are the
    coalescing of the selected descriptors. *)
Lemma MmInitializeMemoryLimits_coalesces (checked Alloc2 : bool)
    (Pool : PHYSICAL_MEMORY_RUN) (LoaderBlock : LOADER_PARAMETER_BLOCK)
    (IncludeType : TYPE_OF_MEMORY -> bool) :
  Forall ValidRange (Included IncludeType LoaderBlock) ->
  Forall ValidPages (Included IncludeType LoaderBlock) ->
  SumPageCount (Included IncludeType LoaderBlock) < 2 ^ 32 ->
  Z.of_nat (length LoaderBlock) < 2 ^ 32 ->
  exists b,
    MmInitializeMemoryLimits checked true Alloc2 Pool
      (Z.of_nat (length LoaderBlock)) LoaderBlock IncludeType
    = Returns (Some b)
    /\ RunsOf b = Coalesce (Included IncludeType LoaderBlock)
    /\ NumberOfPages b = SumPageCount (Included IncludeType LoaderBlock)
    /\ NumberOfRuns b = Z.of_nat (length (RunsOf b)).
Proof.
  intros Hv Hp Hsum Hcap.
  unfold MmInitializeMemoryLimits. simpl negb. cbv iota.
  rewrite Nat2Z.id.
  destruct (MmLimitsLoop_start_any checked IncludeType LoaderBlock
              (replicate (length LoaderBlock) Pool))
    as (rest' & next & Hrun & Hlen); try assumption;
    try (rewrite length_replicate; lia).
  rewrite Hrun. simpl obind. simpl LoopRun. simpl LoopBuffer.
  simpl LoopPageCount.
  set (runs := Coalesce (Included IncludeType LoaderBlock)) in *.
  rewrite length_replicate, length_app in Hlen.
  replace (Z.of_nat (length runs) <=? Z.of_nat (length LoaderBlock)) with true
    by (symmetry; apply Z.leb_le; lia).
  rewrite ASSERT_true. simpl obind.
  eexists. split; [reflexivity|].
  assert (Hruns : RunsOf
            {| NumberOfRuns := Z.of_nat (length runs);
               NumberOfPages := SumPageCount (Included IncludeType LoaderBlock);
               Run := if (Z.of_nat (length LoaderBlock)
                          >? Z.of_nat (length runs)) && Alloc2
                      then take (Z.to_nat (Z.of_nat (length runs)))
                                (runs ++ rest')
                      else runs ++ rest' |} = runs).
  { unfold RunsOf. simpl. rewrite Nat2Z.id.
    destruct ((Z.of_nat (length LoaderBlock) >? Z.of_nat (length runs))
              && Alloc2).
    - rewrite take_idemp. apply take_app_length.
    - apply take_app_length. }
  rewrite Hruns. repeat split.
Qed.

Lemma Coalesce_pages l x :
  Forall ValidRange l ->
  PageInRuns x (Coalesce l) <-> PageInDescriptors x l.
Proof.
  intros Hv. unfold Coalesce. destruct l as [|d l].
  - split; [intros (r & [] & _)|intros (d & [] & _)].
  - inversion Hv as [|? ? [Hdc Hde] Hvl]; subst.
    rewrite CoalesceFrom_pages by (simpl; try assumption; lia).
    unfold RunEnd. simpl. split.
    + intros [Hr|(d' & Hin & Hd')].
      * exists d. split; [left; reflexivity|exact Hr].
      * exists d'. split; [right; exact Hin|exact Hd'].
    + intros (d' & [<-|Hin] & Hd').
      * left. exact Hd'.
      * right. exists d'. split; assumption.
Qed.

(** X16.  For selected descriptors in any order, each a nonempty range of
    32-bit page numbers, with a page total that fits in 32 bits:
    [MmInitializeMemoryLimits] returns a block whose runs are the
    left-to-right coalescing of the selected descriptors.  The runs are
    nonempty and at most as many as the selected descriptors, no run starts
    where the run before it ends, the runs cover exactly the pages of the
    selected descriptors, and [NumberOfPages] is the sum of their page
    counts.  Descriptors that are not selected leave no trace. *)
Theorem MmInitializeMemoryLimits_any_order (checked Alloc2 : bool)
    (Pool : PHYSICAL_MEMORY_RUN) (LoaderBlock : LOADER_PARAMETER_BLOCK)
    (IncludeType : TYPE_OF_MEMORY -> bool) :
  Forall ValidRange (Included IncludeType LoaderBlock) ->
  Forall ValidPages (Included IncludeType LoaderBlock) ->
  SumPageCount (Included IncludeType LoaderBlock) < 2 ^ 32 ->
  Z.of_nat (length LoaderBlock) < 2 ^ 32 ->
  exists b,
    MmInitializeMemoryLimits checked true Alloc2 Pool
      (Z.of_nat (length LoaderBlock)) LoaderBlock IncludeType
    = Returns (Some b)
    /\ RunsOf b = Coalesce (Included IncludeType LoaderBlock)
    /\ NumberOfPages b = SumPageCount (Included IncludeType LoaderBlock)
    /\ NumberOfRuns b = Z.of_nat (length (RunsOf b))
    /\ (length (RunsOf b) <= length (Included IncludeType LoaderBlock))%nat
    /\ (forall x, PageInRuns x (RunsOf b) <->
                  PageInDescriptors x (Included IncludeType LoaderBlock))
    /\ NoAdjacentRuns (RunsOf b)
    /\ Forall (fun r => 0 < RunPageCount r) (RunsOf b).
Proof.
  intros Hv Hp Hsum Hcap.
  destruct (MmInitializeMemoryLimits_coalesces checked Alloc2 Pool LoaderBlock
              IncludeType Hv Hp Hsum Hcap) as (b & Hb & Hruns & Hpages & Hn).
  exists b. split; [exact Hb|]. split; [exact Hruns|].
  split; [exact Hpages|]. split; [exact Hn|]. rewrite Hruns.
  split; [|split; [|split]].
  - unfold Coalesce.
    destruct (Included IncludeType LoaderBlock) as [|d l]; [simpl; lia|].
    pose proof (CoalesceFrom_length (MkRun (BasePage d) (PageCount d)) l).
    simpl. lia.
  - intros x. apply Coalesce_pages. exact Hv.
  - unfold Coalesce.
    destruct (Included IncludeType LoaderBlock) as [|d l]; [exact I|].
    apply CoalesceFrom_no_adjacent.
  - unfold Coalesce.
    destruct (Included IncludeType LoaderBlock) as [|d l]; [constructor|].
    inversion Hv as [|? ? [Hdc Hde] Hvl]; subst.
    apply CoalesceFrom_nonempty_runs; [exact Hdc | exact Hvl].
Qed.

(** Two free ranges in descending order around a bad range, with the
    exclusions of [MmArmInitSystem]. *)
Lemma MmInitializeMemoryLimits_any_order_witness :
  exists b,
    MmInitializeMemoryLimits true true true (MkRun 0 0) 3
      [MkDescriptor LoaderFree 100 100; MkDescriptor LoaderBad 50 50;
       MkDescriptor LoaderFree 0 100]
      MmArmInitSystem_IncludeType = Returns (Some b)
    /\ RunsOf b = [MkRun 100 100; MkRun 0 100]
    /\ NumberOfPages b = 200.
Proof.
  destruct (MmInitializeMemoryLimits_any_order true true (MkRun 0 0)
              [MkDescriptor LoaderFree 100 100; MkDescriptor LoaderBad 50 50;
               MkDescriptor LoaderFree 0 100]
              MmArmInitSystem_IncludeType)
    as (b & Hb & Hruns & Hpages & _).
  - repeat constructor; simpl; lia.
  - repeat constructor; simpl; lia.
  - simpl. lia.
  - simpl. lia.
  - exists b. split; [exact Hb|]. split; [exact Hruns | exact Hpages].
Defined.

(** ** The PFN bitmap *)

Lemma RtlTestBit_set (b : RTL_BITMAP) (Start Count p : Z) :
  0 <= p < Z.of_nat (length (Bits b)) ->
  RtlTestBit (RtlSetBits b Start Count) p
  = (Start <=? p) && (p <? Start + Count) || RtlTestBit b p.
Proof.
  intros Hp. unfold RtlTestBit, RtlSetBits. simpl.
  destruct (Z.ltb_spec p 0) as [?|_]; [lia|].
  rewrite list_lookup_imap.
  destruct (Bits b !! Z.to_nat p) as [x|] eqn:E.
  - simpl. rewrite Z2Nat.id by lia.
    destruct ((Start <=? p) && (p <? Start + Count)); reflexivity.
  - apply lookup_ge_None in E. lia.
Qed.

Lemma RtlSetBits_length b Start Count :
  length (Bits (RtlSetBits b Start Count)) = length (Bits b).
Proof. unfold RtlSetBits. simpl. apply length_imap. Qed.

Lemma MiSetPfnBits_spec (Runs : list PHYSICAL_MEMORY_RUN) (n : nat) :
  forall (i : nat) (b : RTL_BITMAP),
  (i + n <= length Runs)%nat ->
  exists b',
    MiSetPfnBits n (Z.of_nat i) Runs b = Returns b'
    /\ SizeOfBitMap b' = SizeOfBitMap b
    /\ length (Bits b') = length (Bits b)
    /\ forall p, 0 <= p < Z.of_nat (length (Bits b)) ->
         RtlTestBit b' p
         = existsb (InRunB p) (take n (drop i Runs)) || RtlTestBit b p.
Proof.
  induction n as [|n IH]; intros i b Hlen.
  - exists b. split; [reflexivity|]. split; [reflexivity|].
    split; [reflexivity|]. intros p Hp. reflexivity.
  - cbn [MiSetPfnBits]. rewrite Nat2Z.id.
    destruct (Runs !! i) as [r|] eqn:Er.
    2:{ apply lookup_ge_None in Er. lia. }
    set (b1 := if negb (RunPageCount r =? 0)
               then RtlSetBits b (RunBasePage r) (RunPageCount r) else b).
    assert (Hb1 : SizeOfBitMap b1 = SizeOfBitMap b
                  /\ length (Bits b1) = length (Bits b)
                  /\ forall p, 0 <= p < Z.of_nat (length (Bits b)) ->
                       RtlTestBit b1 p = InRunB p r || RtlTestBit b p).
    { unfold b1. destruct (Z.eqb_spec (RunPageCount r) 0) as [Hz | Hnz]; simpl.
      - repeat split. intros p Hp. unfold InRunB. rewrite Hz.
        destruct (Z.leb_spec (RunBasePage r) p), (Z.ltb_spec p (RunBasePage r + 0));
          try lia; reflexivity.
      - split; [reflexivity|]. split; [apply RtlSetBits_length|].
        intros p Hp. apply RtlTestBit_set. exact Hp. }
    destruct Hb1 as (Hs1 & Hl1 & Ht1).
    replace (Z.of_nat i + 1) with (Z.of_nat (S i)) by lia.
    destruct (IH (S i) b1 ltac:(lia)) as (b' & Hret & Hs & Hl & Ht).
    exists b'. split; [exact Hret|]. split; [congruence|]. split; [congruence|].
    intros p Hp. rewrite Ht by lia. rewrite Ht1 by exact Hp.
    rewrite (drop_S _ _ _ Er). cbn [take existsb].
    destruct (InRunB p r), (existsb (InRunB p) (take n (drop (S i) Runs)));
      reflexivity.
Qed.

Lemma existsb_InRunB p runs :
  existsb (InRunB p) runs = true <-> PageInRuns p runs.
Proof.
  rewrite existsb_exists. unfold PageInRuns, InRunB, RunEnd.
  split; intros (r & Hin & Hr); exists r; (split; [exact Hin|]).
  - apply andb_true_iff in Hr. destruct Hr as [H1 H2].
    apply Z.leb_le in H1. apply Z.ltb_lt in H2. lia.
  - apply andb_true_iff. split; [apply Z.leb_le | apply Z.ltb_lt]; lia.
Qed.

(** The bitmap when the allocation succeeds. *)
Lemma MmArmInitSystem_PfnBitMap_returns (Fresh : nat -> bool)
    (g : MM_GLOBALS) (Block : PHYSICAL_MEMORY_DESCRIPTOR) :
  0 <= MmHighestPhysicalPage g -> MmHighestPhysicalPage g + 32 < 2 ^ 32 ->
  0 <= NumberOfRuns Block <= Z.of_nat (length (Run Block)) ->
  exists b,
    MmArmInitSystem_PfnBitMap true Fresh g (Some Block) = Returns b
    /\ SizeOfBitMap b = MmHighestPhysicalPage g + 1
    /\ MmHighestPhysicalPage g + 1 <= Z.of_nat (length (Bits b))
    /\ forall p, 0 <= p <= MmHighestPhysicalPage g ->
         RtlTestBit b p = existsb (InRunB p) (RunsOf Block).
Proof.
  intros H0 Hhi Hruns.
  unfold MmArmInitSystem_PfnBitMap. cbn [negb].
  change (2 ^ 32) with 4294967296 in *.
  rewrite (ULONG_small (MmHighestPhysicalPage g + 1))
    by (change (2 ^ 32) with 4294967296; lia).
  rewrite (ULONG_small (MmHighestPhysicalPage g + 1 + 31))
    by (change (2 ^ 32) with 4294967296; lia).
  rewrite ULONG_small by (change (2 ^ 32) with 4294967296; lia_div).
  set (Buffer := map Fresh _).
  assert (HlenB : MmHighestPhysicalPage g + 1 <= Z.of_nat (length Buffer)).
  { unfold Buffer. rewrite length_map, length_seq, Z2Nat.id by lia_div. lia_div. }
  destruct (MiSetPfnBits_spec (Run Block) (Z.to_nat (NumberOfRuns Block)) 0
              (RtlClearAllBits
                 (RtlInitializeBitMap Buffer (MmHighestPhysicalPage g + 1))))
    as (b & Hret & Hs & Hl & Ht); [lia|].
  change (Z.of_nat 0) with 0 in Hret.
  exists b. split; [exact Hret|]. split; [exact Hs|].
  assert (Hlen0 : length (Bits (RtlClearAllBits
            (RtlInitializeBitMap Buffer (MmHighestPhysicalPage g + 1))))
          = length Buffer).
  { unfold RtlClearAllBits, RtlInitializeBitMap. simpl. apply length_map. }
  split; [rewrite Hl, Hlen0; exact HlenB|].
  intros p Hp. rewrite Ht by (rewrite Hlen0; lia).
  rewrite RtlTestBit_clear_all, orb_false_r.
  rewrite drop_0. reflexivity.
Qed.

(** X17.  The PFN bitmap that [MmArmInitSystem] builds from a physical
    memory block: when the pool allocation succeeds, [MiPfnBitMap] has
    [MmHighestPhysicalPage + 1] bits, and the bit of a page up to
    [MmHighestPhysicalPage] is set exactly when the page lies in one of the
    runs of the block.  When the allocation fails the function bugchecks
    with [INSTALL_MORE_MEMORY], the total, the lowest and the highest page
    and [0x101].  When [MmInitializeMemoryLimits] has returned [NULL] the
    loop dereferences the null block. *)
Theorem MmArmInitSystem_PfnBitMap_bits (Alloc : bool) (Fresh : nat -> bool)
    (g : MM_GLOBALS) (Block : PHYSICAL_MEMORY_DESCRIPTOR) :
  0 <= MmHighestPhysicalPage g -> MmHighestPhysicalPage g + 32 < 2 ^ 32 ->
  0 <= NumberOfRuns Block <= Z.of_nat (length (Run Block)) ->
  (if Alloc
   then exists b,
          MmArmInitSystem_PfnBitMap Alloc Fresh g (Some Block) = Returns b
          /\ SizeOfBitMap b = MmHighestPhysicalPage g + 1
          /\ MmHighestPhysicalPage g + 1 <= Z.of_nat (length (Bits b))
          /\ forall p, 0 <= p <= MmHighestPhysicalPage g ->
               (RtlTestBit b p = true <-> PageInRuns p (RunsOf Block))
   else MmArmInitSystem_PfnBitMap Alloc Fresh g (Some Block)
        = BugCheck INSTALL_MORE_MEMORY (MmNumberOfPhysicalPages g)
                   (MmLowestPhysicalPage g) (MmHighestPhysicalPage g) 0x101)
  /\ MmArmInitSystem_PfnBitMap true Fresh g None = AccessViolation.
Proof.
  intros H0 Hhi Hruns. split; [|reflexivity].
  destruct Alloc; [|reflexivity].
  destruct (MmArmInitSystem_PfnBitMap_returns Fresh g Block H0 Hhi Hruns)
    as (b & Hret & Hs & Hl & Ht).
  exists b. split; [exact Hret|]. split; [exact Hs|]. split; [exact Hl|].
  intros p Hp. rewrite (Ht p Hp). apply existsb_InRunB.
Qed.

(** A block of two runs (and a spare array element): page 9 is in the
    bitmap, page 10 is not. *)
Lemma MmArmInitSystem_PfnBitMap_bits_witness :
  exists b,
    MmArmInitSystem_PfnBitMap true (fun _ => true) TwoFreeBlocksGlobals
      (Some (MkPhysicalMemory 2 14 [MkRun 8 2; MkRun 0x10 2; MkRun 0 0]))
    = Returns b
    /\ RtlTestBit b 9 = true
    /\ RtlTestBit b 10 = false.
Proof.
  destruct (MmArmInitSystem_PfnBitMap_bits true (fun _ => true)
              TwoFreeBlocksGlobals
              (MkPhysicalMemory 2 14 [MkRun 8 2; MkRun 0x10 2; MkRun 0 0]))
    as [(b & Hb & _ & _ & Hbits) _];
    [simpl; lia | simpl; lia | simpl; lia |].
  exists b. split; [exact Hb|]. split.
  - apply Hbits; [simpl; lia|].
    exists (MkRun 8 2). split; [left; reflexivity | unfold RunEnd; simpl; lia].
  - destruct (RtlTestBit b 10) eqn:E; [|reflexivity].
    apply Hbits in E; [|simpl; lia].
    destruct E as (r & [<- | [<- | []]] & Hr); unfold RunEnd in Hr;
      simpl in Hr; lia.
Defined.

Lemma MmArmInitSystem_IncludeType_in_database (t : TYPE_OF_MEMORY) :
  MmArmInitSystem_IncludeType t = true -> MiIsMemoryTypeInDatabase t = true.
Proof. destruct t; simpl; intros H; try discriminate H; reflexivity. Qed.

Lemma Forall_Included (P : MEMORY_ALLOCATION_DESCRIPTOR -> Prop) Inc l :
  Forall P l -> Forall P (Included Inc l).
Proof.
  intros H. apply List.Forall_forall. intros d Hd.
  apply filter_In in Hd. destruct Hd as [Hd _].
  rewrite List.Forall_forall in H. exact (H d Hd).
Qed.

Lemma SumPageCount_Included_le Inc l :
  Forall ValidPages l -> SumPageCount (Included Inc l) <= SumPageCount l.
Proof.
  induction 1 as [|d l (_ & Hc & _) Hl IH]; simpl; [lia|].
  destruct (Inc (MemoryType d)); simpl; lia.
Qed.

(** X18.  The scan, [MmInitializeMemoryLimits] with the exclusions of
    [MmArmInitSystem] and the building of the PFN bitmap, one after the
    other, on a list of nonempty ranges of 32-bit page numbers in any
    order: every page of a descriptor that is not bad, firmware permanent,
    special or BBT memory lies at or below [MmHighestPhysicalPage], and the
    bit of a page up to [MmHighestPhysicalPage] is set exactly when the
    page belongs to such a descriptor. *)
Theorem MmArmInitSystem_PfnBitMap_of_loader_block (checked Alloc2 : bool)
    (Pool : PHYSICAL_MEMORY_RUN) (Fresh : nat -> bool)
    (LoaderBlock : LOADER_PARAMETER_BLOCK) (g : MM_GLOBALS) :
  Forall ValidRange LoaderBlock ->
  Forall ValidPages LoaderBlock ->
  SumPageCount LoaderBlock < 2 ^ 32 ->
  Z.of_nat (length LoaderBlock) < 2 ^ 32 ->
  MiScanMemoryDescriptors LoaderBlock InitialGlobals = Returns g ->
  MmHighestPhysicalPage g + 32 < 2 ^ 32 ->
  exists Block b,
    MmInitializeMemoryLimits checked true Alloc2 Pool (MiNumberDescriptors g)
      LoaderBlock MmArmInitSystem_IncludeType = Returns (Some Block)
    /\ MmArmInitSystem_PfnBitMap true Fresh g (Some Block) = Returns b
    /\ (forall p,
          PageInDescriptors p (Included MmArmInitSystem_IncludeType LoaderBlock)
          -> 0 <= p <= MmHighestPhysicalPage g)
    /\ (forall p, 0 <= p <= MmHighestPhysicalPage g ->
          (RtlTestBit b p = true <->
           PageInDescriptors p
             (Included MmArmInitSystem_IncludeType LoaderBlock))).
Proof.
  intros Hv Hp Hsum Hcap Hscan Hhi.
  set (Inc := MmArmInitSystem_IncludeType).
  assert (Hvd : Forall ValidDescriptor LoaderBlock).
  { apply List.Forall_forall. intros d Hd.
    rewrite List.Forall_forall in Hv, Hp.
    destruct (Hv d Hd) as [H1 H2]. destruct (Hp d Hd) as (H3 & _ & _).
    unfold ValidDescriptor. lia. }
  unfold MiScanMemoryDescriptors in Hscan.
  destruct (Deref LoaderBlock
              (MxFreeDescriptor (MiScanLoop 0 LoaderBlock InitialGlobals)))
    as [bd|] eqn:Ed; [|discriminate Hscan].
  injection Hscan as <-. cbn [MiNumberDescriptors MmHighestPhysicalPage] in *.
  rewrite MiScanLoop_number by (simpl; lia).
  change (MiNumberDescriptors InitialGlobals) with 0. rewrite Z.add_0_l.
  rewrite ULONG_small by lia.
  destruct (MiScanLoop_highest LoaderBlock 0%nat InitialGlobals Hvd)
    as (H0 & Hmax & _).
  change (MmHighestPhysicalPage InitialGlobals) with 0 in H0.
  set (highest := MmHighestPhysicalPage (MiScanLoop 0 LoaderBlock InitialGlobals))
    in *.
  pose proof (SumPageCount_Included_le Inc LoaderBlock Hp) as Hle.
  destruct (MmInitializeMemoryLimits_coalesces checked Alloc2 Pool LoaderBlock
              Inc (Forall_Included _ Inc _ Hv) (Forall_Included _ Inc _ Hp)
              ltac:(lia) Hcap) as (Block & HB & Hruns & _ & Hn).
  assert (Hlen : 0 <= NumberOfRuns Block <= Z.of_nat (length (Run Block))).
  { rewrite Hn. unfold RunsOf. rewrite length_take. lia. }
  match goal with
  | |- context [MmArmInitSystem_PfnBitMap true Fresh ?g0 _] =>
      destruct (MmArmInitSystem_PfnBitMap_returns Fresh g0 Block)
        as (b & Hb & _ & _ & Hbits); [exact H0 | exact Hhi | exact Hlen |]
  end.
  cbn [MmHighestPhysicalPage] in Hbits. fold highest in Hbits.
  exists Block, b. split; [exact HB|]. split; [exact Hb|]. split.
  - intros p (d & Hin & Hd).
    apply filter_In in Hin. destruct Hin as [Hin Hinc].
    rewrite List.Forall_forall in Hp, Hmax.
    destruct (Hp d Hin) as (Hd0 & _ & _).
    assert (Hlast : LastPage d <= highest).
    { apply Hmax. apply in_map. apply InDatabase_In; [exact Hin|].
      apply MmArmInitSystem_IncludeType_in_database. exact Hinc. }
    unfold LastPage in Hlast. lia.
  - intros p Hpr. rewrite (Hbits p Hpr), existsb_InRunB, Hruns.
    apply Coalesce_pages. apply Forall_Included. exact Hv.
Qed.

(** [SampleLoaderBlock]: the last free page 0x9F is in the bitmap, the
    bad page 0xA0 is not. *)
Lemma MmArmInitSystem_PfnBitMap_of_loader_block_witness :
  exists Block b,
    MmInitializeMemoryLimits true true true (MkRun 0 0) 5
      SampleLoaderBlock MmArmInitSystem_IncludeType = Returns (Some Block)
    /\ MmArmInitSystem_PfnBitMap true (fun _ => true)
         (MkGlobals 5 0x10DF 1 0x113F 0x109F 0x1000 0x140 (Some 4%nat)
                    (MkDescriptor LoaderFree 0x140 0x1000))
         (Some Block) = Returns b
    /\ RtlTestBit b 0x9F = true
    /\ RtlTestBit b 0xA0 = false.
Proof.
  destruct (MmArmInitSystem_PfnBitMap_of_loader_block true true (MkRun 0 0)
              (fun _ => true) SampleLoaderBlock
              (MkGlobals 5 0x10DF 1 0x113F 0x109F 0x1000 0x140 (Some 4%nat)
                         (MkDescriptor LoaderFree 0x140 0x1000)))
    as (Block & b & HB & Hb & _ & Hbits).
  - repeat constructor; simpl; lia.
  - repeat constructor; simpl; lia.
  - simpl. lia.
  - simpl. lia.
  - reflexivity.
  - simpl. lia.
  - exists Block, b. split; [exact HB|]. split; [exact Hb|]. split.
    + apply Hbits; [simpl; lia|].
      exists (MkDescriptor LoaderFree 1 0x9F).
      split; [simpl; auto | simpl; lia].
    + destruct (RtlTestBit b 0xA0) eqn:E; [|reflexivity].
      apply Hbits in E; [|simpl; lia].
      destruct E as (d & Hin & Hd). simpl in Hin.
      destruct Hin as [<- | [<- | [<- | []]]]; simpl in Hd; lia.
Defined.

(** ** The dump of the memory descriptors *)

Lemma MemType_lookup (t : TYPE_OF_MEMORY) :
  if HasTypeName t
  then exists Name, nth_error MemType (MemoryTypeIndex t) = Some Name
  else nth_error MemType (MemoryTypeIndex t) = None.
Proof. destruct t; simpl; eauto. Qed.

Lemma MiDbgDumpLoop_spec l : forall Lines Total,
  0 <= Total < 2 ^ 32 ->
  if forallb (fun d => HasTypeName (MemoryType d)) l
  then exists Lines',
         MiDbgDumpLoop l Lines Total
         = Returns (Lines ++ Lines', ULONG (Total + SumPageCount l))
         /\ map (fun x => (fst (fst x), snd (fst x))) Lines'
            = map (fun d => (BasePage d, PageCount d)) l
  else MiDbgDumpLoop l Lines Total = AccessViolation.
Proof.
  induction l as [|d l IH]; intros Lines Total HT.
  - simpl. exists []. rewrite app_nil_r, Z.add_0_r, ULONG_small by exact HT.
    split; reflexivity.
  - cbn [forallb MiDbgDumpLoop].
    pose proof (MemType_lookup (MemoryType d)) as Hn.
    destruct (HasTypeName (MemoryType d)); cbn [andb].
    + destruct Hn as (Name & ->).
      specialize (IH (Lines ++ [(BasePage d, PageCount d, Name)])
                     (ULONG (Total + PageCount d)) (ULONG_range _)).
      destruct (forallb (fun d => HasTypeName (MemoryType d)) l).
      * destruct IH as (Lines' & Hr & Hm).
        exists ((BasePage d, PageCount d, Name) :: Lines').
        rewrite Hr, <- app_assoc, ULONG_add_l. simpl.
        split; [do 3 f_equal; lia | f_equal; exact Hm].
      * exact IH.
    + rewrite Hn. reflexivity.
Qed.

(** X19.  [MiDbgDumpMemoryDescriptors] prints one line for each descriptor
    and the 32-bit sum of all page counts when every descriptor has one of
    the 26 types that the [MemType] table names.  For a descriptor of type
    [LoaderHALCachedMemory], [LoaderLargePageFiller] or
    [LoaderErrorLogMemory], which the scan accepts, it indexes the table
    past its end.  The figure in megabytes is computed in 32 bits: 4 GB of
    memory print as 0 MB. *)
Theorem MiDbgDumpMemoryDescriptors_names
    (LoaderBlock : LOADER_PARAMETER_BLOCK) :
  (if forallb (fun d => HasTypeName (MemoryType d)) LoaderBlock
   then exists Lines,
          MiDbgDumpMemoryDescriptors LoaderBlock
          = Returns (Lines, ULONG (SumPageCount LoaderBlock),
                     ULONG (ULONG (SumPageCount LoaderBlock) * PAGE_SIZE)
                     / 1024 / 1024)
          /\ map (fun x => (fst (fst x), snd (fst x))) Lines
             = map (fun d => (BasePage d, PageCount d)) LoaderBlock
   else MiDbgDumpMemoryDescriptors LoaderBlock = AccessViolation)
  /\ MiDbgDumpMemoryDescriptors [MkDescriptor LoaderHALCachedMemory 0x100 1]
     = AccessViolation
  /\ MiDbgDumpMemoryDescriptors [MkDescriptor LoaderFree 0 0x100000]
     = Returns ([(0, 0x100000, "Free              "%string)], 0x100000, 0).
Proof.
  split; [|split; reflexivity].
  unfold MiDbgDumpMemoryDescriptors.
  pose proof (MiDbgDumpLoop_spec LoaderBlock [] 0
                ltac:(change (2 ^ 32) with 4294967296; lia)) as H.
  destruct (forallb (fun d => HasTypeName (MemoryType d)) LoaderBlock).
  - destruct H as (Lines & -> & Hm). exists Lines. split; [reflexivity|exact Hm].
  - rewrite H. reflexivity.
Qed.
